(** * Multi-cloud cost optimisation core: a shallow embedding

  The development follows the services of [Project2/backend/app/services]
  and the endpoints of [Project2/backend/app/api] built on them:
  - [cost_analyzer.py]   -> [Module CostAnalyzer]
  - [cost_normalizer.py] -> [Module CostNormalizer], [Module CostRecordDict]
  - [data_sources.py]    -> [Module DataSources], [Module RestResponse]
  - [pricing_scraper.py] -> [Module PricingScraper], [Module PriceChangeDetector]
  - [price_monitor.py]   -> [Module PriceMonitor]
  - [api/cost.py]        -> [Module CostApi]

  Python [float] is IEEE-754 binary64 and is modelled by Rocq's primitive
  floats, so every arithmetic step below rounds as the interpreter does.
  Python [dict] keeps insertion order and is modelled by association lists
  ([Module PyDict]); Python exceptions are an explicit outcome
  ([Module Py]). *)

From Stdlib Require Import Bool List ZArith Lia Ascii String.
From Stdlib Require Import Floats SpecFloat DecimalString.
From Stdlib Require Import Sorted Permutation.
Import ListNotations.

Set Implicit Arguments.
Set Warnings "-inexact-float".
Open Scope string_scope.
Open Scope list_scope.

(* ================================================================== *)
(** ** Python strings (ASCII text) *)
(* ================================================================== *)

Module PyStr.

(** [c.lower()] on one ASCII character. *)
Definition lower_char (c : ascii) : ascii :=
  let n := nat_of_ascii c in
  if andb (Nat.leb 65 n) (Nat.leb n 90) then ascii_of_nat (n + 32) else c.

(** [s.lower()] on ASCII text.  A character outside ASCII is left as it
    is, where Python folds every cased letter: on text that is not
    [is_ascii] the two may differ. *)
Fixpoint lower (s : string) : string :=
  match s with
  | EmptyString => EmptyString
  | String c t => String (lower_char c) (lower t)
  end.

(** [s.isascii()] *)
Fixpoint is_ascii (s : string) : bool :=
  match s with
  | EmptyString => true
  | String c t => Nat.ltb (nat_of_ascii c) 128 && is_ascii t
  end.

(** [s.startswith(p)] *)
Definition startswith (p s : string) : bool := String.prefix p s.

(** [needle in hay] *)
Fixpoint contains (needle hay : string) : bool :=
  if String.prefix needle hay then true
  else match hay with
       | EmptyString => false
       | String _ t => contains needle t
       end.

(** [any(x in s for x in needles)] *)
Definition contains_any (needles : list string) (s : string) : bool :=
  existsb (fun x => contains x s) needles.

(** [s.split(sep)] for a one-character separator: never the empty list. *)
Fixpoint split (sep : ascii) (s : string) : list string :=
  match s with
  | EmptyString => [EmptyString]
  | String c t =>
      if Ascii.eqb c sep then EmptyString :: split sep t
      else match split sep t with
           | h :: r => String c h :: r
           | [] => [String c EmptyString]
           end
  end.

(** [s.split(sep, 1)]: the text before the first separator and, when there
    is a separator, the text after it. *)
Fixpoint split_once (sep : ascii) (s : string) : string * option string :=
  match s with
  | EmptyString => (EmptyString, None)
  | String c t =>
      if Ascii.eqb c sep then (EmptyString, Some t)
      else let '(h, r) := split_once sep t in (String c h, r)
  end.

(** [s.replace(old, new)] for a non-empty [old]: occurrences are replaced
    left to right without overlap.  [skip] counts the characters of a matched
    occurrence that are still to be dropped. *)
Fixpoint replace_from (old new : string) (skip : nat) (s : string) : string :=
  match s with
  | EmptyString => EmptyString
  | String c t =>
      match skip with
      | S k => replace_from old new k t
      | O =>
          if String.prefix old s
          then (new ++ replace_from old new (String.length old - 1) t)%string
          else String c (replace_from old new 0 t)
      end
  end.

Definition replace (old new s : string) : string := replace_from old new 0 s.

(** [str(n)] for an integer. *)
Definition of_Z (z : Z) : string := NilZero.string_of_int (Z.to_int z).

End PyStr.

(* ================================================================== *)
(** ** Python dictionaries with string keys *)
(* ================================================================== *)

Module PyDict.

(** Entries in insertion order; a key occurs at most once in every
    dictionary built with [set] from [empty]. *)
Definition dict (V : Type) : Type := list (string * V).

Definition empty {V : Type} : dict V := [].

(** [d.get(k)] *)
Fixpoint get {V : Type} (d : dict V) (k : string) : option V :=
  match d with
  | [] => None
  | (k', v) :: t => if String.eqb k k' then Some v else get t k
  end.

(** [d.get(k, default)] *)
Definition get_default {V : Type} (d : dict V) (k : string) (default : V) : V :=
  match get d k with Some v => v | None => default end.

(** [k in d] *)
Definition mem {V : Type} (d : dict V) (k : string) : bool :=
  match get d k with Some _ => true | None => false end.

(** [d[k] = v]: an existing key keeps its position, a new key goes last. *)
Fixpoint set {V : Type} (d : dict V) (k : string) (v : V) : dict V :=
  match d with
  | [] => [(k, v)]
  | (k', v') :: t =>
      if String.eqb k k' then (k', v) :: t else (k', v') :: set t k v
  end.

Definition keys {V : Type} (d : dict V) : list string := map fst d.
Definition values {V : Type} (d : dict V) : list V := map snd d.
Definition items {V : Type} (d : dict V) : list (string * V) := d.

(** [d[k].append(x)] on a [defaultdict(list)] *)
Definition append {V : Type} (d : dict (list V)) (k : string) (x : V)
  : dict (list V) :=
  set d k (get_default d k [] ++ [x]).

Lemma get_set_same {V : Type} (d : dict V) (k : string) (v : V) :
  get (set d k v) k = Some v.
Proof.
  induction d as [|[k' v'] t IH]; simpl.
  - now rewrite String.eqb_refl.
  - destruct (String.eqb k k') eqn:E; simpl; rewrite E; auto.
Qed.

Lemma get_set_other {V : Type} (d : dict V) (k k0 : string) (v : V) :
  k0 <> k -> get (set d k v) k0 = get d k0.
Proof.
  intros Hne. induction d as [|[k' v'] t IH]; simpl.
  - destruct (String.eqb k0 k) eqn:E; auto.
    apply String.eqb_eq in E. contradiction.
  - destruct (String.eqb k k') eqn:E; simpl.
    + apply String.eqb_eq in E; subst k'.
      destruct (String.eqb k0 k) eqn:E0; auto.
      apply String.eqb_eq in E0. contradiction.
    + destruct (String.eqb k0 k'); auto.
Qed.

Lemma get_In_keys {V : Type} (d : dict V) (k : string) :
  In k (keys d) <-> get d k <> None.
Proof.
  induction d as [|[k' v'] t IH]; simpl.
  - split; [tauto | congruence].
  - destruct (String.eqb k k') eqn:E.
    + apply String.eqb_eq in E. subst. split; [congruence | auto].
    + apply String.eqb_neq in E. rewrite <- IH. split.
      * intros [H | H]; [congruence | assumption].
      * auto.
Qed.

Lemma keys_set {V : Type} (d : dict V) (k : string) (v : V) :
  keys (set d k v) = if mem d k then keys d else keys d ++ [k].
Proof.
  unfold mem. induction d as [|[k' v'] t IH]; simpl; auto.
  destruct (String.eqb k k') eqn:E; simpl; auto.
  rewrite IH. destruct (get t k); auto.
Qed.

Lemma NoDup_keys_set {V : Type} (d : dict V) (k : string) (v : V) :
  NoDup (keys d) -> NoDup (keys (set d k v)).
Proof.
  intros H. rewrite keys_set. unfold mem.
  destruct (get d k) eqn:E; auto.
  apply NoDup_app; auto.
  - constructor; [simpl; tauto | constructor].
  - intros x Hx [Hk | []]. subst x.
    apply get_In_keys in Hx. congruence.
Qed.

(** No string occurs twice. *)
Fixpoint unique (l : list string) : bool :=
  match l with
  | [] => true
  | k :: t => negb (existsb (String.eqb k) t) && unique t
  end.

(** What every Python dictionary satisfies: a key occurs at most once. *)
Definition unique_keys {V : Type} (d : dict V) : bool := unique (keys d).

Lemma unique_NoDup (l : list string) : unique l = true -> NoDup l.
Proof.
  induction l as [|k t IH]; simpl; intros H; constructor.
  - apply andb_prop in H. destruct H as [H _].
    intros Hin. apply negb_true_iff in H.
    assert (E : existsb (String.eqb k) t = true).
    { apply existsb_exists. exists k. split; auto. apply String.eqb_refl. }
    congruence.
  - apply andb_prop in H. tauto.
Qed.

Lemma get_item {V : Type} (d : dict V) (k : string) (v : V) :
  NoDup (keys d) -> In (k, v) (items d) -> get d k = Some v.
Proof.
  unfold items. induction d as [|[k' v'] t IH]; simpl; intros Hn Hin; [tauto|].
  inversion Hn as [|? ? Hk Ht]; subst.
  destruct Hin as [E | Hin].
  - inversion E; subst. now rewrite String.eqb_refl.
  - destruct (String.eqb k k') eqn:E.
    + apply String.eqb_eq in E. subst k'.
      exfalso. apply Hk. change k with (fst (k, v)). now apply in_map.
    + auto.
Qed.

Lemma item_get {V : Type} (d : dict V) (k : string) (v : V) :
  get d k = Some v -> In (k, v) (items d).
Proof.
  unfold items. induction d as [|[k' v'] t IH]; simpl; intros H; [discriminate|].
  destruct (String.eqb k k') eqn:E.
  - apply String.eqb_eq in E. inversion H; subst. auto.
  - auto.
Qed.

End PyDict.

(* ================================================================== *)
(** ** Outcomes of Python calls and float helpers *)
(* ================================================================== *)

Module Py.

(** The exceptions the modelled code can raise; [ExternalError] stands for
    whatever a library below the modelled code raises (file, database or
    network failure). *)
Inductive exn : Type :=
| ValueError (msg : string)
| TypeError
| OverflowError
| AttributeError
| ZeroDivisionError
| ExternalError (msg : string).

(** A call returns a value or raises.  [Unmodelled] marks an input outside
    the typed model (a cell of a type the model gives no representation
    to): nothing is stated about what the interpreter does there. *)
Inductive outcome (A : Type) : Type :=
| Ok (a : A)
| Raises (e : exn)
| Unmodelled.
Arguments Ok {A} a.
Arguments Raises {A} e.
Arguments Unmodelled {A}.

Definition bind {A B : Type} (m : outcome A) (f : A -> outcome B) : outcome B :=
  match m with
  | Ok a => f a
  | Raises e => Raises e
  | Unmodelled => Unmodelled
  end.

(** [sum(xs)] over floats: the running total starts at zero and adds the
    items left to right. *)
Definition sum (xs : list float) : float :=
  fold_left PrimFloat.add xs 0%float.

(** A call that returns or raises, for code whose inputs all lie inside the
    model. *)
Definition result (A : Type) : Type := (exn + A)%type.

Definition bind_result {A B : Type} (m : result A) (f : A -> result B)
  : result B :=
  match m with
  | inr a => f a
  | inl e => inl e
  end.

(** [a / b]: Python raises on a zero divisor instead of producing an
    infinity or a NaN. *)
Definition div (a b : float) : result float :=
  if PrimFloat.eqb b 0%float then inl ZeroDivisionError
  else inr (PrimFloat.div a b).

(** [bool(x)] for a float: zero of either sign is falsy, NaN is truthy. *)
Definition truthy (x : float) : bool := negb (PrimFloat.eqb x 0%float).

(** [a > b] *)
Definition gt (a b : float) : bool := PrimFloat.ltb b a.

(** [float(n)] for an integer literal of the source. *)
Definition of_Z (z : Z) : float :=
  SF2Prim (binary_normalize prec emax z 0 false).

End Py.

Notation "x <- m ;; k" := (Py.bind m (fun x => k))
  (at level 61, m at next level, right associativity).
Notation "x <-- m ;; k" := (Py.bind_result m (fun x => k))
  (at level 61, m at next level, right associativity).


(* ================================================================== *)
(** ** The builtin [float()] *)
(* ================================================================== *)

Module PyFloat.

Definition is_space (c : ascii) : bool :=
  let n := nat_of_ascii c in
  (Nat.leb 9 n && Nat.leb n 13) || Nat.eqb n 32.

Definition is_digit (c : ascii) : bool :=
  let n := nat_of_ascii c in
  Nat.leb 48 n && Nat.leb n 57.

Definition is_ascii (c : ascii) : bool := Nat.ltb (nat_of_ascii c) 128.

Fixpoint lstrip (l : list ascii) : list ascii :=
  match l with
  | c :: t => if is_space c then lstrip t else l
  | [] => []
  end.

(** Leading and trailing white space is dropped before parsing. *)
Definition strip (l : list ascii) : list ascii :=
  rev (lstrip (rev (lstrip l))).

(** Digit-group underscores: allowed only between two digits, and
    removed.  [prev] is the previous character (NUL at the start). *)
Fixpoint drop_underscores (prev : ascii) (l : list ascii) : option (list ascii) :=
  match l with
  | [] => if Ascii.eqb prev "_" then None else Some []
  | c :: t =>
      if Ascii.eqb c "_"
      then if is_digit prev then drop_underscores c t else None
      else if Ascii.eqb prev "_" && negb (is_digit c) then None
           else option_map (cons c) (drop_underscores c t)
  end.

(** The longest prefix of digits, and the rest. *)
Fixpoint span_digits (l : list ascii) : list ascii * list ascii :=
  match l with
  | c :: t =>
      if is_digit c
      then let '(ds, r) := span_digits t in (c :: ds, r)
      else ([], l)
  | [] => ([], [])
  end.

Definition digits_value (ds : list ascii) : Z :=
  fold_left (fun acc c => (10 * acc + Z.of_nat (nat_of_ascii c - 48))%Z) ds 0%Z.

(** An optional sign: [true] for minus. *)
Definition split_sign (l : list ascii) : bool * list ascii :=
  match l with
  | c :: t =>
      if Ascii.eqb c "-" then (true, t)
      else if Ascii.eqb c "+" then (false, t)
      else (false, l)
  | [] => (false, [])
  end.

(** A decimal literal [digits [. digits] [e [sign] digits]] with a digit in
    its mantissa, read as (m, e) for the value m * 10^e. *)
Definition parse_decimal (l : list ascii) : option (Z * Z) :=
  let '(ip, r1) := span_digits l in
  let '(fp, r2) :=
    match r1 with
    | c :: t => if Ascii.eqb c "." then span_digits t else ([], r1)
    | [] => ([], [])
    end in
  match ip ++ fp with
  | [] => None
  | mant =>
      let m := digits_value mant in
      let shift := Z.of_nat (List.length fp) in
      match r2 with
      | [] => Some (m, (- shift)%Z)
      | c :: t =>
          if Ascii.eqb c "e" || Ascii.eqb c "E"
          then
            let '(eneg, t') := split_sign t in
            match span_digits t' with
            | (d :: ds, []) =>
                let e := digits_value (d :: ds) in
                Some (m, ((if eneg then - e else e) - shift)%Z)
            | _ => None
            end
          else None
      end
  end.

(** The double nearest to (-1)^neg * m * 10^e, ties to even; overflow
    gives an infinity and underflow a zero, as [strtod] does. *)
Definition of_decimal (neg : bool) (m e : Z) : float :=
  match m with
  | Zpos p =>
      if (0 <=? e)%Z
      then SF2Prim (binary_normalize prec emax
                      (cond_Zopp neg (Zpos p * 10 ^ e)) 0 false)
      else SF2Prim (SFdiv prec emax
                      (S754_finite neg p 0)
                      (S754_finite false (Z.to_pos (10 ^ (- e))) 0))
  | _ => SF2Prim (S754_zero neg)
  end.

Definition could_not_convert : Py.exn :=
  Py.ValueError "could not convert string to float".

(** [float(s)] for a string.  Strings with a character outside ASCII are
    left unmodelled (the interpreter also accepts other scripts' digits and
    spaces). *)
Definition of_string (s : string) : Py.outcome float :=
  let l := list_ascii_of_string s in
  if negb (forallb is_ascii l) then Py.Unmodelled
  else
    match drop_underscores Ascii.zero (strip l) with
    | None => Py.Raises could_not_convert
    | Some body =>
        let '(neg, rest) := split_sign body in
        let word := PyStr.lower (string_of_list_ascii rest) in
        if String.eqb word "inf" || String.eqb word "infinity"
        then Py.Ok (if neg then neg_infinity else infinity)
        else if String.eqb word "nan" then Py.Ok nan
        else match parse_decimal rest with
             | Some (m, e) => Py.Ok (of_decimal neg m e)
             | None => Py.Raises could_not_convert
             end
    end.

(** [float(n)] for an integer: the nearest double, or [OverflowError]. *)
Definition of_int (z : Z) : Py.outcome float :=
  let f := Py.of_Z z in
  if is_infinity f then Py.Raises Py.OverflowError else Py.Ok f.

End PyFloat.

(* ================================================================== *)
(** ** cost_normalizer.py *)
(* ================================================================== *)

Module CostNormalizer.
Import PyDict.

(** A cell of a raw billing row ([Dict[str, Any]]): what a CSV or JSON
    loader delivers. *)
Inductive PyValue : Type :=
| VNone
| VInt (z : Z)
| VFloat (f : float)
| VStr (s : string)
| VDict (d : dict string).

Definition Row : Type := dict PyValue.

(** [UnifiedCostRecord]: the textual fields hold strings, [cost_usd] is the
    float the constructor stores, [usage_metrics] and [tags] are
    string-keyed mappings of text.  (The constructor applies [float()] to
    [cost_usd] once more; on a float that is the identity.)  A record that
    holds anything else under one of these fields -- the [None] an absent
    cell of a report leaves under a metric -- has no representation here:
    the normalizers answer [Unmodelled] for such a row, and what the
    analyzer does with such a record (its [instance_type.lower()] raises
    [AttributeError]) lies outside this development. *)
Record UnifiedCostRecord : Type := {
  resource_id : string;
  cloud_provider : string;
  service_category : string;
  resource_type : string;
  cost_usd : float;
  usage_metrics : dict string;
  region : string;
  tags : dict string;
  date : string
}.

(** [float(v)] *)
Definition py_float (v : PyValue) : Py.outcome float :=
  match v with
  | VFloat f => Py.Ok f
  | VInt z => PyFloat.of_int z
  | VStr s => PyFloat.of_string s
  | VNone => Py.Raises Py.TypeError
  | VDict _ => Py.Raises Py.TypeError
  end.

(** [bool(v)] *)
Definition truthy (v : PyValue) : bool :=
  match v with
  | VNone => false
  | VInt z => negb (Z.eqb z 0)
  | VFloat f => Py.truthy f
  | VStr s => negb (String.eqb s "")
  | VDict d => match d with [] => false | _ => true end
  end.

(** A cell stored where the record holds text: only a string has a
    representation there. *)
Definition as_text (v : PyValue) : Py.outcome string :=
  match v with
  | VStr s => Py.Ok s
  | _ => Py.Unmodelled
  end.

(** A cell stored where the record holds a mapping. *)
Definition as_mapping (v : PyValue) : Py.outcome (dict string) :=
  match v with
  | VDict d => Py.Ok d
  | _ => Py.Unmodelled
  end.

(** [v.lower()]: only [str] has the method. *)
Definition lower_of (v : PyValue) : Py.outcome string :=
  match v with
  | VStr s => Py.Ok (PyStr.lower s)
  | _ => Py.Raises Py.AttributeError
  end.

(** [row.get(key, '')] *)
Definition cell (row : Row) (key : string) : PyValue :=
  get_default row key (VStr "").

Definition _categorize_service (service : PyValue) : Py.outcome string :=
  service_lower <- lower_of service ;;
  Py.Ok
    (if PyStr.contains_any
          ["ec2"; "compute"; "vm"; "instance"; "virtual machine"] service_lower
     then "compute"
     else if PyStr.contains_any ["s3"; "storage"; "blob"; "bucket"] service_lower
     then "storage"
     else if PyStr.contains_any
               ["rds"; "database"; "sql"; "dynamodb"; "cosmos"] service_lower
     then "database"
     else if PyStr.contains_any
               ["vpc"; "network"; "load balancer"; "nat"; "gateway"] service_lower
     then "network"
     else "other").

Definition _determine_resource_type (service usage_type : PyValue)
  : Py.outcome string :=
  service_text <- as_text service ;;
  usage_text <- as_text usage_type ;;
  let combined := PyStr.lower (service_text ++ " " ++ usage_text)%string in
  Py.Ok
    (if PyStr.contains_any ["ec2"; "compute engine"; "virtual machine"] combined
     then "vm"
     else if PyStr.contains_any ["s3"; "storage"; "blob"] combined
     then "storage"
     else if PyStr.contains_any ["rds"; "sql"; "database"] combined
     then "database"
     else if PyStr.contains_any ["lambda"; "function"; "cloud function"] combined
     then "function"
     else "other").

(** The [resourceTags/] loop of [normalize_aws]. *)
Fixpoint aws_tags (items : list (string * PyValue)) (tags : dict string)
  : Py.outcome (dict string) :=
  match items with
  | [] => Py.Ok tags
  | (key, value) :: rest =>
      if PyStr.startswith "resourceTags/" key
      then
        text <- as_text value ;;
        aws_tags rest (set tags (PyStr.replace "resourceTags/" "" key) text)
      else aws_tags rest tags
  end.

(** [region.split('-')[0] if region else ''] *)
Definition region_from_az (region : PyValue) : Py.outcome string :=
  if truthy region
  then match region with
       | VStr s => Py.Ok (hd "" (PyStr.split "-" s))
       | _ => Py.Raises Py.AttributeError
       end
  else Py.Ok "".

Definition normalize_aws (aws_record : Row) : Py.outcome UnifiedCostRecord :=
  let resource_id := cell aws_record "lineItem/ResourceId" in
  cost <- py_float (get_default aws_record "lineItem/UnblendedCost" (VFloat 0)) ;;
  let service := cell aws_record "lineItem/ProductCode" in
  let usage_type := cell aws_record "lineItem/UsageType" in
  let region := cell aws_record "lineItem/AvailabilityZone" in
  let date := cell aws_record "lineItem/UsageStartDate" in
  service_category <- _categorize_service service ;;
  resource_type <- _determine_resource_type service usage_type ;;
  tags <- aws_tags (items aws_record) empty ;;
  usage_text <- as_text usage_type ;;
  operation <- as_text (cell aws_record "lineItem/Operation") ;;
  instance_type <- as_text (cell aws_record "product/InstanceType") ;;
  region_text <- region_from_az region ;;
  resource_text <- as_text resource_id ;;
  date_text <- as_text date ;;
  Py.Ok {| resource_id := resource_text;
           cloud_provider := "aws";
           service_category := service_category;
           resource_type := resource_type;
           cost_usd := cost;
           usage_metrics := [ ("usage_type", usage_text);
                              ("operation", operation);
                              ("instance_type", instance_type) ];
           region := region_text;
           tags := tags;
           date := date_text |}.

Definition normalize_gcp (gcp_record : Row) : Py.outcome UnifiedCostRecord :=
  let resource_id := cell gcp_record "resource.name" in
  cost <- py_float (get_default gcp_record "cost" (VFloat 0)) ;;
  let service := cell gcp_record "service.description" in
  let region := cell gcp_record "location.region" in
  let date := cell gcp_record "usage_start_time" in
  service_category <- _categorize_service service ;;
  resource_type <-
    _determine_resource_type service (cell gcp_record "sku.description") ;;
  project <- as_text (cell gcp_record "project.id") ;;
  sku <- as_text (cell gcp_record "sku.description") ;;
  region_text <- as_text region ;;
  resource_text <- as_text resource_id ;;
  date_text <- as_text date ;;
  Py.Ok {| resource_id := resource_text;
           cloud_provider := "gcp";
           service_category := service_category;
           resource_type := resource_type;
           cost_usd := cost;
           usage_metrics := [ ("sku", sku); ("project", project) ];
           region := region_text;
           tags := [ ("project", project) ];
           date := date_text |}.

Definition normalize_azure (azure_record : Row) : Py.outcome UnifiedCostRecord :=
  let resource_id := cell azure_record "ResourceId" in
  cost <- py_float (get_default azure_record "Cost" (VFloat 0)) ;;
  let service := cell azure_record "ServiceName" in
  let region := cell azure_record "ResourceLocation" in
  let date := cell azure_record "Date" in
  service_category <- _categorize_service service ;;
  resource_type <-
    _determine_resource_type service (cell azure_record "MeterCategory") ;;
  subscription <- as_text (cell azure_record "SubscriptionId") ;;
  meter_category <- as_text (cell azure_record "MeterCategory") ;;
  resource_group <- as_text (cell azure_record "ResourceGroup") ;;
  region_text <- as_text region ;;
  resource_text <- as_text resource_id ;;
  date_text <- as_text date ;;
  Py.Ok {| resource_id := resource_text;
           cloud_provider := "azure";
           service_category := service_category;
           resource_type := resource_type;
           cost_usd := cost;
           usage_metrics := [ ("meter_category", meter_category);
                              ("resource_group", resource_group) ];
           region := region_text;
           tags := [ ("subscription", subscription) ];
           date := date_text |}.

Definition normalize_csv (csv_record : Row) (provider : string)
  : Py.outcome UnifiedCostRecord :=
  cost <- py_float (get_default csv_record "cost_usd" (VFloat 0)) ;;
  resource_text <- as_text (cell csv_record "resource_id") ;;
  category <- as_text (cell csv_record "service_category") ;;
  rtype <- as_text (cell csv_record "resource_type") ;;
  metrics <- as_mapping (get_default csv_record "usage_metrics" (VDict empty)) ;;
  region_text <- as_text (cell csv_record "region") ;;
  tag_map <- as_mapping (get_default csv_record "tags" (VDict empty)) ;;
  date_text <- as_text (cell csv_record "date") ;;
  Py.Ok {| resource_id := resource_text;
           cloud_provider := provider;
           service_category := category;
           resource_type := rtype;
           cost_usd := cost;
           usage_metrics := metrics;
           region := region_text;
           tags := tag_map;
           date := date_text |}.

(** The body of the [try] of [normalize_batch]: the normalizer the
    provider name selects. *)
Definition normalize_record (provider : string) (record : Row)
  : Py.outcome UnifiedCostRecord :=
  if String.eqb provider "aws" then normalize_aws record
  else if String.eqb provider "gcp" then normalize_gcp record
  else if String.eqb provider "azure" then normalize_azure record
  else normalize_csv record provider.

(** A row whose normalizer raises is logged and skipped. *)
Fixpoint normalize_batch (records : list Row) (provider : string)
  : Py.outcome (list UnifiedCostRecord) :=
  match records with
  | [] => Py.Ok []
  | record :: rest =>
      match normalize_record provider record with
      | Py.Ok r => rs <- normalize_batch rest provider ;; Py.Ok (r :: rs)
      | Py.Raises _ => normalize_batch rest provider
      | Py.Unmodelled => Py.Unmodelled
      end
  end.

(** The raw field each provider's cost is read from. *)
Definition cost_field (provider : string) : string :=
  if String.eqb provider "aws" then "lineItem/UnblendedCost"
  else if String.eqb provider "gcp" then "cost"
  else if String.eqb provider "azure" then "Cost"
  else "cost_usd".

End CostNormalizer.

(* ================================================================== *)
(** ** cost_analyzer.py *)
(* ================================================================== *)

Module CostAnalyzer.
Import PyDict.
Import CostNormalizer.

(** One entry of an opportunity list (a Python dict with these keys;
    [price_reduction_pct] and [action_required] are set by the price-change
    heuristics only). *)
Record Opportunity : Type := {
  opp_type : string;
  opp_resource_id : string;
  opp_cloud_provider : string;
  current_cost : float;
  potential_savings : float;
  price_reduction_pct : option Z;
  recommendation : string;
  priority : string;
  action_required : option string
}.

(** The [summary] entry of a non-empty analysis. *)
Record Summary : Type := {
  by_provider : dict float;
  by_category : dict float;
  total_resources : nat
}.

(** The dict [analyze_costs] returns.  A field is [None] when the returned
    dict has no such key ([summary = None] stands for the empty dict). *)
Record Analysis : Type := {
  total_cost : float;
  total_potential_savings : option float;
  savings_percentage : option float;
  opportunities : list Opportunity;
  summary : option Summary
}.

(** [sum(r.cost_usd for r in records)] *)
Definition sum_costs (records : list UnifiedCostRecord) : float :=
  Py.sum (map cost_usd records).

(** [records[0].cloud_provider] of a group; every group of a [defaultdict(list)]
    holds at least the record that created it. *)
Definition first_provider (records : list UnifiedCostRecord) : string :=
  match records with
  | r :: _ => cloud_provider r
  | [] => ""
  end.

(** [bool(s)] for a string *)
Definition nonempty (s : string) : bool :=
  match s with EmptyString => false | _ => true end.

(** [r.usage_metrics.get('instance_type', '')] *)
Definition instance_type_of (r : UnifiedCostRecord) : string :=
  get_default (usage_metrics r) "instance_type" "".

(** *** 1. Idle resources *)

Definition group_by_resource (records : list UnifiedCostRecord)
  : dict (list UnifiedCostRecord) :=
  fold_left
    (fun by_resource record =>
       if nonempty (resource_id record)
       then append by_resource (resource_id record) record
       else by_resource)
    records empty.

Definition mentions_usage (v : string) : bool :=
  PyStr.contains "cpu" (PyStr.lower v)
  || PyStr.contains "utilization" (PyStr.lower v).

Definition has_usage (resource_records : list UnifiedCostRecord) : bool :=
  existsb
    (fun r =>
       match usage_metrics r with
       | [] => false
       | _ => existsb mentions_usage (values (usage_metrics r))
       end)
    resource_records.

Definition _find_idle_resources (records : list UnifiedCostRecord)
  : list Opportunity :=
  flat_map
    (fun '(rid, resource_records) =>
       let total := sum_costs resource_records in
       if negb (has_usage resource_records) && Py.gt total 10
       then [ {| opp_type := "idle_resource";
                 opp_resource_id := rid;
                 opp_cloud_provider := first_provider resource_records;
                 current_cost := total;
                 potential_savings := (total * 0.9)%float;
                 price_reduction_pct := None;
                 recommendation :=
                   "Review resource usage. Consider terminating if unused.";
                 priority := if Py.gt total 100 then "high" else "medium";
                 action_required := None |} ]
       else [])
    (items (group_by_resource records)).

(** *** 2. Over-provisioned resources *)

Definition large_sizes : list string :=
  ["xlarge"; "2xlarge"; "4xlarge"; "8xlarge"].

Definition _find_over_provisioned (records : list UnifiedCostRecord)
  : list Opportunity :=
  flat_map
    (fun record =>
       if String.eqb (resource_type record) "vm" && Py.gt (cost_usd record) 50
       then
         let instance_type := instance_type_of record in
         if PyStr.contains_any large_sizes (PyStr.lower instance_type)
         then [ {| opp_type := "over_provisioned";
                   opp_resource_id := resource_id record;
                   opp_cloud_provider := cloud_provider record;
                   current_cost := cost_usd record;
                   potential_savings := (cost_usd record * 0.3)%float;
                   price_reduction_pct := None;
                   recommendation :=
                     ("Consider downsizing " ++ instance_type
                        ++ " to smaller instance type")%string;
                   priority := "medium";
                   action_required := None |} ]
         else []
       else [])
    records.

(** *** 3. Unattached storage *)

Definition is_attached (record : UnifiedCostRecord) : bool :=
  match tags record with
  | [] => PyStr.contains "attached" (PyStr.lower (resource_id record))
  | _ => true
  end.

Definition _find_unattached_storage (records : list UnifiedCostRecord)
  : list Opportunity :=
  flat_map
    (fun record =>
       if String.eqb (resource_type record) "storage"
          && Py.gt (cost_usd record) 5
       then
         if negb (is_attached record)
         then [ {| opp_type := "unattached_storage";
                   opp_resource_id := resource_id record;
                   opp_cloud_provider := cloud_provider record;
                   current_cost := cost_usd record;
                   potential_savings := cost_usd record;
                   price_reduction_pct := None;
                   recommendation := "Delete unattached storage volume";
                   priority := "medium";
                   action_required := None |} ]
         else []
       else [])
    records.

(** *** 4. Reserved instances *)

Definition group_by_instance (records : list UnifiedCostRecord)
  : dict (list UnifiedCostRecord) :=
  fold_left
    (fun by_instance record =>
       if String.eqb (resource_type record) "vm"
       then
         let key := (cloud_provider record ++ ":" ++ instance_type_of record
                       ++ ":" ++ region record)%string in
         append by_instance key record
       else by_instance)
    records empty.

Definition _find_reserved_instance_opportunities
  (records : list UnifiedCostRecord) : list Opportunity :=
  flat_map
    (fun '(key, instance_records) =>
       let total := sum_costs instance_records in
       if Py.gt total 100 && Nat.ltb 20 (List.length instance_records)
       then [ {| opp_type := "reserved_instance";
                 opp_resource_id := key;
                 opp_cloud_provider := first_provider instance_records;
                 current_cost := total;
                 potential_savings := (total * 0.4)%float;
                 price_reduction_pct := None;
                 recommendation :=
                   "Consider purchasing reserved instances for consistent workloads";
                 priority := if Py.gt total 500 then "high" else "medium";
                 action_required := None |} ]
       else [])
    (items (group_by_instance records)).

(** *** 5. Region optimisation *)

(** [by_service[key][record.region].append(record)] on a
    [defaultdict(lambda: defaultdict(list))] *)
Definition group_by_service (records : list UnifiedCostRecord)
  : dict (dict (list UnifiedCostRecord)) :=
  fold_left
    (fun by_service record =>
       let key := (service_category record ++ ":" ++ resource_type record)%string in
       set by_service key
         (append (get_default by_service key empty) (region record) record))
    records empty.

(** [max(items, key=lambda x: x[1])]: the first item no later item exceeds. *)
Definition max_by_cost (region_costs : list (string * float))
  : option (string * float) :=
  match region_costs with
  | [] => None
  | x :: t =>
      Some (fold_left (fun best y => if Py.gt (snd y) (snd best) then y else best) t x)
  end.

(** [min(items, key=lambda x: x[1])]: the first item no later item undercuts. *)
Definition min_by_cost (region_costs : list (string * float))
  : option (string * float) :=
  match region_costs with
  | [] => None
  | x :: t =>
      Some (fold_left (fun best y => if PrimFloat.ltb (snd y) (snd best) then y else best) t x)
  end.

Definition _find_region_optimizations (records : list UnifiedCostRecord)
  : list Opportunity :=
  flat_map
    (fun '(service_key, regions) =>
       if Nat.ltb (List.length regions) 2 then []
       else
         let region_costs :=
           map (fun '(region, rs) => (region, sum_costs rs)) (items regions) in
         match max_by_cost region_costs, min_by_cost region_costs with
         | Some max_cost_region, Some min_cost_region =>
             if Py.gt (snd max_cost_region) (snd min_cost_region * 1.2)%float
             then
               let savings := (snd max_cost_region - snd min_cost_region)%float in
               [ {| opp_type := "region_optimization";
                    opp_resource_id := service_key;
                    opp_cloud_provider := "multi";
                    current_cost := snd max_cost_region;
                    potential_savings := (savings * 0.8)%float;
                    price_reduction_pct := None;
                    recommendation :=
                      ("Consider migrating from " ++ fst max_cost_region
                         ++ " to " ++ fst min_cost_region)%string;
                    priority := "low";
                    action_required := None |} ]
             else []
         | _, _ => []
         end)
    (items (group_by_service records)).

(** *** 6. Price changes and spot instances *)

Definition group_by_instance_type (records : list UnifiedCostRecord)
  : dict (list UnifiedCostRecord) :=
  fold_left
    (fun by_instance_type record =>
       if String.eqb (resource_type record) "vm"
          && nonempty (instance_type_of record)
       then
         let key := (cloud_provider record ++ ":" ++ instance_type_of record)%string in
         append by_instance_type key record
       else by_instance_type)
    records empty.

(** The static table: key -> (reduction_pct, new_discount). *)
Definition price_reductions : dict (Z * string) :=
  [ ("aws:m5.xlarge", (15%Z, "Savings Plans available"));
    ("aws:t3.large", (10%Z, "Spot instances 60% cheaper"));
    ("gcp:n1-standard-4", (20%Z, "Committed Use Discounts"));
    ("azure:Standard_D4s_v3", (12%Z, "Reserved Instances 40% off")) ].

Definition price_reduction_opportunities (records : list UnifiedCostRecord)
  : list Opportunity :=
  flat_map
    (fun '(key, records_list) =>
       match get price_reductions (PyStr.lower key) with
       | Some (pct, new_discount) =>
           let total := sum_costs records_list in
           let reduction_pct := (Py.of_Z pct / 100)%float in
           let savings := (total * reduction_pct)%float in
           if Py.gt savings 50
           then
             let '(provider, rest) := PyStr.split_once ":" key in
             let instance_type := match rest with Some t => t | None => "" end in
             [ {| opp_type := "price_change_opportunity";
                  opp_resource_id := (provider ++ ":" ++ instance_type)%string;
                  opp_cloud_provider := provider;
                  current_cost := total;
                  potential_savings := savings;
                  price_reduction_pct := Some pct;
                  recommendation :=
                    ("Take advantage of " ++ new_discount
                       ++ ". Price reduced by " ++ PyStr.of_Z pct ++ "%")%string;
                  priority := if Py.gt savings 200 then "high" else "medium";
                  action_required :=
                    Some "Switch to discounted pricing or enroll in discount program" |} ]
           else []
       | None => []
       end)
    (items (group_by_instance_type records)).

Definition spot_opportunities (records : list UnifiedCostRecord)
  : list Opportunity :=
  flat_map
    (fun record =>
       if String.eqb (resource_type record) "vm" && Py.gt (cost_usd record) 100
       then
         let instance_type := instance_type_of record in
         if negb (PyStr.contains "spot" (PyStr.lower (resource_id record)))
            && negb (PyStr.contains "spot" (PyStr.lower instance_type))
         then
           let spot_savings := (cost_usd record * 0.7)%float in
           if Py.gt spot_savings 50
           then [ {| opp_type := "spot_instance_opportunity";
                     opp_resource_id := resource_id record;
                     opp_cloud_provider := cloud_provider record;
                     current_cost := cost_usd record;
                     potential_savings := spot_savings;
                     price_reduction_pct := Some 70%Z;
                     recommendation :=
                       "Consider switching to spot instances for fault-tolerant workloads. Save up to 70%";
                     priority := "medium";
                     action_required :=
                       Some "Evaluate workload fault tolerance and migrate to spot instances" |} ]
           else []
         else []
       else [])
    records.

Definition _find_price_change_opportunities (records : list UnifiedCostRecord)
  : list Opportunity :=
  price_reduction_opportunities records ++ spot_opportunities records.

(** *** Summary and ranking *)

Definition _summarize_by_category (records : list UnifiedCostRecord) : dict float :=
  fold_left
    (fun by_category record =>
       set by_category (service_category record)
         (get_default by_category (service_category record) 0 + cost_usd record)%float)
    records empty.

Definition group_by_provider (records : list UnifiedCostRecord)
  : dict (list UnifiedCostRecord) :=
  fold_left
    (fun by_provider record => append by_provider (cloud_provider record) record)
    records empty.

(** One step of a stable descending sort: [x] goes in front of the first
    element whose savings are smaller, hence behind every earlier element
    with equal savings. *)
Fixpoint insert_by_savings (x : Opportunity) (sorted : list Opportunity)
  : list Opportunity :=
  match sorted with
  | [] => [x]
  | y :: t =>
      if PrimFloat.ltb (potential_savings y) (potential_savings x)
      then x :: y :: t
      else y :: insert_by_savings x t
  end.

(** [opportunities.sort(key=potential_savings, reverse=True)]: descending
    and stable.  (On savings that [<] orders totally, that is without NaN,
    every stable sort yields this list.) *)
Definition sort_by_savings (opportunities : list Opportunity) : list Opportunity :=
  fold_left (fun sorted x => insert_by_savings x sorted) opportunities [].

(** The six heuristics in the order [analyze_costs] extends the list. *)
Definition collect_opportunities (records : list UnifiedCostRecord)
  : list Opportunity :=
  _find_idle_resources records
    ++ _find_over_provisioned records
    ++ _find_unattached_storage records
    ++ _find_reserved_instance_opportunities records
    ++ _find_region_optimizations records
    ++ _find_price_change_opportunities records.

(** [sum(opp.get('potential_savings', 0) for opp in opportunities)] *)
Definition sum_savings (opportunities : list Opportunity) : float :=
  Py.sum (map potential_savings opportunities).

(** [opportunities[:20]] *)
Definition top20 (opportunities : list Opportunity) : list Opportunity :=
  firstn 20 opportunities.

Definition analyze_costs (records : list UnifiedCostRecord) : Py.result Analysis :=
  match records with
  | [] =>
      inr {| total_cost := 0;
               total_potential_savings := None;
               savings_percentage := None;
               opportunities := [];
               summary := None |}
  | _ =>
      let total := sum_costs records in
      let by_prov := group_by_provider records in
      let sorted := sort_by_savings (collect_opportunities records) in
      let total_savings := sum_savings sorted in
      pct <-- (if Py.gt total 0
               then q <-- Py.div total_savings total ;; inr (q * 100)%float
               else inr 0%float) ;;
      inr {| total_cost := total;
               total_potential_savings := Some total_savings;
               savings_percentage := Some pct;
               opportunities := top20 sorted;
               summary :=
                 Some {| by_provider :=
                           map (fun '(provider, rs) => (provider, sum_costs rs))
                             (items by_prov);
                         by_category := _summarize_by_category records;
                         total_resources := List.length records |} |}
  end.

End CostAnalyzer.

(* ================================================================== *)
(** ** data_sources.py *)
(* ================================================================== *)

Module DataSources.
Import PyDict.

Section Sources.

(** The [filter] entry of a query and Python's [str()] of it.  Both are
    kept abstract: the validation below only reads the text. *)
Variable Filter : Type.
Variable filter_str : Filter -> string.

(** [query_params]: an absent key is [None]. *)
Record QueryParams : Type := {
  filter : option Filter;
  limit : option Z;
  date_from : option string;
  date_to : option string;
  date_column : option string;
  sort : option (string * bool)
}.

Definition Rows : Type := list CostNormalizer.Row.

(** What a source's backing store answers once a query has passed
    validation: the frame operations of a file source, [collection.find]
    of the database source, [httpx.get] of the HTTP source. *)
Definition Backend : Type := QueryParams -> Py.exn + Rows.

(** The concrete [DataSource] classes with the attributes their
    [validate_query] and [query] read. *)
Inductive DataSource : Type :=
| CSVDataSource (df : Backend)
| AWSDataSource (df : Backend)
| GCPDataSource (df : Backend)
| AzureDataSource (df : Backend)
| MongoDBDataSource (collection : Backend)
| RESTAPIDataSource (endpoint : string) (http : Backend).

(** One access to the backing store, in the order [query] performs it. *)
Inductive Access : Type :=
| FrameRead
| CollectionFind
| HttpGet.

(** ['limit' in query_params and query_params['limit'] > 10000] *)
Definition limit_too_large (query_params : QueryParams) : bool :=
  match limit query_params with
  | Some n => (10000 <? n)%Z
  | None => false
  end.

Definition dangerous_ops : list string := ["$where"; "$eval"; "$function"].

Definition dangerous_patterns : list string :=
  ["delete"; "drop"; "remove"; "admin"].

(** ['filter' in query_params and any(op in str(filter) for op in dangerous_ops)] *)
Definition filter_is_dangerous (query_params : QueryParams) : bool :=
  match filter query_params with
  | Some f => PyStr.contains_any dangerous_ops (filter_str f)
  | None => false
  end.

Definition validate_query (source : DataSource) (query_params : QueryParams)
  : bool :=
  match source with
  | CSVDataSource _ | AWSDataSource _ | GCPDataSource _ | AzureDataSource _ =>
      if limit_too_large query_params then false else true
  | MongoDBDataSource _ =>
      if filter_is_dangerous query_params then false
      else if limit_too_large query_params then false else true
  | RESTAPIDataSource endpoint _ =>
      if PyStr.contains_any dangerous_patterns (PyStr.lower endpoint) then false
      else if limit_too_large query_params then false else true
  end.

(** The message of the [ValueError] a failed validation raises. *)
Definition validation_error (source : DataSource) : Py.exn :=
  match source with
  | MongoDBDataSource _ =>
      Py.ValueError "Query validation failed: Unsafe operation detected"
  | _ => Py.ValueError "Query validation failed"
  end.

(** The store a validated query goes to, and the access that takes. *)
Definition backend_of (source : DataSource) : Backend * Access :=
  match source with
  | CSVDataSource df | AWSDataSource df | GCPDataSource df
  | AzureDataSource df => (df, FrameRead)
  | MongoDBDataSource collection => (collection, CollectionFind)
  | RESTAPIDataSource _ http => (http, HttpGet)
  end.

(** [source.query(query_params)]: the result and the accesses made. *)
Definition query (source : DataSource) (query_params : QueryParams)
  : (Py.exn + Rows) * list Access :=
  if negb (validate_query source query_params)
  then (inl (validation_error source), [])
  else let '(store, access) := backend_of source in
       (store query_params, [access]).

(** *** DataSourceRegistry *)

Definition Registry : Type := dict DataSource.

(** [self.sources[name] = source] *)
Definition register (sources : Registry) (name : string) (source : DataSource)
  : Registry :=
  set sources name source.

Definition get_source (sources : Registry) (name : string) : option DataSource :=
  get sources name.

Definition not_found (source_name : string) : Py.exn :=
  Py.ValueError ("Data source '" ++ source_name ++ "' not found")%string.

Definition query_source (sources : Registry) (source_name : string)
  (query_params : QueryParams) : (Py.exn + Rows) * list Access :=
  match get_source sources source_name with
  | None => (inl (not_found source_name), [])
  | Some source => query source query_params
  end.

(** The [try]/[except Exception] of [query_all_sources]: a failure is
    logged and leaves an empty list. *)
Definition rows_or_empty (r : Py.exn + Rows) : Rows :=
  match r with
  | inr rows => rows
  | inl _ => []
  end.

(** The loop body of [query_all_sources]: one source queried, its rows (or
    the empty list) stored under its name. *)
Definition collect_source (sources : Registry) (query_params : QueryParams)
  (state : dict Rows * list Access) (name : string) : dict Rows * list Access :=
  let '(results, log) := state in
  let '(r, accesses) := query_source sources name query_params in
  (set results name (rows_or_empty r), log ++ accesses).

Definition query_all_sources (sources : Registry) (query_params : QueryParams)
  : dict Rows * list Access :=
  fold_left (collect_source sources query_params) (keys sources) (empty, []).

End Sources.

End DataSources.

(* ================================================================== *)
(** ** pricing_scraper.py *)
(* ================================================================== *)

Module PricingScraper.
Import PyDict.

(** One entry of ["simulated_reductions"]. *)
Record Reduction : Type := {
  old_price : float;
  new_price : float;
  reduction_pct : float
}.

(** The values the price-history dict holds under its three kinds of key:
    ["<provider>_prices"], ["<provider>_prices_last_updated"] and
    ["simulated_reductions"]. *)
Inductive Entry : Type :=
| Prices (p : dict float)
| LastUpdated (t : string)
| Reductions (r : dict Reduction).

Definition History : Type := dict Entry.

(** The JSON file behind the scraper: [stored = None] is a missing or
    unreadable file, [writable = false] a file that cannot be written. *)
Record Disk : Type := {
  stored : option History;
  writable : bool
}.

(** A [PricingScraper] with the world it reads: [clock n] is what the n-th
    call of [datetime.utcnow().isoformat()] returns. *)
Record Scraper : Type := {
  historical_prices : History;
  disk : Disk;
  clock : nat -> string;
  reads : nat
}.

Definition with_history (s : Scraper) (h : History) : Scraper :=
  {| historical_prices := h; disk := disk s; clock := clock s; reads := reads s |}.

(** [datetime.utcnow().isoformat()] *)
Definition utcnow (s : Scraper) : string * Scraper :=
  (clock s (reads s),
   {| historical_prices := historical_prices s; disk := disk s;
      clock := clock s; reads := S (reads s) |}).

Definition _load_price_history (s : Scraper) : History :=
  match stored (disk s) with
  | Some h => h
  | None => empty
  end.

(** A failed write is logged and leaves the file as it was. *)
Definition _save_price_history (s : Scraper) (prices : History) : Scraper :=
  if writable (disk s)
  then {| historical_prices := historical_prices s;
          disk := {| stored := Some prices; writable := true |};
          clock := clock s; reads := reads s |}
  else s.

(** [PricingScraper(price_history_file)] *)
Definition new_scraper (d : Disk) (c : nat -> string) : Scraper :=
  let s := {| historical_prices := empty; disk := d; clock := c; reads := 0 |} in
  with_history s (_load_price_history s).

Definition aws_ec2_prices : dict float :=
  [ ("m5.xlarge", 0.192%float); ("m5.2xlarge", 0.384%float);
    ("t3.large", 0.0832%float); ("t3.xlarge", 0.1664%float);
    ("c5.4xlarge", 0.68%float); ("m5.large", 0.096%float);
    ("t3.medium", 0.0416%float) ].

Definition gcp_prices : dict float :=
  [ ("n1-standard-4", 0.19%float); ("n1-standard-8", 0.38%float);
    ("n1-highmem-4", 0.236%float); ("n1-standard-2", 0.095%float);
    ("e2-standard-4", 0.134%float) ].

Definition azure_prices : dict float :=
  [ ("Standard_D4s_v3", 0.192%float); ("Standard_D8s_v3", 0.384%float);
    ("Standard_B2s", 0.042%float); ("Standard_D2s_v3", 0.096%float) ].

Definition aws_instance_types : list string :=
  ["m5.xlarge"; "m5.2xlarge"; "t3.large"; "t3.xlarge"; "c5.4xlarge"].

Definition gcp_instance_types : list string :=
  ["n1-standard-4"; "n1-standard-8"; "n1-highmem-4"].

Definition azure_instance_types : list string :=
  ["Standard_D4s_v3"; "Standard_D8s_v3"; "Standard_B2s"].

(** [reduction_key in simulated_reductions] and, when it is,
    [simulated_reductions[reduction_key]["new_price"]].  On a value that is
    no mapping of reductions the membership test still runs (key lookup in
    a price map, substring test in a string) and the subscript then
    fails. *)
Definition simulated_new_price (simulated_reductions : option Entry)
  (reduction_key : string) : Py.result (option float) :=
  match simulated_reductions with
  | None => inr None
  | Some (Reductions r) => inr (option_map new_price (get r reduction_key))
  | Some (Prices p) =>
      if mem p reduction_key then inl Py.TypeError else inr None
  | Some (LastUpdated t) =>
      if PyStr.contains reduction_key t then inl Py.TypeError else inr None
  end.

Fixpoint scrape_aws_loop (simulated_reductions : option Entry)
  (instance_types : list string) (prices : dict float)
  : Py.result (dict float) :=
  match instance_types with
  | [] => inr prices
  | instance_type :: rest =>
      simulated <--
        simulated_new_price simulated_reductions ("aws:" ++ instance_type)%string ;;
      let price :=
        match simulated with
        | Some reduced => reduced
        | None => get_default aws_ec2_prices instance_type 0.10%float
        end in
      scrape_aws_loop simulated_reductions rest (set prices instance_type price)
  end.

Definition scrape_aws_pricing (s : Scraper) (instance_types : option (list string))
  : Py.result (dict float) :=
  let types := match instance_types with Some l => l | None => aws_instance_types end in
  scrape_aws_loop (get (historical_prices s) "simulated_reductions") types empty.

(** The loop shared by the GCP and Azure scrapers: the table price, or the
    provider's default estimate. *)
Definition scrape_table (table : dict float) (estimate : float)
  (instance_types : list string) : dict float :=
  fold_left
    (fun prices instance_type =>
       set prices instance_type (get_default table instance_type estimate))
    instance_types empty.

Definition scrape_gcp_pricing (instance_types : option (list string)) : dict float :=
  scrape_table gcp_prices 0.15%float
    (match instance_types with Some l => l | None => gcp_instance_types end).

Definition scrape_azure_pricing (instance_types : option (list string)) : dict float :=
  scrape_table azure_prices 0.12%float
    (match instance_types with Some l => l | None => azure_instance_types end).

(** A provider whose scrape raises contributes an empty map. *)
Definition scrape_all_providers (s : Scraper) : dict (dict float) :=
  [ ("aws", match scrape_aws_pricing s None with
            | inr prices => prices
            | inl _ => empty
            end);
    ("gcp", scrape_gcp_pricing None);
    ("azure", scrape_azure_pricing None) ].

(** One detected change. *)
Record PriceChange : Type := {
  provider : string;
  instance_type : string;
  old_price_per_hour : float;
  new_price_per_hour : float;
  old_price_per_month : float;
  new_price_per_month : float;
  change_reduction_pct : float;
  savings_per_hour : float;
  savings_per_month : float;
  detected_at : string;
  change_type : string
}.

(** [historical_prices.get(instance_type)] on whatever the history holds
    under the provider's key, followed by the truth test and the first
    arithmetic on it: [None] when there is no usable price. *)
Definition historical_price_of (entry : option Entry) (instance_type : string)
  : Py.result (option float) :=
  match entry with
  | None => inr None
  | Some (Prices p) => inr (get p instance_type)
  | Some (LastUpdated _) => inl Py.AttributeError
  | Some (Reductions r) =>
      match get r instance_type with
      | Some _ => inl Py.TypeError
      | None => inr None
      end
  end.

(** The inner loop of [detect_price_changes] for one provider. *)
Fixpoint detect_instances (provider_name : string) (entry : option Entry)
  (instance_prices : list (string * float)) (acc : list PriceChange * Scraper)
  : Py.result (list PriceChange * Scraper) :=
  match instance_prices with
  | [] => inr acc
  | (itype, current_price) :: rest =>
      historical <-- historical_price_of entry itype ;;
      match historical with
      | Some historical_price =>
          if Py.truthy historical_price
          then
            ratio <-- Py.div (historical_price - current_price)%float
                        historical_price ;;
            let change_pct := (ratio * 100)%float in
            if Py.gt change_pct 5
            then
              let '(now, s') := utcnow (snd acc) in
              detect_instances provider_name entry rest
                (fst acc ++
                   [ {| provider := provider_name;
                        instance_type := itype;
                        old_price_per_hour := historical_price;
                        new_price_per_hour := current_price;
                        old_price_per_month := (historical_price * 730)%float;
                        new_price_per_month := (current_price * 730)%float;
                        change_reduction_pct := change_pct;
                        savings_per_hour := (historical_price - current_price)%float;
                        savings_per_month :=
                          ((historical_price - current_price) * 730)%float;
                        detected_at := now;
                        change_type := "price_reduction" |} ],
                 s')
            else detect_instances provider_name entry rest acc
          else detect_instances provider_name entry rest acc
      | None => detect_instances provider_name entry rest acc
      end
  end.

(** The outer loop: every provider of the current scrape against the
    history as it stood when the call began. *)
Fixpoint detect_providers (history : History)
  (current_prices : list (string * dict float)) (acc : list PriceChange * Scraper)
  : Py.result (list PriceChange * Scraper) :=
  match current_prices with
  | [] => inr acc
  | (provider_name, instance_prices) :: rest =>
      acc' <-- detect_instances provider_name
                 (get history (provider_name ++ "_prices")%string)
                 (items instance_prices) acc ;;
      detect_providers history rest acc'
  end.

(** The second loop: the current scrape becomes the stored baseline. *)
Fixpoint save_baseline (current_prices : list (string * dict float)) (s : Scraper)
  : Scraper :=
  match current_prices with
  | [] => s
  | (provider_name, instance_prices) :: rest =>
      let historical_key := (provider_name ++ "_prices")%string in
      let h1 := set (historical_prices s) historical_key (Prices instance_prices) in
      let '(now, s1) := utcnow (with_history s h1) in
      let h2 :=
        set (historical_prices s1) (historical_key ++ "_last_updated")%string
          (LastUpdated now) in
      save_baseline rest (with_history s1 h2)
  end.

Definition detect_price_changes (s : Scraper) (current_prices : dict (dict float))
  : Py.result (list PriceChange * Scraper) :=
  found <-- detect_providers (historical_prices s) (items current_prices) ([], s) ;;
  let s1 := save_baseline (items current_prices) (snd found) in
  inr (fst found, _save_price_history s1 (historical_prices s1)).

(** The scraper's default price when the history has none. *)
Definition default_price (provider_name itype : string) : float :=
  if String.eqb provider_name "aws"
  then get_default
         [ ("m5.xlarge", 0.192%float); ("t3.large", 0.0832%float);
           ("m5.2xlarge", 0.384%float) ]
         itype 0.20%float
  else if String.eqb provider_name "gcp" then 0.19%float
  else if String.eqb provider_name "azure" then 0.192%float
  else 0.20%float.

(** [simulate_price_reduction].  Where the history holds, under one of the
    two keys written here, a value of another kind into which Python would
    store the new item (leaving a mapping the typed history cannot hold),
    the outcome is [Unmodelled].  A raise leaves in memory the updates made
    before it; the model keeps no state for a call that raises. *)
Definition simulate_price_reduction (s : Scraper) (provider_name itype : string)
  (pct : float) : Py.outcome (Reduction * Scraper) :=
  let historical_key := (provider_name ++ "_prices")%string in
  let h0 :=
    if mem (historical_prices s) historical_key then historical_prices s
    else set (historical_prices s) historical_key (Prices empty) in
  match get h0 historical_key with
  | Some (Prices p) =>
      let current_price :=
        match get p itype with
        | Some price => price
        | None => default_price provider_name itype
        end in
      let h1 := set h0 historical_key (Prices (set p itype current_price)) in
      let reduced := (current_price * (1 - pct / 100))%float in
      let h2 :=
        if mem h1 "simulated_reductions" then h1
        else set h1 "simulated_reductions" (Reductions empty) in
      match get h2 "simulated_reductions" with
      | Some (Reductions r) =>
          let entry := {| old_price := current_price;
                          new_price := reduced;
                          reduction_pct := pct |} in
          let h3 :=
            set h2 "simulated_reductions"
              (Reductions (set r (provider_name ++ ":" ++ itype)%string entry)) in
          Py.Ok (entry, _save_price_history (with_history s h3) h3)
      | Some (LastUpdated _) => Py.Raises Py.TypeError
      | _ => Py.Unmodelled
      end
  | Some (LastUpdated _) => Py.Raises Py.AttributeError
  | Some (Reductions r) =>
      match get r itype with
      | Some _ => Py.Raises Py.TypeError
      | None => Py.Unmodelled
      end
  | None => Py.Unmodelled
  end.

(** [PriceChangeDetector.check_for_changes]: reload, scrape, detect. *)
Definition check_for_changes (s : Scraper)
  : Py.result (list PriceChange * Scraper) :=
  let s1 := with_history s (_load_price_history s) in
  let current_prices := scrape_all_providers s1 in
  detect_price_changes s1 current_prices.

End PricingScraper.

(* ================================================================== *)
(** ** cost_normalizer.py: [UnifiedCostRecord.to_dict] *)
(* ================================================================== *)

Module CostRecordDict.
Import PyDict CostNormalizer.
(** [UnifiedCostRecord.to_dict].  No normalizer passes an
    [optimization_potential], so the constructor's default 0.0 is what
    every record holds. *)
Definition to_dict (r : UnifiedCostRecord) : Row :=
  [ ("resource_id", VStr (resource_id r));
    ("cloud_provider", VStr (cloud_provider r));
    ("service_category", VStr (service_category r));
    ("resource_type", VStr (resource_type r));
    ("cost_usd", VFloat (cost_usd r));
    ("usage_metrics", VDict (usage_metrics r));
    ("region", VStr (region r));
    ("tags", VDict (tags r));
    ("date", VStr (date r));
    ("optimization_potential", VFloat 0) ].
End CostRecordDict.

(* ================================================================== *)
(** ** data_sources.py: the response handling of [RESTAPIDataSource.query] *)
(* ================================================================== *)

Module RestResponse.
Import PyDict.

#[local] Set Warnings "-register-all".

(** A decoded JSON document ([response.json()]). *)
Inductive Json : Type :=
| JNull
| JBool (b : bool)
| JInt (z : Z)
| JFloat (f : float)
| JString (s : string)
| JList (elements : list Json)
| JObject (fields : list (string * Json)).

(** [l[:limit]]: a negative limit counts from the end. *)
Definition slice_to (A : Type) (l : list A) (limit : Z) : list A :=
  if (0 <=? limit)%Z then firstn (Z.to_nat limit) l
  else firstn (List.length l - Z.to_nat (- limit)) l.

(** The [for key, value in data.items()] loop: the first value that is a
    list, if any. *)
Fixpoint first_list (fields : list (string * Json)) : option (list Json) :=
  match fields with
  | [] => None
  | (_, JList elements) :: _ => Some elements
  | _ :: rest => first_list rest
  end.

(** The response handling of [RESTAPIDataSource.query]. *)
Definition rest_results (data : Json) (limit : Z) : list Json :=
  match data with
  | JList elements => slice_to elements limit
  | JObject fields =>
      match first_list fields with
      | Some elements => slice_to elements limit
      | None => [data]
      end
  | _ => []
  end.

(** [query_params.get('limit', 100)] *)
Definition limit_or_default (limit : option Z) : Z :=
  match limit with Some n => n | None => 100%Z end.

End RestResponse.

(* ================================================================== *)
(** ** pricing_scraper.py: [PriceChangeDetector] *)
(* ================================================================== *)

Module PriceChangeDetector.
Import PyDict CostNormalizer PricingScraper.

(** *** Detection, with the scraper a raise leaves behind

    [detect_price_changes] raises out of its first loop only; the scraper
    then keeps the history it had and has read the clock once for every
    change found so far.  The three functions below are the loops of
    [PricingScraper] again, returning that scraper as well. *)

Fixpoint detect_instances_st (provider_name : string) (entry : option Entry)
  (instance_prices : list (string * float)) (acc : list PriceChange * Scraper)
  : option Py.exn * (list PriceChange * Scraper) :=
  match instance_prices with
  | [] => (None, acc)
  | (itype, current_price) :: rest =>
      match historical_price_of entry itype with
      | inl e => (Some e, acc)
      | inr None => detect_instances_st provider_name entry rest acc
      | inr (Some historical_price) =>
          if Py.truthy historical_price
          then
            match Py.div (historical_price - current_price)%float
                    historical_price with
            | inl e => (Some e, acc)
            | inr ratio =>
                let change_pct := (ratio * 100)%float in
                if Py.gt change_pct 5
                then
                  let '(now, s') := utcnow (snd acc) in
                  detect_instances_st provider_name entry rest
                    (fst acc ++
                       [ {| provider := provider_name;
                            instance_type := itype;
                            old_price_per_hour := historical_price;
                            new_price_per_hour := current_price;
                            old_price_per_month := (historical_price * 730)%float;
                            new_price_per_month := (current_price * 730)%float;
                            change_reduction_pct := change_pct;
                            savings_per_hour :=
                              (historical_price - current_price)%float;
                            savings_per_month :=
                              ((historical_price - current_price) * 730)%float;
                            detected_at := now;
                            change_type := "price_reduction" |} ],
                     s')
                else detect_instances_st provider_name entry rest acc
            end
          else detect_instances_st provider_name entry rest acc
      end
  end.

Fixpoint detect_providers_st (history : History)
  (current_prices : list (string * dict float)) (acc : list PriceChange * Scraper)
  : option Py.exn * (list PriceChange * Scraper) :=
  match current_prices with
  | [] => (None, acc)
  | (provider_name, instance_prices) :: rest =>
      match detect_instances_st provider_name
              (get history (provider_name ++ "_prices")%string)
              (items instance_prices) acc with
      | (Some e, acc') => (Some e, acc')
      | (None, acc') => detect_providers_st history rest acc'
      end
  end.

Definition detect_price_changes_st (s : Scraper)
  (current_prices : dict (dict float)) : (Py.exn + list PriceChange) * Scraper :=
  match detect_providers_st (historical_prices s) (items current_prices) ([], s) with
  | (Some e, found) => (inl e, snd found)
  | (None, found) =>
      let s1 := save_baseline (items current_prices) (snd found) in
      (inr (fst found), _save_price_history s1 (historical_prices s1))
  end.

(** [check_for_changes], with the scraper it leaves in either case. *)
Definition check_for_changes_st (s : Scraper)
  : (Py.exn + list PriceChange) * Scraper :=
  let s1 := with_history s (_load_price_history s) in
  detect_price_changes_st s1 (scrape_all_providers s1).

(** *** Matching changes to resources *)

Section Formatting.

(** [format(x, '.<n>f')]: a float with [n] decimals, as the f-strings of
    the recommendations print it. *)
Variable fixed : nat -> float -> string.

(** One entry of the list [match_changes_to_resources] returns; its
    [type] is always ["price_change_opportunity"]. *)
Record MatchedOpportunity : Type := {
  m_provider : string;
  m_instance_type : string;
  affected_resources : nat;
  current_monthly_cost : float;
  potential_savings_per_month : float;
  m_price_reduction_pct : float;
  m_old_price_per_hour : float;
  m_new_price_per_hour : float;
  m_recommendation : string;
  m_priority : string;
  m_detected_at : string
}.

(** The filter of the list comprehension.  The resources are the records
    whose [to_dict] the caller passes: [r.get('cloud_provider', '')] and
    [r.get('usage_metrics', {}).get('instance_type')] read these fields. *)
Definition uses (change : PriceChange) (r : UnifiedCostRecord) : bool :=
  String.eqb (PyStr.lower (cloud_provider r)) (PyStr.lower (provider change))
  && match get (usage_metrics r) "instance_type" with
     | Some t => String.eqb t (instance_type change)
     | None => false
     end.

Definition match_changes_to_resources (price_changes : list PriceChange)
  (resources : list UnifiedCostRecord) : list MatchedOpportunity :=
  flat_map
    (fun change =>
       match filter (uses change) resources with
       | [] => []
       | matching_resources =>
           let total_monthly_cost := Py.sum (map cost_usd matching_resources) in
           let num_instances := List.length matching_resources in
           let total_savings :=
             (savings_per_month change * Py.of_Z (Z.of_nat num_instances))%float in
           [ {| m_provider := provider change;
                m_instance_type := instance_type change;
                affected_resources := num_instances;
                current_monthly_cost := total_monthly_cost;
                potential_savings_per_month := total_savings;
                m_price_reduction_pct := change_reduction_pct change;
                m_old_price_per_hour := old_price_per_hour change;
                m_new_price_per_hour := new_price_per_hour change;
                m_recommendation :=
                  ("Price reduced by " ++ fixed 1 (change_reduction_pct change)
                     ++ "%. Automatic savings of $" ++ fixed 2 total_savings
                     ++ "/month for " ++ PyStr.of_Z (Z.of_nat num_instances)
                     ++ " instances.")%string;
                m_priority := if Py.gt total_savings 500 then "high" else "medium";
                m_detected_at := detected_at change |} ]
       end)
    price_changes.

End Formatting.

End PriceChangeDetector.

(* ================================================================== *)
(** ** price_monitor.py *)
(* ================================================================== *)

Module PriceMonitor.
Import PyDict CostNormalizer PricingScraper PriceChangeDetector.

(** A price change turned into an opportunity when no resources were
    given; its [type] is ["price_change_opportunity"]. *)
Record ConvertedOpportunity : Type := {
  c_cloud_provider : string;
  c_instance_type : string;
  c_current_cost : float;
  c_potential_savings : float;
  c_price_reduction_pct : float;
  c_recommendation : string;
  c_priority : string;
  c_detected_at : string
}.

(** One of the fixed opportunities of [_check_aws_prices]. *)
Record CannedOpportunity : Type := {
  f_type : string;
  f_cloud_provider : string;
  f_service : string;
  f_instance_type : string;
  f_change_type : string;
  f_discount_program : option string;
  f_price_reduction_pct : Z;
  f_potential_savings : float;
  f_recommendation : string;
  f_action_required : string;
  f_detected_at : string;
  f_priority : string
}.

(** The dicts [check_all_providers] returns, by the keys they carry. *)
Inductive MonitorOpportunity : Type :=
| Matched (m : MatchedOpportunity)
| Converted (c : ConvertedOpportunity)
| Canned (f : CannedOpportunity).

(** [opp.get('potential_savings')]: the matched entries carry
    [potential_savings_per_month] instead and have no such key. *)
Definition potential_savings_of (o : MonitorOpportunity) : option float :=
  match o with
  | Matched _ => None
  | Converted c => Some (c_potential_savings c)
  | Canned f => Some (f_potential_savings f)
  end.

(** [opp.get('priority')] *)
Definition priority_of (o : MonitorOpportunity) : string :=
  match o with
  | Matched m => m_priority m
  | Converted c => c_priority c
  | Canned f => f_priority f
  end.

Section Formatting.

Variable fixed : nat -> float -> string.

Definition convert (change : PriceChange) : ConvertedOpportunity :=
  {| c_cloud_provider := provider change;
     c_instance_type := instance_type change;
     c_current_cost := old_price_per_month change;
     c_potential_savings := savings_per_month change;
     c_price_reduction_pct := change_reduction_pct change;
     c_recommendation :=
       ("Price reduced by " ++ fixed 1 (change_reduction_pct change)
          ++ "%. Automatic savings of $" ++ fixed 2 (savings_per_month change)
          ++ "/month.")%string;
     c_priority := if Py.gt (savings_per_month change) 200 then "high" else "medium";
     c_detected_at := detected_at change |}.

Definition _check_discount_programs : list MonitorOpportunity := [].

(** [_check_aws_prices]: two fixed opportunities, stamped with two
    readings of the clock. *)
Definition _check_aws_prices (s : Scraper) : list MonitorOpportunity * Scraper :=
  let '(now1, s1) := utcnow s in
  let '(now2, s2) := utcnow s1 in
  ([ Canned {| f_type := "price_change_opportunity";
               f_cloud_provider := "aws";
               f_service := "EC2";
               f_instance_type := "m5.xlarge";
               f_change_type := "new_discount_program";
               f_discount_program := Some "Savings Plans";
               f_price_reduction_pct := 15;
               f_potential_savings := 1500;
               f_recommendation :=
                 "Enroll in AWS Savings Plans for consistent workloads";
               f_action_required :=
                 "Review workload patterns and enroll eligible instances";
               f_detected_at := now1;
               f_priority := "high" |};
     Canned {| f_type := "spot_instance_opportunity";
               f_cloud_provider := "aws";
               f_service := "EC2";
               f_instance_type := "t3.large";
               f_change_type := "spot_available";
               f_discount_program := None;
               f_price_reduction_pct := 70;
               f_potential_savings := 800;
               f_recommendation :=
                 "Consider spot instances for fault-tolerant workloads";
               f_action_required :=
                 "Evaluate workload fault tolerance and migrate to spot";
               f_detected_at := now2;
               f_priority := "medium" |} ],
   s2).

Definition _get_fallback_opportunities (s : Scraper)
  : list MonitorOpportunity * Scraper :=
  _check_aws_prices s.

(** [check_all_providers(resources)]: [resources = None] is the omitted
    argument.  Whatever the [try] body raises is caught and answered with
    the fallback. *)
Definition check_all_providers (s : Scraper)
  (resources : option (list UnifiedCostRecord))
  : list MonitorOpportunity * Scraper :=
  match check_for_changes_st s with
  | (inr price_changes, s1) =>
      let opportunities :=
        match price_changes with
        | [] => []
        | _ =>
            match resources with
            | Some (r :: rs) =>
                map Matched (match_changes_to_resources fixed price_changes (r :: rs))
            | _ => map (fun change => Converted (convert change)) price_changes
            end
        end in
      (opportunities ++ _check_discount_programs, s1)
  | (inl _, s1) => _get_fallback_opportunities s1
  end.

End Formatting.

End PriceMonitor.

(* ================================================================== *)
(** ** api/cost.py *)
(* ================================================================== *)

Module CostApi.
Import PyDict CostNormalizer CostAnalyzer DataSources PricingScraper.
Import PriceChangeDetector PriceMonitor.

Section Endpoints.

Variable Filter : Type.
Variable filter_str : Filter -> string.

(** [format(x, '.<n>f')] *)
Variable fixed : nat -> float -> string.

(** [(t + timedelta(hours=6)).isoformat()] as a function of
    [t.isoformat()]. *)
Variable six_hours_after : string -> string.

(** [{"limit": 1000}] *)
Definition limit_1000 : QueryParams Filter :=
  {| filter := None; limit := Some 1000%Z; date_from := None; date_to := None;
     date_column := None; sort := None |}.

(** The body of the loops over the sources: query, normalize under the
    lower-cased source name, extend; a source that raises is logged and
    skipped. *)
Definition gather_step (sources : Registry Filter) (q : QueryParams Filter)
  (state : Py.outcome (list UnifiedCostRecord) * list Access)
  (source_name : string) : Py.outcome (list UnifiedCostRecord) * list Access :=
  let '(all_records, log) := state in
  let '(r, accesses) := query_source filter_str sources source_name q in
  (match r with
   | inr raw_records =>
       records <- all_records ;;
       normalized <- normalize_batch raw_records (PyStr.lower source_name) ;;
       Py.Ok (records ++ normalized)
   | inl _ => all_records
   end,
   log ++ accesses).

Definition gather (sources : Registry Filter) (q : QueryParams Filter)
  (source_names : list string)
  : Py.outcome (list UnifiedCostRecord) * list Access :=
  fold_left (gather_step sources q) source_names (Py.Ok [], []).

(** [POST /analyze] *)
Record AnalyzeResponse : Type := {
  analysis : Analysis;
  records_analyzed : nat;
  sources_analyzed : list string
}.

Definition analyze_costs_endpoint (sources : Registry Filter)
  (source_names : option (list string))
  (query_params : option (QueryParams Filter))
  : Py.outcome AnalyzeResponse * list Access :=
  let q := match query_params with Some q => q | None => limit_1000 end in
  let names := match source_names with Some l => l | None => keys sources end in
  let '(records, log) := gather sources q names in
  (all_records <- records ;;
   match analyze_costs all_records with
   | inr a => Py.Ok {| analysis := a;
                       records_analyzed := List.length all_records;
                       sources_analyzed := names |}
   | inl e => Py.Raises e
   end,
   log).

(** [GET /opportunities].  The defaults of [analysis.get(..., 0)] are the
    integer 0, here the float 0. *)
Record OpportunitiesResponse : Type := {
  o_opportunities : list Opportunity;
  o_total_potential_savings : float;
  o_total_cost : float;
  o_savings_percentage : float
}.

Definition get_optimization_opportunities (sources : Registry Filter) (limit : Z)
  : Py.outcome OpportunitiesResponse * list Access :=
  let '(records, log) := gather sources limit_1000 (keys sources) in
  (all_records <- records ;;
   match analyze_costs all_records with
   | inr a =>
       Py.Ok {| o_opportunities := RestResponse.slice_to (opportunities a) limit;
                o_total_potential_savings :=
                  match total_potential_savings a with Some x => x | None => 0%float end;
                o_total_cost := total_cost a;
                o_savings_percentage :=
                  match savings_percentage a with Some x => x | None => 0%float end |}
   | inl e => Py.Raises e
   end,
   log).

(** [GET /check-prices] *)
Record PriceCheckResponse : Type := {
  p_opportunities : list MonitorOpportunity;
  p_total_potential_savings : float;
  high_priority_count : nat;
  medium_priority_count : nat;
  checked_at : string;
  next_check_recommended : string;
  scraping_method : string;
  providers_checked : list string
}.

(** [opp.get('potential_savings', 0)] *)
Definition savings_or_zero (o : MonitorOpportunity) : float :=
  match potential_savings_of o with Some x => x | None => 0%float end.

Definition check_price_changes (sources : Registry Filter) (s : Scraper)
  : Py.outcome (PriceCheckResponse * Scraper) * list Access :=
  let '(records, log) := gather sources limit_1000 (keys sources) in
  (all_resources <- records ;;
   let '(opportunities, s1) := check_all_providers fixed s (Some all_resources) in
   let significant_opportunities :=
     List.filter (fun opp => Py.gt (savings_or_zero opp) 10) opportunities in
   let total_savings := Py.sum (map savings_or_zero significant_opportunities) in
   let high_priority :=
     List.filter (fun opp => String.eqb (priority_of opp) "high")
       significant_opportunities in
   let medium_priority :=
     List.filter (fun opp => String.eqb (priority_of opp) "medium")
       significant_opportunities in
   let '(now1, s2) := utcnow s1 in
   let '(now2, s3) := utcnow s2 in
   Py.Ok ({| p_opportunities := significant_opportunities;
             p_total_potential_savings := total_savings;
             high_priority_count := List.length high_priority;
             medium_priority_count := List.length medium_priority;
             checked_at := now1;
             next_check_recommended := six_hours_after now2;
             scraping_method := "real_pricing_data";
             providers_checked := ["aws"; "gcp"; "azure"] |},
          s3),
   log).

End Endpoints.

End CostApi.

(* ================================================================== *)
(** * Properties *)
(* ================================================================== *)

(** ** Facts about binary64 comparisons and arithmetic *)

Module FloatFacts.

Lemma gt_zero_not_zero (x : float) :
  PrimFloat.ltb 0 x = true -> PrimFloat.eqb x 0 = false.
Proof.
  rewrite FloatAxioms.ltb_spec, FloatAxioms.eqb_spec.
  change (Prim2SF 0) with (S754_zero false).
  destruct (Prim2SF x) as [s|s| |s m e]; try destruct s;
    unfold SFltb, SFeqb; simpl; congruence.
Qed.

Lemma eq_zero_not_gt (x : float) :
  PrimFloat.eqb x 0 = true -> PrimFloat.ltb 0 x = false.
Proof.
  rewrite FloatAxioms.ltb_spec, FloatAxioms.eqb_spec.
  change (Prim2SF 0) with (S754_zero false).
  destruct (Prim2SF x) as [s|s| |s m e]; try destruct s;
    unfold SFltb, SFeqb; simpl; congruence.
Qed.

(** A price compared with itself changes by nothing: the percentage is a
    zero (or a NaN when the price is infinite or NaN), never above 5. *)
Lemma self_change_not_above_5 (c : float) :
  PrimFloat.ltb 5 (((c - c) / c) * 100) = false.
Proof.
  rewrite FloatAxioms.ltb_spec, FloatAxioms.mul_spec, FloatAxioms.div_spec,
    FloatAxioms.sub_spec.
  assert (H100 : Prim2SF 100 = S754_finite false 7036874417766400 (-46))
    by (vm_compute; reflexivity).
  assert (H5 : Prim2SF 5 = S754_finite false 5629499534213120 (-50))
    by (vm_compute; reflexivity).
  rewrite H100, H5. clear H100 H5.
  destruct (Prim2SF c) as [s|s| |s m e].
  - destruct s; reflexivity.
  - destruct s; reflexivity.
  - reflexivity.
  - unfold SF64sub, SFsub. rewrite Z.sub_diag.
    unfold binary_normalize, SF64div, SFdiv, SF64mul, SFmul.
    destruct s; reflexivity.
Qed.

End FloatFacts.

(** ** cost_analyzer.py *)

Module CostAnalyzerSpec.
Import PyDict CostNormalizer CostAnalyzer.

Lemma insert_by_savings_length (x : Opportunity) (l : list Opportunity) :
  List.length (insert_by_savings x l) = S (List.length l).
Proof.
  induction l as [|y t IH]; simpl; auto.
  destruct (PrimFloat.ltb (potential_savings y) (potential_savings x)); simpl; auto.
Qed.

Lemma sort_from_length (l acc : list Opportunity) :
  List.length (fold_left (fun sorted x => insert_by_savings x sorted) l acc)
  = List.length l + List.length acc.
Proof.
  revert acc. induction l as [|x t IH]; intros acc; simpl; auto.
  rewrite IH, insert_by_savings_length. lia.
Qed.

Lemma sort_by_savings_length (l : list Opportunity) :
  List.length (sort_by_savings l) = List.length l.
Proof.
  unfold sort_by_savings. rewrite sort_from_length. simpl. lia.
Qed.

(** The percentage [analyze_costs] reports for a non-empty batch. *)
Definition percentage (total total_savings : float) : float :=
  if Py.gt total 0 then (total_savings / total * 100)%float else 0%float.

(** A non-empty batch never raises: the division is guarded by
    [total_cost > 0]. *)
Lemma analyze_costs_nonempty (records : list UnifiedCostRecord) :
  records <> [] ->
  let sorted := sort_by_savings (collect_opportunities records) in
  exists s,
    analyze_costs records
    = inr {| total_cost := sum_costs records;
             total_potential_savings := Some (sum_savings sorted);
             savings_percentage :=
               Some (percentage (sum_costs records) (sum_savings sorted));
             opportunities := top20 sorted;
             summary := Some s |}.
Proof.
  intros Hne sorted. destruct records as [|r0 rest]; [congruence|].
  unfold analyze_costs, percentage. fold sorted.
  destruct (Py.gt (sum_costs (r0 :: rest)) 0) eqn:G.
  - unfold Py.div. unfold Py.gt in G.
    rewrite (FloatFacts.gt_zero_not_zero G). simpl.
    eexists. reflexivity.
  - simpl. eexists. reflexivity.
Qed.

(** 21 unattached storage volumes of 50 USD each, without resource id,
    tags or metrics: only the unattached-storage heuristic fires, once per
    volume. *)
Definition volume : UnifiedCostRecord :=
  {| resource_id := ""; cloud_provider := "aws";
     service_category := "storage"; resource_type := "storage";
     cost_usd := 50; usage_metrics := []; region := "us-east-1";
     tags := []; date := "" |}.

Definition twenty_one_volumes : list UnifiedCostRecord := repeat volume 21.

(** C1, counterexample: on 21 unattached volumes of 50 USD the reported
    [total_potential_savings] is 1050 while the 20 returned opportunities
    sum to 1000. *)
Lemma total_exceeds_returned_top20 :
  exists r,
    analyze_costs twenty_one_volumes = inr r
    /\ List.length (opportunities r) = 20
    /\ total_potential_savings r = Some 1050%float
    /\ sum_savings (opportunities r) = 1000%float
    /\ PrimFloat.eqb 1050 1000 = false.
Proof.
  eexists. split; [vm_compute; reflexivity|].
  repeat split; vm_compute; reflexivity.
Qed.

(** C1, amended: for every non-empty batch [total_potential_savings] is
    the sum over ALL opportunities found (the sorted list before it is cut
    to 20), the returned list is the first 20 of that list, and the total
    equals the sum over the returned list whenever at most 20 opportunities
    were found. *)
Theorem total_potential_savings_sums_all_opportunities
  (records : list UnifiedCostRecord) (Hne : records <> []) :
  exists r,
    analyze_costs records = inr r
    /\ opportunities r = top20 (sort_by_savings (collect_opportunities records))
    /\ total_potential_savings r
       = Some (sum_savings (sort_by_savings (collect_opportunities records)))
    /\ (List.length (collect_opportunities records) <= 20 ->
        total_potential_savings r = Some (sum_savings (opportunities r))).
Proof.
  destruct (analyze_costs_nonempty Hne) as [s Hs]. cbv zeta in Hs.
  eexists. split; [exact Hs|]. simpl. repeat split.
  intros Hlen. unfold top20. rewrite firstn_all2; [reflexivity|].
  rewrite sort_by_savings_length. exact Hlen.
Qed.

Lemma one_volume_nonempty : [volume] <> [].
Proof. discriminate. Qed.

Lemma total_potential_savings_sums_all_opportunities_witness :
  exists r,
    analyze_costs [volume] = inr r
    /\ opportunities r = top20 (sort_by_savings (collect_opportunities [volume]))
    /\ total_potential_savings r
       = Some (sum_savings (sort_by_savings (collect_opportunities [volume])))
    /\ (List.length (collect_opportunities [volume]) <= 20 ->
        total_potential_savings r = Some (sum_savings (opportunities r))).
Proof.
  exact (total_potential_savings_sums_all_opportunities one_volume_nonempty).
Defined.

(** C2, counterexample: for the empty batch the returned dict has no
    [savings_percentage] entry (nor [total_potential_savings]); it is not
    an entry with value 0. *)
Lemma empty_batch_has_no_savings_percentage :
  exists r,
    analyze_costs [] = inr r
    /\ total_cost r = 0%float
    /\ savings_percentage r = None
    /\ total_potential_savings r = None.
Proof.
  eexists. split; [reflexivity|]. repeat split.
Qed.

(** C2, amended: [analyze_costs] never divides by zero: the quotient is
    formed only when [total_cost > 0].  For every non-empty batch whose
    total cost equals 0 the returned [savings_percentage] is 0; for the
    empty batch the returned dict is
    [{total_cost: 0.0, opportunities: [], summary: {}}], without a
    [savings_percentage] or a [total_potential_savings] entry. *)
Theorem savings_percentage_zero_when_total_cost_zero
  (records : list UnifiedCostRecord) :
  analyze_costs records <> inl Py.ZeroDivisionError
  /\ (records <> [] ->
      PrimFloat.eqb (sum_costs records) 0 = true ->
      exists r, analyze_costs records = inr r
                /\ total_cost r = sum_costs records
                /\ savings_percentage r = Some 0%float)
  /\ (records = [] ->
      analyze_costs records
      = inr {| total_cost := 0;
               total_potential_savings := None;
               savings_percentage := None;
               opportunities := [];
               summary := None |}).
Proof.
  split; [|split].
  - destruct records as [|r0 rest]; [discriminate|].
    assert (Hne : r0 :: rest <> []) by discriminate.
    destruct (analyze_costs_nonempty Hne) as [s Hs]. cbv zeta in Hs.
    rewrite Hs. discriminate.
  - intros Hne Hzero.
    destruct (analyze_costs_nonempty Hne) as [s Hs]. cbv zeta in Hs.
    eexists. split; [exact Hs|]. simpl. split; [reflexivity|].
    unfold percentage, Py.gt.
    rewrite (FloatFacts.eq_zero_not_gt Hzero). reflexivity.
  - intros ->. reflexivity.
Qed.

(** A compute instance that was billed nothing. *)
Definition free_instance : UnifiedCostRecord :=
  {| resource_id := "i-0"; cloud_provider := "aws";
     service_category := "compute"; resource_type := "vm";
     cost_usd := 0; usage_metrics := [("instance_type", "t3.medium")];
     region := "us-east-1"; tags := []; date := "" |}.

Lemma free_instance_nonempty : [free_instance] <> [].
Proof. discriminate. Qed.

Lemma free_instance_costs_nothing :
  PrimFloat.eqb (sum_costs [free_instance]) 0 = true.
Proof. vm_compute. reflexivity. Qed.

Lemma savings_percentage_zero_when_total_cost_zero_witness :
  exists r, analyze_costs [free_instance] = inr r
            /\ total_cost r = sum_costs [free_instance]
            /\ savings_percentage r = Some 0%float.
Proof.
  exact (proj1 (proj2 (savings_percentage_zero_when_total_cost_zero [free_instance]))
           free_instance_nonempty free_instance_costs_nothing).
Defined.

End CostAnalyzerSpec.

(** ** cost_normalizer.py *)

Module CostNormalizerSpec.
Import PyDict CostNormalizer.

Ltac bind_cases :=
  repeat match goal with
         | H : Py.bind ?m _ = Py.Ok _ |- _ =>
             let E := fresh "E" in
             destruct m eqn:E; simpl in H; try discriminate H
         end.

(** A cell that is text. *)
Definition is_text (v : PyValue) : bool :=
  match v with VStr _ => true | _ => false end.

(** A cell that is a mapping. *)
Definition is_mapping (v : PyValue) : bool :=
  match v with VDict _ => true | _ => false end.

(** A cell a normalizer can store: any cost cell, a mapping under
    [usage_metrics] or [tags], text elsewhere. *)
Definition plain_cell (cost_key : string) (kv : string * PyValue) : bool :=
  let '(k, v) := kv in
  if String.eqb k cost_key then true
  else if String.eqb k "usage_metrics" || String.eqb k "tags" then is_mapping v
  else is_text v.

(** A row all of whose cells are of the kind the record field they feed
    holds; its cost cell is unconstrained. *)
Definition plain_row (provider : string) (row : Row) : bool :=
  forallb (plain_cell (cost_field provider)) row.

Lemma plain_text (cost_key : string) (row : Row) (k : string) :
  forallb (plain_cell cost_key) row = true ->
  String.eqb k cost_key = false ->
  String.eqb k "usage_metrics" || String.eqb k "tags" = false ->
  exists s, cell row k = VStr s.
Proof.
  intros Hp Hc Hm. unfold cell, get_default.
  induction row as [|[k' v] t IH]; simpl in *.
  - eexists; reflexivity.
  - apply andb_prop in Hp. destruct Hp as [Hkv Ht].
    destruct (String.eqb k k') eqn:E.
    + apply String.eqb_eq in E. subst k'. rewrite Hc, Hm in Hkv.
      destruct v; try discriminate. eexists; reflexivity.
    + apply IH. exact Ht.
Qed.

Lemma plain_mapping (cost_key : string) (row : Row) (k : string) :
  forallb (plain_cell cost_key) row = true ->
  String.eqb k cost_key = false ->
  String.eqb k "usage_metrics" || String.eqb k "tags" = true ->
  exists d, get_default row k (VDict empty) = VDict d.
Proof.
  intros Hp Hc Hm. unfold get_default.
  induction row as [|[k' v] t IH]; simpl in *.
  - eexists; reflexivity.
  - apply andb_prop in Hp. destruct Hp as [Hkv Ht].
    destruct (String.eqb k k') eqn:E.
    + apply String.eqb_eq in E. subst k'. rewrite Hc, Hm in Hkv.
      destruct v; try discriminate. eexists; reflexivity.
    + apply IH. exact Ht.
Qed.

Lemma aws_tags_plain (row : Row) (acc : dict string) :
  forallb (plain_cell "lineItem/UnblendedCost") row = true ->
  exists t, aws_tags row acc = Py.Ok t.
Proof.
  revert acc. induction row as [|[k v] rest IH]; intros acc Hp; simpl in *.
  - eexists; reflexivity.
  - apply andb_prop in Hp. destruct Hp as [Hkv Ht].
    destruct (PyStr.startswith "resourceTags/" k) eqn:P.
    + assert (Hc : String.eqb k "lineItem/UnblendedCost" = false).
      { destruct (String.eqb k "lineItem/UnblendedCost") eqn:E; auto.
        apply String.eqb_eq in E. subst k. discriminate P. }
      assert (Hm : String.eqb k "usage_metrics" || String.eqb k "tags" = false).
      { destruct (String.eqb k "usage_metrics") eqn:E1.
        - apply String.eqb_eq in E1. subst k. discriminate P.
        - destruct (String.eqb k "tags") eqn:E2; auto.
          apply String.eqb_eq in E2. subst k. discriminate P. }
      rewrite Hc, Hm in Hkv. destruct v; try discriminate. simpl.
      apply IH. exact Ht.
    + apply IH. exact Ht.
Qed.

Ltac text_cell H k :=
  let s := fresh "s" in
  let Hs := fresh "Hs" in
  destruct (@plain_text _ _ k H eq_refl eq_refl) as [s Hs]; rewrite Hs; clear Hs.

(** On a plain row the normalizer returns as soon as [float()] accepts the
    cost cell. *)
Lemma normalize_record_total (provider : string) (row : Row) (f : float) :
  plain_row provider row = true ->
  py_float (get_default row (cost_field provider) (VFloat 0)) = Py.Ok f ->
  exists r, normalize_record provider row = Py.Ok r /\ cost_usd r = f.
Proof.
  unfold plain_row, normalize_record, cost_field.
  destruct (String.eqb provider "aws");
    [|destruct (String.eqb provider "gcp");
      [|destruct (String.eqb provider "azure")]];
    intros Hp Hf.
  - unfold normalize_aws. rewrite Hf. simpl.
    text_cell Hp "lineItem/ProductCode". simpl.
    text_cell Hp "lineItem/UsageType". simpl.
    destruct (@aws_tags_plain row empty Hp) as [t Ht]. unfold items. rewrite Ht. simpl.
    text_cell Hp "lineItem/Operation". simpl.
    text_cell Hp "product/InstanceType". simpl.
    text_cell Hp "lineItem/AvailabilityZone".
    unfold region_from_az.
    text_cell Hp "lineItem/ResourceId".
    text_cell Hp "lineItem/UsageStartDate".
    destruct (truthy (VStr s3)); simpl; eexists; split; reflexivity.
  - unfold normalize_gcp. rewrite Hf. simpl.
    text_cell Hp "service.description". simpl.
    text_cell Hp "sku.description". simpl.
    text_cell Hp "project.id". simpl.
    text_cell Hp "location.region". simpl.
    text_cell Hp "resource.name". simpl.
    text_cell Hp "usage_start_time". simpl.
    eexists; split; reflexivity.
  - unfold normalize_azure. rewrite Hf. simpl.
    text_cell Hp "ServiceName". simpl.
    text_cell Hp "MeterCategory". simpl.
    text_cell Hp "SubscriptionId". simpl.
    text_cell Hp "ResourceGroup". simpl.
    text_cell Hp "ResourceLocation". simpl.
    text_cell Hp "ResourceId". simpl.
    text_cell Hp "Date". simpl.
    eexists; split; reflexivity.
  - unfold normalize_csv. rewrite Hf. simpl.
    text_cell Hp "resource_id". simpl.
    text_cell Hp "service_category". simpl.
    text_cell Hp "resource_type". simpl.
    destruct (@plain_mapping _ _ "usage_metrics" Hp eq_refl eq_refl) as [m Hm].
    rewrite Hm. simpl.
    text_cell Hp "region". simpl.
    destruct (@plain_mapping _ _ "tags" Hp eq_refl eq_refl) as [m' Hm'].
    rewrite Hm'. simpl.
    text_cell Hp "date". simpl.
    eexists; split; reflexivity.
Qed.

(** Whatever a normalizer returns carries the converted cost cell. *)
Lemma normalize_record_cost (provider : string) (row : Row) (r : UnifiedCostRecord) :
  normalize_record provider row = Py.Ok r ->
  py_float (get_default row (cost_field provider) (VFloat 0)) = Py.Ok (cost_usd r).
Proof.
  unfold normalize_record, cost_field.
  destruct (String.eqb provider "aws");
    [|destruct (String.eqb provider "gcp");
      [|destruct (String.eqb provider "azure")]];
    unfold normalize_aws, normalize_gcp, normalize_azure, normalize_csv;
    intros H; bind_cases; injection H as <-; simpl; reflexivity.
Qed.

(** A cost cell [float()] rejects makes the normalizer raise the same
    exception. *)
Lemma normalize_record_raises (provider : string) (row : Row) (e : Py.exn) :
  py_float (get_default row (cost_field provider) (VFloat 0)) = Py.Raises e ->
  normalize_record provider row = Py.Raises e.
Proof.
  unfold normalize_record, cost_field.
  destruct (String.eqb provider "aws");
    [|destruct (String.eqb provider "gcp");
      [|destruct (String.eqb provider "azure")]];
    unfold normalize_aws, normalize_gcp, normalize_azure, normalize_csv;
    intros H; rewrite H; reflexivity.
Qed.

Lemma hd_split (sep : ascii) (s : string) :
  hd "" (PyStr.split sep s) = fst (PyStr.split_once sep s).
Proof.
  induction s as [|c t IH]; simpl; auto.
  destruct (Ascii.eqb c sep); simpl; auto.
  destruct (PyStr.split sep t) as [|h r]; destruct (PyStr.split_once sep t);
    simpl in *; congruence.
Qed.

(** What [normalize_aws] stores as region: the text of the
    availability zone before its FIRST hyphen. *)
Lemma aws_region_is_text_before_first_hyphen
  (row : Row) (az : string) (r : UnifiedCostRecord) :
  get row "lineItem/AvailabilityZone" = Some (VStr az) ->
  normalize_aws row = Py.Ok r ->
  region r = fst (PyStr.split_once "-" az).
Proof.
  intros Haz H. unfold normalize_aws in H.
  unfold cell, get_default in H. rewrite Haz in H.
  bind_cases. injection H as <-. simpl.
  unfold region_from_az in *.
  destruct (truthy (VStr az)) eqn:T.
  - injection E6 as <-. apply hd_split.
  - injection E6 as <-. simpl in T.
    destruct az; [reflexivity | discriminate T].
Qed.

(** One line of an AWS cost and usage report, as the mock generator writes
    it: an EC2 instance in availability zone us-east-1a. *)
Definition ec2_line : Row :=
  [ ("lineItem/ResourceId", VStr "i-0abc123");
    ("lineItem/UnblendedCost", VFloat 12.5);
    ("lineItem/ProductCode", VStr "AmazonEC2");
    ("lineItem/UsageType", VStr "BoxUsage:m5.xlarge");
    ("lineItem/AvailabilityZone", VStr "us-east-1a");
    ("product/InstanceType", VStr "m5.xlarge") ].

(** C3: the code at the failing input.  For availability zone us-east-1a
    [normalize_aws] stores region "us", neither "us-east-1" (the claim's
    example) nor "us-east" (the zone without its last hyphen segment). *)
Lemma aws_region_of_us_east_1a :
  exists r,
    normalize_aws ec2_line = Py.Ok r
    /\ region r = "us"
    /\ String.eqb (region r) "us-east-1" = false
    /\ String.eqb (region r) "us-east" = false.
Proof.
  eexists. split; [vm_compute; reflexivity|]. repeat split.
Qed.

(** A billing line whose cost cell is not a number. *)
Definition line_without_amount : Row :=
  [ ("lineItem/ResourceId", VStr "i-0abc123");
    ("lineItem/UnblendedCost", VStr "N/A");
    ("lineItem/ProductCode", VStr "AmazonEC2") ].

(** C4, counterexample: a cost cell that does not parse makes
    [normalize_aws] raise [ValueError]; no record with cost 0 is
    produced, and [normalize_batch] drops the row. *)
Lemma unparsable_cost_raises :
  normalize_aws line_without_amount = Py.Raises PyFloat.could_not_convert
  /\ normalize_batch [line_without_amount] "aws" = Py.Ok [].
Proof.
  split; vm_compute; reflexivity.
Qed.

(** C4, amended: every per-provider normalizer converts the provider's cost
    cell with [float()].  When the cell is absent, the record it returns has
    [cost_usd] 0 (and on a plain row it does return one); when [float()]
    accepts the cell, the record carries the converted value; when
    [float()] rejects the cell, the normalizer raises that exception
    instead of yielding 0, and [normalize_batch] skips the row. *)
Theorem cost_cell_is_converted_or_the_row_is_skipped
  (provider : string) (row : Row) :
  (get row (cost_field provider) = None ->
   (forall r, normalize_record provider row = Py.Ok r -> cost_usd r = 0%float)
   /\ (plain_row provider row = true ->
       exists r, normalize_record provider row = Py.Ok r /\ cost_usd r = 0%float))
  /\ (forall v f,
        get row (cost_field provider) = Some v -> py_float v = Py.Ok f ->
        (forall r, normalize_record provider row = Py.Ok r -> cost_usd r = f)
        /\ (plain_row provider row = true ->
            exists r, normalize_record provider row = Py.Ok r /\ cost_usd r = f))
  /\ (forall v e,
        get row (cost_field provider) = Some v -> py_float v = Py.Raises e ->
        normalize_record provider row = Py.Raises e
        /\ forall rest,
             normalize_batch (row :: rest) provider = normalize_batch rest provider).
Proof.
  split; [|split].
  - intros Habs. split.
    + intros r Hr. apply normalize_record_cost in Hr.
      unfold get_default in Hr. rewrite Habs in Hr. simpl in Hr. congruence.
    + intros Hp. apply normalize_record_total; [exact Hp|].
      unfold get_default. rewrite Habs. reflexivity.
  - intros v f Hv Hf. split.
    + intros r Hr. apply normalize_record_cost in Hr.
      unfold get_default in Hr. rewrite Hv in Hr. congruence.
    + intros Hp. apply normalize_record_total; [exact Hp|].
      unfold get_default. rewrite Hv. exact Hf.
  - intros v e Hv He.
    assert (Hr : normalize_record provider row = Py.Raises e).
    { apply normalize_record_raises. unfold get_default. rewrite Hv. exact He. }
    split; [exact Hr|]. intros rest. simpl. rewrite Hr. reflexivity.
Qed.

(** A GCP export line without a cost column. *)
Definition gcp_line_without_cost : Row :=
  [ ("resource.name", VStr "vm-1");
    ("service.description", VStr "Compute Engine");
    ("location.region", VStr "us-central1") ].

Lemma cost_cell_is_converted_or_the_row_is_skipped_witness :
  (exists r, normalize_record "gcp" gcp_line_without_cost = Py.Ok r
             /\ cost_usd r = 0%float)
  /\ normalize_record "aws" line_without_amount
     = Py.Raises PyFloat.could_not_convert.
Proof.
  split.
  - exact (proj2 (proj1 (cost_cell_is_converted_or_the_row_is_skipped
                           "gcp" gcp_line_without_cost) eq_refl) eq_refl).
  - exact (proj1 (proj2 (proj2 (cost_cell_is_converted_or_the_row_is_skipped
                                  "aws" line_without_amount))
                    (VStr "N/A") PyFloat.could_not_convert eq_refl eq_refl)).
Defined.

(** A credit line of an AWS report: a negative amount. *)
Definition credit_line : Row :=
  [ ("lineItem/ResourceId", VStr "i-0abc123");
    ("lineItem/UnblendedCost", VStr "-5.0");
    ("lineItem/ProductCode", VStr "AmazonEC2") ].

(** C5, counterexample: a negative cost cell yields a record with a
    negative [cost_usd]. *)
Lemma negative_cost_is_kept :
  exists r,
    normalize_record "aws" credit_line = Py.Ok r
    /\ cost_usd r = (-5)%float
    /\ PrimFloat.leb 0 (cost_usd r) = false.
Proof.
  eexists. split; [vm_compute; reflexivity|]. split; vm_compute; reflexivity.
Qed.

(** C5, amended: the [cost_usd] of every record a normalizer produces is
    exactly [float()] of the row's cost cell (0.0 when the cell is absent);
    nothing clamps or rejects a negative amount, so [cost_usd >= 0] holds
    exactly when the converted cell is [>= 0], in particular whenever the
    cell is absent. *)
Theorem cost_usd_is_the_converted_cost_cell
  (provider : string) (row : Row) (r : UnifiedCostRecord)
  (H : normalize_record provider row = Py.Ok r) :
  py_float (get_default row (cost_field provider) (VFloat 0)) = Py.Ok (cost_usd r)
  /\ (forall f,
        py_float (get_default row (cost_field provider) (VFloat 0)) = Py.Ok f ->
        PrimFloat.leb 0 (cost_usd r) = PrimFloat.leb 0 f)
  /\ (get row (cost_field provider) = None ->
      PrimFloat.leb 0 (cost_usd r) = true).
Proof.
  pose proof (normalize_record_cost _ _ H) as Hc. split; [exact Hc|]. split.
  - intros f Hf. rewrite Hf in Hc. injection Hc as ->. reflexivity.
  - intros Habs. unfold get_default in Hc. rewrite Habs in Hc.
    simpl in Hc. injection Hc as <-. reflexivity.
Qed.

(** The record [normalize_aws] builds from [ec2_line]. *)
Definition ec2_record : UnifiedCostRecord :=
  {| resource_id := "i-0abc123"; cloud_provider := "aws";
     service_category := "compute"; resource_type := "vm";
     cost_usd := 12.5;
     usage_metrics := [ ("usage_type", "BoxUsage:m5.xlarge");
                        ("operation", "");
                        ("instance_type", "m5.xlarge") ];
     region := "us"; tags := []; date := "" |}.

Lemma ec2_line_normalizes : normalize_record "aws" ec2_line = Py.Ok ec2_record.
Proof. vm_compute. reflexivity. Qed.

Lemma cost_usd_is_the_converted_cost_cell_witness :
  py_float (get_default ec2_line (cost_field "aws") (VFloat 0))
  = Py.Ok (cost_usd ec2_record).
Proof.
  exact (proj1 (cost_usd_is_the_converted_cost_cell "aws" ec2_line ec2_line_normalizes)).
Defined.

End CostNormalizerSpec.

(** ** data_sources.py *)

Module DataSourcesSpec.
Import PyDict DataSources.

Section SourcesSpec.

Variable Filter : Type.
Variable filter_str : Filter -> string.

(** What [query_all_sources] stores for one name. *)
Definition entry_for (sources : Registry Filter) (q : QueryParams Filter)
  (name : string) : Rows :=
  rows_or_empty (fst (query_source filter_str sources name q)).

Lemma step_results (sources : Registry Filter) (q : QueryParams Filter)
  (results : dict Rows) (log : list Access) (name : string) :
  fst (collect_source filter_str sources q (results, log) name)
  = set results name (entry_for sources q name).
Proof.
  unfold collect_source, entry_for.
  destruct (query_source filter_str sources name q); reflexivity.
Qed.

Lemma loop_get (sources : Registry Filter) (q : QueryParams Filter)
  (names : list string) (state : dict Rows * list Access) (name : string) :
  get (fst (fold_left (collect_source filter_str sources q) names state)) name
  = if existsb (String.eqb name) names
    then Some (entry_for sources q name)
    else get (fst state) name.
Proof.
  revert state. induction names as [|k ks IH]; intros [results log];
    cbn [fold_left existsb]; auto.
  rewrite IH. pose proof (step_results sources q results log k) as Hs.
  destruct (existsb (String.eqb name) ks) eqn:Ex.
  - rewrite orb_true_r. reflexivity.
  - rewrite orb_false_r. rewrite Hs.
    destruct (String.eqb name k) eqn:E.
    + apply String.eqb_eq in E. subst k. apply get_set_same.
    + apply String.eqb_neq in E. apply get_set_other. exact E.
Qed.

Lemma loop_NoDup (sources : Registry Filter) (q : QueryParams Filter)
  (names : list string) (state : dict Rows * list Access) :
  NoDup (keys (fst state)) ->
  NoDup (keys (fst (fold_left (collect_source filter_str sources q) names state))).
Proof.
  revert state. induction names as [|k ks IH]; intros [results log] H;
    cbn [fold_left]; auto.
  apply IH. rewrite step_results. apply NoDup_keys_set. exact H.
Qed.

Lemma existsb_eqb_In (name : string) (names : list string) :
  existsb (String.eqb name) names = true <-> In name names.
Proof.
  rewrite existsb_exists. split.
  - intros [x [Hin Heq]]. apply String.eqb_eq in Heq. subst. exact Hin.
  - intros Hin. exists name. split; [exact Hin | apply String.eqb_refl].
Qed.

(** C6: for every registry and every name the registry does not hold,
    [query_source] raises the not-found [ValueError] (it returns no list,
    and touches no store). *)
Theorem unregistered_source_is_not_found
  (sources : Registry Filter) (source_name : string) (q : QueryParams Filter)
  (H : get_source sources source_name = None) :
  query_source filter_str sources source_name q
  = (inl (not_found source_name), []).
Proof.
  unfold query_source. rewrite H. reflexivity.
Qed.

(** What [query_all_sources] holds for a name: nothing when the name is
    not registered, else what the loop body stored for that source. *)
Lemma query_all_sources_get (sources : Registry Filter) (q : QueryParams Filter)
  (name : string) :
  get (fst (query_all_sources filter_str sources q)) name
  = match get sources name with
    | Some source =>
        Some (match fst (query filter_str source q) with
              | inr rows => rows
              | inl _ => []
              end)
    | None => None
    end.
Proof.
  unfold query_all_sources. rewrite loop_get. simpl.
  destruct (existsb (String.eqb name) (keys sources)) eqn:Ex.
  - apply existsb_eqb_In, get_In_keys in Ex.
    unfold entry_for, query_source, get_source, rows_or_empty.
    destruct (get sources name); [reflexivity | congruence].
  - destruct (get sources name) eqn:G; [|reflexivity].
    assert (Hin : In name (keys sources)) by (apply get_In_keys; congruence).
    apply existsb_eqb_In in Hin. congruence.
Qed.

(** C7: [query_all_sources] returns a mapping with exactly one entry per
    registered name.  The entry of a source whose query raises is the
    empty list, the entry of a source whose query returns is the rows it
    returned; an entry depends on its own source only, so it is the same in
    every registry that holds that source under that name, whatever the
    other sources are and do. *)
Theorem query_all_sources_isolates_failures
  (sources : Registry Filter) (q : QueryParams Filter) :
  let results := fst (query_all_sources filter_str sources q) in
  NoDup (keys results)
  /\ (forall name, In name (keys results) <-> In name (keys sources))
  /\ (forall name source e,
        get sources name = Some source ->
        fst (query filter_str source q) = inl e ->
        get results name = Some [])
  /\ (forall name source rows,
        get sources name = Some source ->
        fst (query filter_str source q) = inr rows ->
        get results name = Some rows)
  /\ (forall (others : Registry Filter) name,
        get others name = get sources name ->
        get (fst (query_all_sources filter_str others q)) name
        = get results name).
Proof.
  cbv zeta. split; [|split; [|split; [|split]]].
  - unfold query_all_sources. apply loop_NoDup. constructor.
  - intros name. unfold query_all_sources.
    rewrite get_In_keys, loop_get. simpl.
    rewrite <- existsb_eqb_In.
    destruct (existsb (String.eqb name) (keys sources)); split; congruence.
  - intros name source e G Hq. rewrite query_all_sources_get, G, Hq. reflexivity.
  - intros name source rows G Hq. rewrite query_all_sources_get, G, Hq.
    reflexivity.
  - intros others name G. rewrite !query_all_sources_get, G. reflexivity.
Qed.

(** A query that passes validation goes to the store, once. *)
Lemma valid_query_reaches_the_store
  (source : DataSource Filter) (q : QueryParams Filter) :
  validate_query filter_str source q = true ->
  query filter_str source q
  = (fst (backend_of source) q, [snd (backend_of source)]).
Proof.
  intros H. unfold query. rewrite H. simpl.
  destruct (backend_of source). reflexivity.
Qed.

(** C8: every source class rejects a limit above 10,000; the MongoDB
    source rejects every filter whose text contains [$where], [$eval] or
    [$function]; and a rejected query raises the validation [ValueError]
    without any access to the store. *)
Theorem validate_query_guards_every_query :
  (forall (source : DataSource Filter) (q : QueryParams Filter) (n : Z),
      limit q = Some n -> (10000 < n)%Z ->
      validate_query filter_str source q = false)
  /\ (forall (collection : Backend Filter) (q : QueryParams Filter) (f : Filter),
        filter q = Some f ->
        PyStr.contains "$where" (filter_str f)
        || PyStr.contains "$eval" (filter_str f)
        || PyStr.contains "$function" (filter_str f) = true ->
        validate_query filter_str (MongoDBDataSource collection) q = false)
  /\ (forall (source : DataSource Filter) (q : QueryParams Filter),
        validate_query filter_str source q = false ->
        query filter_str source q = (inl (validation_error source), [])).
Proof.
  split; [|split].
  - intros source q n Hl Hn.
    assert (Hbig : limit_too_large q = true).
    { unfold limit_too_large. rewrite Hl. apply Z.ltb_lt. exact Hn. }
    destruct source; simpl; rewrite Hbig;
      repeat match goal with |- (if ?b then false else false) = false =>
               destruct b end; reflexivity.
  - intros collection q f Hf Hd. simpl.
    unfold filter_is_dangerous. rewrite Hf.
    unfold PyStr.contains_any, dangerous_ops. simpl.
    rewrite orb_false_r, orb_assoc, Hd. reflexivity.
  - intros source q H. unfold query. rewrite H. reflexivity.
Qed.

End SourcesSpec.

(** *** Instances: filters given by their text *)

(** A store that answers every query with no rows. *)
Definition no_rows : Backend string := fun _ => inr [].

(** A store that is down. *)
Definition unreachable : Backend string :=
  fun _ => inl (Py.ExternalError "connection refused").

Definition query_with (f : option string) (n : option Z) : QueryParams string :=
  {| filter := f; limit := n; date_from := None; date_to := None;
     date_column := None; sort := None |}.

(** The registry after [register("aws", ...)] alone. *)
Definition only_aws : Registry string :=
  register empty "aws" (AWSDataSource no_rows).

Lemma unregistered_source_is_not_found_witness :
  query_source (fun t => t) only_aws "gcp" (query_with None (Some 100%Z))
  = (inl (not_found "gcp"), []).
Proof.
  exact (@unregistered_source_is_not_found string (fun t => t) only_aws "gcp"
           (query_with None (Some 100%Z)) eq_refl).
Defined.

Lemma validate_query_guards_every_query_witness :
  validate_query (fun t => t) (CSVDataSource no_rows)
    (query_with None (Some 20000%Z)) = false
  /\ validate_query (fun t => t) (MongoDBDataSource no_rows)
       (query_with (Some "{'$where': 'sleep(1000)'}") None) = false
  /\ query (fun t => t) (MongoDBDataSource unreachable)
       (query_with (Some "{'$where': 'sleep(1000)'}") None)
     = (inl (Py.ValueError "Query validation failed: Unsafe operation detected"), []).
Proof.
  pose proof (@validate_query_guards_every_query string (fun t => t)) as [H1 [H2 H3]].
  split; [|split].
  - exact (H1 (CSVDataSource no_rows) (query_with None (Some 20000%Z))
             20000%Z eq_refl eq_refl).
  - exact (H2 no_rows (query_with (Some "{'$where': 'sleep(1000)'}") None)
             "{'$where': 'sleep(1000)'}" eq_refl eq_refl).
  - exact (H3 (MongoDBDataSource unreachable)
             (query_with (Some "{'$where': 'sleep(1000)'}") None) eq_refl).
Defined.

(** One line of a billing export. *)
Definition one_row : Rows :=
  [ [ ("cost", CostNormalizer.VFloat 1) ] ].

Definition answers_one_row : Backend string := fun _ => inr one_row.

(** Three sources: a database that holds a row, a report whose store is
    down, and a second report that answers one row. *)
Definition three_sources : Registry string :=
  register
    (register
       (register empty "mongo" (MongoDBDataSource answers_one_row))
       "aws" (AWSDataSource unreachable))
    "gcp" (GCPDataSource answers_one_row).

(** The same names with the failing sources replaced by empty ones. *)
Definition three_quiet_sources : Registry string :=
  register
    (register
       (register empty "mongo" (MongoDBDataSource no_rows))
       "aws" (AWSDataSource no_rows))
    "gcp" (GCPDataSource answers_one_row).

(** A query the database source rejects and the report sources accept. *)
Definition unsafe_query : QueryParams string :=
  query_with (Some "{'$where': 'sleep(1000)'}") None.

Lemma query_all_sources_isolates_failures_witness :
  fst (query_all_sources (fun t => t) three_sources unsafe_query)
  = [ ("mongo", []); ("aws", []); ("gcp", one_row) ]
  /\ get (fst (query_all_sources (fun t => t) three_sources unsafe_query)) "mongo"
     = Some []
  /\ get (fst (query_all_sources (fun t => t) three_sources unsafe_query)) "aws"
     = Some []
  /\ get (fst (query_all_sources (fun t => t) three_sources unsafe_query)) "gcp"
     = Some one_row
  /\ get (fst (query_all_sources (fun t => t) three_quiet_sources unsafe_query))
       "gcp"
     = get (fst (query_all_sources (fun t => t) three_sources unsafe_query)) "gcp".
Proof.
  pose proof (@query_all_sources_isolates_failures string (fun t => t)
                three_sources unsafe_query) as [_ [_ [Hraise [Hrows Hother]]]].
  split; [reflexivity|]. split; [|split; [|split]].
  - exact (Hraise "mongo" (MongoDBDataSource answers_one_row)
             (Py.ValueError "Query validation failed: Unsafe operation detected")
             eq_refl eq_refl).
  - exact (Hraise "aws" (AWSDataSource unreachable)
             (Py.ExternalError "connection refused") eq_refl eq_refl).
  - exact (Hrows "gcp" (GCPDataSource answers_one_row) one_row eq_refl eq_refl).
  - exact (Hother three_quiet_sources "gcp" eq_refl).
Defined.

End DataSourcesSpec.

(** ** pricing_scraper.py *)

Module PricingScraperSpec.
Import PyDict PricingScraper.

(** The current-prices map is a dictionary of dictionaries: no provider and,
    under one provider, no instance type occurs twice. *)
Definition well_formed (current_prices : dict (dict float)) : bool :=
  unique_keys current_prices &&
  forallb (fun kv => unique_keys (snd kv)) (items current_prices).

(** What [historical_prices.get(historical_key, {})] may hold for the first
    loop to run through: nothing, or a map of prices. *)
Definition price_entry (e : option Entry) : bool :=
  match e with
  | None | Some (Prices _) => true
  | Some (LastUpdated _) | Some (Reductions _) => false
  end.

(** A scraper started on a missing history file that can be written. *)
Definition fresh_scraper (clock : nat -> string) : Scraper :=
  new_scraper {| stored := None; writable := true |} clock.

Definition one_price : dict (dict float) :=
  [ ("aws", [ ("m5.xlarge", 0.192%float) ]) ].

Definition new_year (_ : nat) : string := "2024-01-01T00:00:00".

(** The scraper left by a first [detect_price_changes(one_price)]. *)
Definition after_first_detection : Scraper :=
  match detect_price_changes (fresh_scraper new_year) one_price with
  | inr (_, s) => s
  | inl _ => fresh_scraper new_year
  end.

Fixpoint last_char (s : string) : option ascii :=
  match s with
  | EmptyString => None
  | String c t => match last_char t with None => Some c | x => x end
  end.

(** *** The keys written by the second loop *)

Lemma last_char_app (p : string) (c : ascii) (t : string) :
  last_char (p ++ String c t)%string = last_char (String c t).
Proof.
  induction p as [|a p IH]; [reflexivity|].
  simpl append. simpl last_char at 1. fold last_char.
  rewrite IH. simpl. destruct (last_char t); reflexivity.
Qed.

(** No provider's price key is another provider's time-stamp key: the one
    ends in [s], the other in [d]. *)
Lemma prices_key_is_no_timestamp_key (p q : string) :
  (p ++ "_prices")%string <> ((q ++ "_prices") ++ "_last_updated")%string.
Proof.
  intros H. apply (f_equal last_char) in H.
  rewrite !last_char_app in H. discriminate.
Qed.

Lemma append_length (p t : string) :
  String.length (p ++ t)%string = String.length p + String.length t.
Proof. induction p; simpl; auto. Qed.

(** Distinct providers have distinct price keys. *)
Lemma append_inj (t p q : string) : (p ++ t = q ++ t)%string -> p = q.
Proof.
  revert q. induction p as [|a p IH]; intros [|b q] H; simpl in H.
  - reflexivity.
  - apply (f_equal String.length) in H. simpl in H.
    rewrite append_length in H. lia.
  - apply (f_equal String.length) in H. simpl in H.
    rewrite append_length in H. lia.
  - inversion H. f_equal. auto.
Qed.

Lemma well_formed_spec (current_prices : dict (dict float)) :
  well_formed current_prices = true ->
  NoDup (keys current_prices) /\
  forall p prices, In (p, prices) (items current_prices) -> NoDup (keys prices).
Proof.
  unfold well_formed. intros H. apply andb_prop in H. destruct H as [Hk Hi].
  split; [now apply unique_NoDup|].
  intros p prices Hin. rewrite forallb_forall in Hi.
  apply unique_NoDup. exact (Hi _ Hin).
Qed.

(** *** Writing the baseline *)

(** Whether or not the file could be written, the scraper keeps its
    history in memory. *)
Lemma saved_history (s : Scraper) (h : History) :
  historical_prices (_save_price_history s h) = historical_prices s.
Proof. unfold _save_price_history. destruct (writable (disk s)); reflexivity. Qed.

Lemma save_baseline_keeps (k : string) (l : list (string * dict float)) :
  forall s,
    (forall q prices, In (q, prices) l -> (q ++ "_prices")%string <> k) ->
    (forall q prices, In (q, prices) l ->
       ((q ++ "_prices") ++ "_last_updated")%string <> k) ->
    get (historical_prices (save_baseline l s)) k = get (historical_prices s) k.
Proof.
  induction l as [|[q prices] rest IH]; intros s H1 H2; [reflexivity|].
  cbn [save_baseline utcnow]. rewrite IH.
  - cbn [with_history historical_prices].
    rewrite get_set_other
      by (intros E; exact (H2 q prices (or_introl eq_refl) (eq_sym E))).
    apply get_set_other. intros E.
    exact (H1 q prices (or_introl eq_refl) (eq_sym E)).
  - intros q' p' Hin. apply (H1 q' p'). now right.
  - intros q' p' Hin. apply (H2 q' p'). now right.
Qed.

(** After the second loop the history holds, under every provider's key,
    that provider's current prices. *)
Lemma save_baseline_writes (l : list (string * dict float)) :
  NoDup (map fst l) ->
  forall s p prices,
    In (p, prices) l ->
    get (historical_prices (save_baseline l s)) (p ++ "_prices")%string
    = Some (Prices prices).
Proof.
  induction l as [|[q qprices] rest IH]; intros Hn s p prices Hin; [destruct Hin|].
  inversion Hn as [|? ? Hq Hrest]; subst.
  destruct Hin as [E | Hin].
  - inversion E; subst q qprices. cbn [save_baseline utcnow].
    rewrite save_baseline_keeps.
    + cbn [with_history historical_prices].
      rewrite get_set_other by apply prices_key_is_no_timestamp_key.
      apply get_set_same.
    + intros q prices' Hin E'. apply append_inj in E'. subst q.
      apply Hq. change p with (fst (p, prices')). now apply in_map.
    + intros q prices' _ E'. symmetry in E'.
      exact (@prices_key_is_no_timestamp_key p q E').
  - cbn [save_baseline utcnow]. now apply IH.
Qed.

(** *** Comparing prices with themselves *)

Lemma detect_instances_unchanged (name : string) (prices : dict float)
  (l : list (string * float)) :
  forall acc,
    (forall itype price, In (itype, price) l -> get prices itype = Some price) ->
    detect_instances name (Some (Prices prices)) l acc = inr acc.
Proof.
  induction l as [|[itype price] rest IH]; intros acc H; [reflexivity|].
  cbn [detect_instances historical_price_of Py.bind_result].
  rewrite (H itype price (or_introl eq_refl)).
  assert (Hrest : detect_instances name (Some (Prices prices)) rest acc = inr acc).
  { apply IH. intros i c Hin. apply H. now right. }
  unfold Py.truthy, Py.div, Py.gt.
  destruct (PrimFloat.eqb price 0) eqn:E; cbn [negb Py.bind_result]; auto.
  rewrite FloatFacts.self_change_not_above_5. exact Hrest.
Qed.

Lemma detect_providers_unchanged (history : History)
  (l : list (string * dict float)) :
  forall acc,
    (forall p prices, In (p, prices) l ->
       get history (p ++ "_prices")%string = Some (Prices prices) /\
       NoDup (keys prices)) ->
    detect_providers history l acc = inr acc.
Proof.
  induction l as [|[p prices] rest IH]; intros acc H; [reflexivity|].
  cbn [detect_providers].
  destruct (H p prices (or_introl eq_refl)) as [Hg Hn].
  rewrite Hg, detect_instances_unchanged.
  - cbn [Py.bind_result]. apply IH. intros q qp Hin. apply H. now right.
  - intros itype price Hin. now apply get_item.
Qed.

(** *** When the first pass returns *)

Lemma detect_instances_returns (name : string) (entry : option Entry)
  (l : list (string * float)) :
  price_entry entry = true ->
  forall acc, exists acc', detect_instances name entry l acc = inr acc'.
Proof.
  intros He. induction l as [|[itype price] rest IH]; intros acc.
  - eexists. reflexivity.
  - destruct entry as [[p|t|r]|]; try discriminate He.
    + cbn [detect_instances historical_price_of Py.bind_result].
      destruct (get p itype) as [h|]; [|apply IH].
      unfold Py.truthy, Py.div.
      destruct (PrimFloat.eqb h 0); cbn [negb Py.bind_result]; [apply IH|].
      destruct (Py.gt _ _); [|apply IH].
      cbn [utcnow]. apply IH.
    + cbn [detect_instances historical_price_of Py.bind_result]. apply IH.
Qed.

Lemma detect_providers_returns (history : History)
  (l : list (string * dict float)) :
  (forall p prices, In (p, prices) l ->
     price_entry (get history (p ++ "_prices")%string) = true) ->
  forall acc, exists acc', detect_providers history l acc = inr acc'.
Proof.
  induction l as [|[p prices] rest IH]; intros H acc.
  - eexists. reflexivity.
  - cbn [detect_providers].
    destruct (@detect_instances_returns p
                (get history (p ++ "_prices")%string) (items prices)
                (H p prices (or_introl eq_refl)) acc) as [acc' E].
    rewrite E. cbn [Py.bind_result]. apply IH.
    intros q qp Hin. apply (H q qp). now right.
Qed.

(** [detect_price_changes] returns on every history that holds, under the
    price key of each provider scraped, a map of prices or nothing. *)
Lemma detect_price_changes_returns (s : Scraper)
  (current_prices : dict (dict float)) :
  (forall p prices, In (p, prices) (items current_prices) ->
     price_entry (get (historical_prices s) (p ++ "_prices")%string) = true) ->
  exists changes s', detect_price_changes s current_prices = inr (changes, s').
Proof.
  intros H. unfold detect_price_changes.
  destruct (@detect_providers_returns (historical_prices s)
              (items current_prices) H ([], s)) as [found E].
  rewrite E. cbn [Py.bind_result]. do 2 eexists. reflexivity.
Qed.

(** *** Detection twice in a row *)

(** C9: whatever the history held, a call of [detect_price_changes] that
    returns has written every provider's current prices into the history,
    under that provider's price key, as the new baseline; a second call
    with the same current-prices map then returns, and its change list is
    empty. *)
Theorem second_detection_finds_no_change (s s' : Scraper)
  (current_prices : dict (dict float)) (changes : list PriceChange) :
  well_formed current_prices = true ->
  detect_price_changes s current_prices = inr (changes, s') ->
  (forall p prices,
     get current_prices p = Some prices ->
     get (historical_prices s') (p ++ "_prices")%string = Some (Prices prices))
  /\ exists s'', detect_price_changes s' current_prices = inr ([], s'').
Proof.
  intros Hwf Hfirst. apply well_formed_spec in Hwf. destruct Hwf as [Hk Hi].
  unfold detect_price_changes in Hfirst.
  destruct (detect_providers (historical_prices s) (items current_prices) ([], s))
    as [e | found]; [discriminate|].
  cbn [Py.bind_result] in Hfirst. inversion Hfirst; subst changes s'. clear Hfirst.
  assert (Hbase : forall p prices,
            In (p, prices) (items current_prices) ->
            get (historical_prices
                   (_save_price_history
                      (save_baseline (items current_prices) (snd found))
                      (historical_prices
                         (save_baseline (items current_prices) (snd found)))))
              (p ++ "_prices")%string = Some (Prices prices)).
  { intros p prices Hin. rewrite saved_history. now apply save_baseline_writes. }
  split.
  - intros p prices Hg. apply Hbase. now apply item_get.
  - unfold detect_price_changes. rewrite detect_providers_unchanged.
    + cbn [Py.bind_result fst snd]. eexists. reflexivity.
    + intros p prices Hin. split; [now apply Hbase | exact (Hi p prices Hin)].
Qed.

Lemma second_detection_finds_no_change_witness :
  (forall p prices,
     get one_price p = Some prices ->
     get (historical_prices after_first_detection) (p ++ "_prices")%string
     = Some (Prices prices))
  /\ exists s'', detect_price_changes after_first_detection one_price = inr ([], s'').
Proof.
  apply (@second_detection_finds_no_change
           (fresh_scraper new_year) after_first_detection one_price []).
  - reflexivity.
  - vm_compute. reflexivity.
Defined.

(** *** A simulated reduction *)

(** C10: on a scraper started with no price history,
    [simulate_price_reduction("aws", "m5.xlarge", 15)] followed by one
    [check_for_changes] reports exactly one change: for aws m5.xlarge, from
    0.192 an hour to 0.192 * (1 - 15 / 100.0), with [reduction_pct] within
    1e-14 of 15 and [savings_per_month] within 1e-14 of
    (0.192 * 0.15) * 730. *)
Theorem simulated_reduction_is_detected (clock : nat -> string) :
  exists reduction s1 change s2,
    simulate_price_reduction (fresh_scraper clock) "aws" "m5.xlarge" 15
    = Py.Ok (reduction, s1) /\
    check_for_changes s1 = inr ([change], s2) /\
    provider change = "aws" /\
    instance_type change = "m5.xlarge" /\
    old_price_per_hour change = 0.192%float /\
    new_price_per_hour change = (0.192 * (1 - 15 / 100))%float /\
    PrimFloat.ltb (abs (change_reduction_pct change - 15)) 1e-14 = true /\
    PrimFloat.ltb (abs (savings_per_month change - (0.192 * 0.15) * 730)) 1e-14
    = true.
Proof.
  do 4 eexists. split; [vm_compute; reflexivity|].
  split; [vm_compute; reflexivity|].
  repeat split; vm_compute; reflexivity.
Qed.

(** The two figures are the nearest binary64 results of the arithmetic the
    code performs, not the literals themselves: [reduction_pct] is
    ((0.192 - 0.1632) / 0.192) * 100 and differs from 15.0 in its last
    places, as [savings_per_month] does from (0.192 * 0.15) * 730. *)
Lemma simulated_reduction_rounding (clock : nat -> string) :
  exists reduction s1 change s2,
    simulate_price_reduction (fresh_scraper clock) "aws" "m5.xlarge" 15
    = Py.Ok (reduction, s1) /\
    check_for_changes s1 = inr ([change], s2) /\
    PrimFloat.eqb (change_reduction_pct change) 15 = false /\
    PrimFloat.eqb (savings_per_month change) ((0.192 * 0.15) * 730) = false.
Proof.
  do 4 eexists. split; [vm_compute; reflexivity|].
  split; [vm_compute; reflexivity|].
  split; vm_compute; reflexivity.
Qed.

(** The reduction reaches the next pass through the history file: where the
    file cannot be written, the pass reloads an empty history and reports
    nothing. *)
Lemma unsaved_reduction_is_not_detected (clock : nat -> string) :
  exists reduction s1 s2,
    simulate_price_reduction
      (new_scraper {| stored := None; writable := false |} clock)
      "aws" "m5.xlarge" 15 = Py.Ok (reduction, s1) /\
    check_for_changes s1 = inr ([], s2).
Proof.
  do 3 eexists. split; vm_compute; reflexivity.
Qed.

(** Once detected, the reduced price is the baseline: the pass after finds
    nothing. *)
Lemma detected_reduction_is_reported_once (clock : nat -> string) :
  exists reduction s1 change s2 s3,
    simulate_price_reduction (fresh_scraper clock) "aws" "m5.xlarge" 15
    = Py.Ok (reduction, s1) /\
    check_for_changes s1 = inr ([change], s2) /\
    check_for_changes s2 = inr ([], s3).
Proof.
  do 5 eexists. split; [vm_compute; reflexivity|].
  split; vm_compute; reflexivity.
Qed.

End PricingScraperSpec.

(** * Further properties *)

(** ** Order and rounding of binary64 *)

Module FloatOrder.

(** Not a NaN. *)
Definition is_number (x : float) : bool := PrimFloat.eqb x x.

Definition SFnumber (x : spec_float) : bool :=
  match x with S754_nan => false | _ => true end.

Lemma SFcompare_refl (x : spec_float) :
  SFnumber x = true -> SFcompare x x = Some Eq.
Proof.
  destruct x as [s|s| |s m e]; simpl; try discriminate; intros _.
  - reflexivity.
  - destruct s; reflexivity.
  - rewrite Z.compare_refl, Pos.compare_cont_refl. destruct s; reflexivity.
Qed.

Lemma is_number_spec (x : float) : is_number x = SFnumber (Prim2SF x).
Proof.
  unfold is_number. rewrite FloatAxioms.eqb_spec. unfold SFeqb.
  destruct (SFnumber (Prim2SF x)) eqn:E.
  - now rewrite SFcompare_refl.
  - destruct (Prim2SF x); try discriminate. reflexivity.
Qed.

Lemma SFltb_number (x y : spec_float) :
  SFltb x y = true -> SFnumber x = true /\ SFnumber y = true.
Proof.
  unfold SFltb. destruct x, y; simpl; try discriminate; auto.
Qed.

Lemma lt_number (x y : float) :
  PrimFloat.ltb x y = true -> is_number x = true /\ is_number y = true.
Proof.
  rewrite FloatAxioms.ltb_spec, !is_number_spec. apply SFltb_number.
Qed.

Ltac order_cases :=
  repeat match goal with
         | H : context [(?a ?= ?b)%Z] |- _ =>
             destruct (Z.compare_spec a b); simpl in H
         | |- context [(?a ?= ?b)%Z] =>
             destruct (Z.compare_spec a b); simpl
         | H : context [Pos.compare_cont Eq ?a ?b] |- _ =>
             change (Pos.compare_cont Eq a b) with (Pos.compare a b) in H;
             destruct (Pos.compare_spec a b); simpl in H
         | |- context [Pos.compare_cont Eq ?a ?b] =>
             change (Pos.compare_cont Eq a b) with (Pos.compare a b);
             destruct (Pos.compare_spec a b); simpl
         end.

Lemma SFltb_asym (x y : spec_float) : SFltb x y = true -> SFltb y x = false.
Proof.
  unfold SFltb.
  destruct x as [s1|s1| |s1 m1 e1], y as [s2|s2| |s2 m2 e2]; simpl;
    try destruct s1; try destruct s2; simpl; try discriminate; auto;
    intros H; order_cases; try discriminate; try reflexivity; lia.
Qed.

Lemma lt_asym (x y : float) :
  PrimFloat.ltb x y = true -> PrimFloat.ltb y x = false.
Proof. rewrite !FloatAxioms.ltb_spec. apply SFltb_asym. Qed.

(** On numbers, "not below" is transitive. *)
Lemma SFnot_lt_trans (x y z : spec_float) :
  SFnumber y = true ->
  SFltb x y = false -> SFltb y z = false -> SFltb x z = false.
Proof.
  unfold SFltb.
  destruct x as [s1|s1| |s1 m1 e1], y as [s2|s2| |s2 m2 e2],
           z as [s3|s3| |s3 m3 e3];
    simpl; try discriminate; intros _;
    try destruct s1; try destruct s2; try destruct s3; simpl;
    try discriminate; auto;
    intros H1 H2; order_cases; try discriminate; try reflexivity;
    try lia.
Qed.

Lemma not_lt_trans (x y z : float) :
  is_number y = true ->
  PrimFloat.ltb x y = false -> PrimFloat.ltb y z = false ->
  PrimFloat.ltb x z = false.
Proof.
  rewrite !FloatAxioms.ltb_spec, is_number_spec. apply SFnot_lt_trans.
Qed.

(** *** Rounding never yields a NaN *)

Definition SFfinite (x : spec_float) : bool :=
  match x with S754_finite _ _ _ => true | _ => false end.

Lemma shr_1_nonneg (mrs : shr_record) :
  (0 <= shr_m mrs)%Z -> (0 <= shr_m (shr_1 mrs))%Z.
Proof.
  destruct mrs as [m r s]. simpl.
  destruct m as [|p|p]; try destruct p; simpl; lia.
Qed.

Lemma iter_shr_1_nonneg (p : positive) :
  forall mrs, (0 <= shr_m mrs)%Z -> (0 <= shr_m (iter_pos shr_1 p mrs))%Z.
Proof.
  induction p as [p IH|p IH|]; intros mrs H; simpl.
  - apply IH, IH, shr_1_nonneg, H.
  - apply IH, IH, H.
  - apply shr_1_nonneg, H.
Qed.

Lemma shr_fexp_nonneg (m e : Z) (l : location) :
  (0 <= m)%Z -> (0 <= shr_m (fst (shr_fexp prec emax m e l)))%Z.
Proof.
  intros H. unfold shr_fexp, shr.
  assert (H0 : (0 <= shr_m (shr_record_of_loc m l))%Z).
  { destruct l as [|[]]; simpl; exact H. }
  destruct (fexp prec emax (Zdigits2 m + e) - e)%Z; simpl; auto.
  apply iter_shr_1_nonneg, H0.
Qed.

Lemma round_nearest_even_nonneg (m : Z) (l : location) :
  (0 <= m)%Z -> (0 <= round_nearest_even m l)%Z.
Proof.
  intros H. destruct l as [|[]]; simpl; try lia.
  destruct (Z.even m); lia.
Qed.

Lemma binary_round_aux_number (sx : bool) (mx ex : Z) (lx : location) :
  (0 <= mx)%Z -> SFnumber (binary_round_aux prec emax sx mx ex lx) = true.
Proof.
  intros H. unfold binary_round_aux.
  pose proof (shr_fexp_nonneg ex lx H) as H1.
  destruct (shr_fexp prec emax mx ex lx) as [mrs' e']. simpl in H1.
  pose proof (@shr_fexp_nonneg
                (round_nearest_even (shr_m mrs') (loc_of_shr_record mrs'))
                e' loc_Exact (round_nearest_even_nonneg _ H1)) as H2.
  destruct (shr_fexp prec emax
              (round_nearest_even (shr_m mrs') (loc_of_shr_record mrs')) e'
              loc_Exact) as [mrs'' e'']. simpl in H2.
  destruct (shr_m mrs'') as [|p|p]; try reflexivity.
  - destruct (e'' <=? emax - prec)%Z; reflexivity.
  - lia.
Qed.

Lemma binary_round_number (sx : bool) (m : positive) (e : Z) :
  SFnumber (binary_round prec emax sx m e) = true.
Proof.
  unfold binary_round. destruct (shl_align _ _ _) as [mz ez].
  apply binary_round_aux_number. lia.
Qed.

Lemma binary_normalize_number (m e : Z) (szero : bool) :
  SFnumber (binary_normalize prec emax m e szero) = true.
Proof.
  unfold binary_normalize.
  destruct m as [|p|p]; [reflexivity| |]; apply binary_round_number.
Qed.

(** A number times a finite non-zero constant is a number. *)
Lemma SFmul_number (x k : spec_float) :
  SFnumber x = true -> SFfinite k = true -> SFnumber (SF64mul x k) = true.
Proof.
  unfold SF64mul, SFmul.
  destruct x as [sx|sx| |sx mx ex], k as [sk|sk| |sk mk ek];
    simpl; try discriminate; auto.
  intros _ _. apply binary_round_aux_number. lia.
Qed.

Lemma mul_number (x k : float) :
  is_number x = true -> SFfinite (Prim2SF k) = true ->
  is_number (x * k) = true.
Proof.
  rewrite !is_number_spec, FloatAxioms.mul_spec. apply SFmul_number.
Qed.

(** A factor of a number is a number. *)
Lemma mul_number_inv (x k : float) :
  is_number (x * k) = true -> is_number x = true.
Proof.
  rewrite !is_number_spec, FloatAxioms.mul_spec. unfold SF64mul, SFmul.
  destruct (Prim2SF x); auto.
Qed.

(** The difference of two numbers is a number unless both are the same
    infinity. *)
Lemma SFsub_number (x y : spec_float) :
  SFnumber x = true -> SFnumber y = true ->
  SFltb y x = true ->
  SFnumber (SF64sub x y) = true.
Proof.
  unfold SF64sub, SFsub, SFltb.
  destruct x as [sx|sx| |sx mx ex], y as [sy|sy| |sy my ey];
    simpl; try discriminate; auto;
    try destruct sx; try destruct sy; simpl; try discriminate; auto;
    intros _ _ _;
    first [apply binary_normalize_number | apply binary_round_number].
Qed.

Definition SFpositive_finite (x : spec_float) : bool :=
  match x with S754_finite false _ _ => true | _ => false end.

(** [mx - mn] where [mx] exceeds a positive multiple of [mn]: the two are
    numbers and not the same infinity. *)
Lemma SFsub_number_guarded (x y k : spec_float) :
  SFpositive_finite k = true ->
  SFltb (SF64mul y k) x = true ->
  SFnumber (SF64sub x y) = true.
Proof.
  intros Hk Hlt.
  destruct (SFltb_number _ _ Hlt) as [Hyk Hx].
  destruct k as [sk|sk| |[] mk ek]; try discriminate Hk.
  destruct y as [sy|sy| |sy my ey].
  - destruct x as [sx|sx| |sx mx ex]; try discriminate Hx;
      unfold SF64sub, SFsub; try reflexivity;
      destruct sx, sy; reflexivity.
  - unfold SF64mul, SFmul in Hlt.
    destruct x as [sx|sx| |sx mx ex]; try discriminate Hx;
      destruct sy; try destruct sx; try discriminate Hlt; reflexivity.
  - discriminate Hyk.
  - destruct x as [sx|sx| |sx mx ex]; try discriminate Hx;
      unfold SF64sub, SFsub; try reflexivity.
    apply binary_normalize_number.
Qed.

Lemma sub_number_guarded (mx mn k : float) :
  SFpositive_finite (Prim2SF k) = true ->
  PrimFloat.ltb (mn * k) mx = true ->
  is_number (mx - mn) = true.
Proof.
  rewrite FloatAxioms.ltb_spec, FloatAxioms.mul_spec, is_number_spec,
    FloatAxioms.sub_spec.
  apply SFsub_number_guarded.
Qed.

End FloatOrder.

(** ** Grouping loops *)

Module Grouping.
Import PyDict.

Section Groups.
Variable A : Type.
Variable cond : A -> bool.
Variable key : A -> string.

(** One step of the grouping loops: [if cond: groups[key].append(r)]. *)
Definition group_step (groups : dict (list A)) (r : A) : dict (list A) :=
  if cond r then append groups (key r) r else groups.

(** The items the loop files under [k], in input order. *)
Definition members (k : string) (l : list A) : list A :=
  filter (fun r => cond r && String.eqb (key r) k) l.

Lemma group_get (l : list A) :
  forall (acc : dict (list A)) (k : string),
    get (fold_left group_step l acc) k
    = match members k l with
      | [] => get acc k
      | m => Some (get_default acc k [] ++ m)
      end.
Proof.
  induction l as [|r rest IH]; intros acc k; [reflexivity|].
  cbn [fold_left]. rewrite IH. unfold members. cbn [filter].
  unfold group_step. destruct (cond r) eqn:C; cbn [andb].
  - destruct (String.eqb (key r) k) eqn:E.
    + apply String.eqb_eq in E. subst k. unfold append.
      assert (G : get_default (set acc (key r) (get_default acc (key r) [] ++ [r]))
                    (key r) [] = get_default acc (key r) [] ++ [r])
        by (unfold get_default at 1; now rewrite get_set_same).
      rewrite G, get_set_same.
      destruct (filter _ rest); [reflexivity|].
      now rewrite <- app_assoc.
    + apply String.eqb_neq in E.
      assert (E' : k <> key r) by congruence.
      unfold append, get_default. rewrite (get_set_other _ _ E').
      reflexivity.
  - reflexivity.
Qed.

Lemma group_NoDup (l : list A) :
  forall acc : dict (list A),
    NoDup (keys acc) -> NoDup (keys (fold_left group_step l acc)).
Proof.
  induction l as [|r rest IH]; intros acc H; [exact H|].
  cbn [fold_left]. apply IH. unfold group_step.
  destruct (cond r); [apply NoDup_keys_set|]; exact H.
Qed.

(** Every group the loop leaves is the list of its members. *)
Lemma group_items (l : list A) (k : string) (g : list A) :
  In (k, g) (items (fold_left group_step l empty)) ->
  g = members k l /\ g <> [].
Proof.
  intros Hin.
  assert (Hn : NoDup (keys (fold_left group_step l (@empty (list A)))))
    by (apply group_NoDup; constructor).
  pose proof (get_item _ _ _ Hn Hin) as Hg.
  rewrite group_get in Hg. simpl in Hg.
  destruct (members k l) eqn:M; [discriminate|].
  injection Hg as <-. split; [reflexivity | discriminate].
Qed.

End Groups.

End Grouping.

(** ** cost_analyzer.py *)

Module CostAnalyzerProps.
Import PyDict CostNormalizer CostAnalyzer Grouping FloatOrder.

(** [o] does not save less than [o']. *)
Definition not_below (o o' : Opportunity) : Prop :=
  PrimFloat.ltb (potential_savings o) (potential_savings o') = false.

Definition saves_a_number (o : Opportunity) : Prop :=
  is_number (potential_savings o) = true.

(** *** The savings found are numbers *)

Lemma above_is_number (c x : float) : Py.gt x c = true -> is_number x = true.
Proof. unfold Py.gt. intros H. exact (proj2 (lt_number H)). Qed.

Lemma idle_saves_numbers (records : list UnifiedCostRecord) :
  Forall saves_a_number (_find_idle_resources records).
Proof.
  unfold _find_idle_resources. apply Forall_flat_map, Forall_forall.
  intros [rid rs] _.
  destruct (negb (has_usage rs) && Py.gt (sum_costs rs) 10) eqn:C;
    [|constructor].
  apply andb_prop in C. destruct C as [_ G].
  constructor; [|constructor]. unfold saves_a_number. cbn [potential_savings].
  apply mul_number; [exact (above_is_number G) | reflexivity].
Qed.

Lemma over_provisioned_saves_numbers (records : list UnifiedCostRecord) :
  Forall saves_a_number (_find_over_provisioned records).
Proof.
  unfold _find_over_provisioned. apply Forall_flat_map, Forall_forall.
  intros r _.
  destruct (String.eqb (resource_type r) "vm" && Py.gt (cost_usd r) 50) eqn:C;
    [|constructor].
  apply andb_prop in C. destruct C as [_ G].
  destruct (PyStr.contains_any large_sizes _); [|constructor].
  constructor; [|constructor]. unfold saves_a_number. cbn [potential_savings].
  apply mul_number; [exact (above_is_number G) | reflexivity].
Qed.

Lemma unattached_saves_numbers (records : list UnifiedCostRecord) :
  Forall saves_a_number (_find_unattached_storage records).
Proof.
  unfold _find_unattached_storage. apply Forall_flat_map, Forall_forall.
  intros r _.
  destruct (String.eqb (resource_type r) "storage" && Py.gt (cost_usd r) 5) eqn:C;
    [|constructor].
  apply andb_prop in C. destruct C as [_ G].
  destruct (negb (is_attached r)); [|constructor].
  constructor; [|constructor]. exact (above_is_number G).
Qed.

Lemma reserved_saves_numbers (records : list UnifiedCostRecord) :
  Forall saves_a_number (_find_reserved_instance_opportunities records).
Proof.
  unfold _find_reserved_instance_opportunities.
  apply Forall_flat_map, Forall_forall. intros [k rs] _.
  destruct (Py.gt (sum_costs rs) 100 && Nat.ltb 20 (List.length rs)) eqn:C;
    [|constructor].
  apply andb_prop in C. destruct C as [G _].
  constructor; [|constructor]. unfold saves_a_number. cbn [potential_savings].
  apply mul_number; [exact (above_is_number G) | reflexivity].
Qed.

Lemma region_saves_numbers (records : list UnifiedCostRecord) :
  Forall saves_a_number (_find_region_optimizations records).
Proof.
  unfold _find_region_optimizations.
  apply Forall_flat_map, Forall_forall. intros [k regions] _.
  destruct (Nat.ltb (List.length regions) 2); [constructor|].
  destruct (max_by_cost _) as [mx|]; [|constructor].
  destruct (min_by_cost _) as [mn|]; [|constructor].
  destruct (Py.gt (snd mx) (snd mn * 1.2)) eqn:G; [|constructor].
  constructor; [|constructor]. unfold saves_a_number. cbn [potential_savings].
  apply mul_number; [|reflexivity].
  apply (@sub_number_guarded (snd mx) (snd mn) 1.2%float); [reflexivity|exact G].
Qed.

Lemma price_reduction_saves_numbers (records : list UnifiedCostRecord) :
  Forall saves_a_number (price_reduction_opportunities records).
Proof.
  unfold price_reduction_opportunities.
  apply Forall_flat_map, Forall_forall. intros [k rs] _.
  destruct (get price_reductions (PyStr.lower k)) as [[pct discount]|];
    [|constructor].
  destruct (Py.gt (sum_costs rs * (Py.of_Z pct / 100)) 50) eqn:G; [|constructor].
  destruct (PyStr.split_once ":" k) as [provider rest].
  constructor; [|constructor]. exact (above_is_number G).
Qed.

Lemma spot_saves_numbers (records : list UnifiedCostRecord) :
  Forall saves_a_number (spot_opportunities records).
Proof.
  unfold spot_opportunities. apply Forall_flat_map, Forall_forall.
  intros r _.
  destruct (String.eqb (resource_type r) "vm" && Py.gt (cost_usd r) 100);
    [|constructor].
  destruct (negb _ && negb _); [|constructor].
  destruct (Py.gt (cost_usd r * 0.7) 50) eqn:G; [|constructor].
  constructor; [|constructor]. exact (above_is_number G).
Qed.

(** Every heuristic reports savings that passed a [>] test or are a finite
    multiple of a cost that did: none is a NaN, whatever the costs. *)
Lemma found_savings_are_numbers (records : list UnifiedCostRecord) :
  Forall saves_a_number (collect_opportunities records).
Proof.
  unfold collect_opportunities, _find_price_change_opportunities.
  repeat (apply Forall_app; split);
    auto using idle_saves_numbers, over_provisioned_saves_numbers,
      unattached_saves_numbers, reserved_saves_numbers, region_saves_numbers,
      price_reduction_saves_numbers, spot_saves_numbers.
Qed.

(** *** The sort *)

Lemma insert_by_savings_perm (x : Opportunity) (l : list Opportunity) :
  Permutation (x :: l) (insert_by_savings x l).
Proof.
  induction l as [|y t IH]; simpl; [reflexivity|].
  destruct (PrimFloat.ltb (potential_savings y) (potential_savings x));
    [reflexivity|].
  rewrite perm_swap. now apply perm_skip.
Qed.

Lemma sort_from_perm (l acc : list Opportunity) :
  Permutation (l ++ acc)
    (fold_left (fun sorted x => insert_by_savings x sorted) l acc).
Proof.
  revert acc. induction l as [|x t IH]; intros acc; simpl; [reflexivity|].
  rewrite <- IH. rewrite <- insert_by_savings_perm.
  apply Permutation_middle.
Qed.

Lemma sort_by_savings_perm (l : list Opportunity) :
  Permutation l (sort_by_savings l).
Proof.
  unfold sort_by_savings. rewrite <- sort_from_perm. now rewrite app_nil_r.
Qed.

Lemma insert_by_savings_sorted (x : Opportunity) (l : list Opportunity) :
  saves_a_number x -> Forall saves_a_number l ->
  StronglySorted not_below l ->
  StronglySorted not_below (insert_by_savings x l).
Proof.
  intros Hx Hl Hs. induction Hs as [|y t Ht IH Hy]; simpl.
  - constructor; constructor.
  - inversion Hl as [|? ? Hyn Htn]; subst.
    destruct (PrimFloat.ltb (potential_savings y) (potential_savings x)) eqn:E.
    + constructor; [constructor; assumption|].
      assert (Hxy : not_below x y) by (apply lt_asym, E).
      constructor; [exact Hxy|].
      rewrite Forall_forall in Hy |- *. intros z Hz.
      exact (not_lt_trans Hyn Hxy (Hy z Hz)).
    + constructor; [apply IH, Htn|].
      apply (Permutation_Forall (insert_by_savings_perm x t)).
      constructor; [exact E | exact Hy].
Qed.

Lemma sort_from_sorted (l acc : list Opportunity) :
  Forall saves_a_number l -> Forall saves_a_number acc ->
  StronglySorted not_below acc ->
  StronglySorted not_below
    (fold_left (fun sorted x => insert_by_savings x sorted) l acc).
Proof.
  revert acc. induction l as [|x t IH]; intros acc Hl Ha Hs; simpl; [exact Hs|].
  inversion Hl as [|? ? Hx Ht]; subst.
  apply IH; [exact Ht| |now apply insert_by_savings_sorted].
  apply (Permutation_Forall (insert_by_savings_perm x acc)).
  now constructor.
Qed.

Lemma sort_by_savings_sorted (l : list Opportunity) :
  Forall saves_a_number l -> StronglySorted not_below (sort_by_savings l).
Proof.
  intros H. apply sort_from_sorted; [exact H | constructor | constructor].
Qed.


(** *** What [analyze_costs] returns *)

(** [analyze_costs] on a non-empty batch, with its summary spelled out. *)
Lemma analyze_costs_summary (records : list UnifiedCostRecord) :
  records <> [] ->
  exists a,
    analyze_costs records = inr a
    /\ opportunities a = top20 (sort_by_savings (collect_opportunities records))
    /\ summary a
       = Some {| by_provider :=
                   map (fun '(provider, rs) => (provider, sum_costs rs))
                     (items (group_by_provider records));
                 by_category := _summarize_by_category records;
                 total_resources := List.length records |}.
Proof.
  intros Hne. destruct records as [|r0 rest]; [congruence|].
  unfold analyze_costs.
  destruct (Py.gt (sum_costs (r0 :: rest)) 0) eqn:G.
  - unfold Py.div. unfold Py.gt in G.
    rewrite (FloatFacts.gt_zero_not_zero G). simpl.
    eexists. split; [reflexivity|]. split; reflexivity.
  - simpl. eexists. split; [reflexivity|]. split; reflexivity.
Qed.

Lemma analyze_costs_opportunities (records : list UnifiedCostRecord) :
  exists a,
    analyze_costs records = inr a
    /\ opportunities a = top20 (sort_by_savings (collect_opportunities records)).
Proof.
  destruct records as [|r0 rest].
  - eexists. split; reflexivity.
  - assert (Hne : r0 :: rest <> []) by discriminate.
    destruct (analyze_costs_summary Hne) as [a [Ha [Ho _]]].
    exists a. split; assumption.
Qed.

(** X1: The opportunities returned are the (at most 20) largest found, largest
    first: together with the ones cut off they are a rearrangement of all
    that the six heuristics found, in which no entry saves less than a
    later one. *)
Theorem returned_opportunities_are_the_largest
  (records : list UnifiedCostRecord) :
  exists a cut_off,
    analyze_costs records = inr a
    /\ Permutation (collect_opportunities records) (opportunities a ++ cut_off)
    /\ StronglySorted not_below (opportunities a ++ cut_off)
    /\ List.length (opportunities a)
       = Nat.min 20 (List.length (collect_opportunities records)).
Proof.
  destruct (analyze_costs_opportunities records) as [a [Ha Ho]].
  exists a, (skipn 20 (sort_by_savings (collect_opportunities records))).
  split; [exact Ha|]. rewrite Ho. unfold top20. rewrite firstn_skipn.
  split; [apply sort_by_savings_perm|].
  split; [apply sort_by_savings_sorted, found_savings_are_numbers|].
  rewrite length_firstn.
  now rewrite <- (Permutation_length
                    (sort_by_savings_perm (collect_opportunities records))).
Qed.


(** *** The summary *)

Definition in_category (c : string) (r : UnifiedCostRecord) : bool :=
  String.eqb (service_category r) c.

Definition of_provider (p : string) (r : UnifiedCostRecord) : bool :=
  String.eqb (cloud_provider r) p.

Lemma summarize_from (l : list UnifiedCostRecord) :
  forall (acc : dict float) (c : string),
    get (fold_left
           (fun by_category record =>
              set by_category (service_category record)
                (get_default by_category (service_category record) 0
                 + cost_usd record)%float)
           l acc) c
    = match filter (in_category c) l with
      | [] => get acc c
      | m => Some (fold_left PrimFloat.add (map cost_usd m) (get_default acc c 0%float))
      end.
Proof.
  induction l as [|r rest IH]; intros acc c; [reflexivity|].
  cbn [fold_left]. rewrite IH. cbn [filter]. unfold in_category at 2.
  destruct (String.eqb (service_category r) c) eqn:E.
  - apply String.eqb_eq in E. subst c.
    assert (G : get_default
                  (set acc (service_category r)
                     (get_default acc (service_category r) 0 + cost_usd r)%float)
                  (service_category r) 0%float
                = (get_default acc (service_category r) 0 + cost_usd r)%float)
      by (unfold get_default at 1; now rewrite get_set_same).
    rewrite G, get_set_same.
    destruct (filter _ rest); reflexivity.
  - apply String.eqb_neq in E.
    assert (E' : c <> service_category r) by congruence.
    unfold get_default. rewrite (get_set_other _ _ E'). reflexivity.
Qed.

(** X2: [_summarize_by_category] holds, for each category that occurs, the sum
    of the costs of its records added in input order, and no other key. *)
Theorem category_total_is_the_sum_of_its_records
  (records : list UnifiedCostRecord) (c : string) :
  get (_summarize_by_category records) c
  = match filter (in_category c) records with
    | [] => None
    | m => Some (sum_costs m)
    end.
Proof.
  unfold _summarize_by_category. rewrite summarize_from. reflexivity.
Qed.

Lemma get_map_values (V W : Type) (f : V -> W) (d : dict V) (k : string) :
  get (map (fun '(key, v) => (key, f v)) d) k = option_map f (get d k).
Proof.
  induction d as [|[k' v] t IH]; simpl; [reflexivity|].
  destruct (String.eqb k k'); [reflexivity | exact IH].
Qed.

Lemma keys_map_values (V W : Type) (f : V -> W) (d : dict V) :
  keys (map (fun '(key, v) => (key, f v)) d) = keys d.
Proof.
  unfold keys. rewrite map_map. apply map_ext. intros [k v]. reflexivity.
Qed.

Lemma members_all (A : Type) (key : A -> string) (k : string) (l : list A) :
  members (fun _ => true) key k l = filter (fun r => String.eqb (key r) k) l.
Proof. reflexivity. Qed.

(** X3: The summary of a non-empty batch counts every record and holds, for
    each provider that occurs, one entry: the sum of the costs of that
    provider's records added in input order. *)
Theorem summary_totals_each_provider
  (records : list UnifiedCostRecord) (Hne : records <> []) :
  exists a s,
    analyze_costs records = inr a
    /\ summary a = Some s
    /\ total_resources s = List.length records
    /\ NoDup (keys (by_provider s))
    /\ forall p,
         get (by_provider s) p
         = match filter (of_provider p) records with
           | [] => None
           | m => Some (sum_costs m)
           end.
Proof.
  destruct (analyze_costs_summary Hne) as [a [Ha [_ Hs]]].
  eexists a, _. split; [exact Ha|]. split; [exact Hs|].
  cbn [total_resources by_provider]. split; [reflexivity|].
  change (group_by_provider records)
    with (fold_left (group_step (fun _ => true) cloud_provider) records empty).
  split.
  - rewrite keys_map_values. apply group_NoDup. constructor.
  - intros p. rewrite get_map_values. unfold items. rewrite group_get.
    rewrite members_all. fold (of_provider p).
    destruct (filter (of_provider p) records); reflexivity.
Qed.

Definition two_providers : list UnifiedCostRecord :=
  [ {| resource_id := "i-1"; cloud_provider := "aws";
       service_category := "compute"; resource_type := "vm";
       cost_usd := 120; usage_metrics := [("instance_type", "m5.xlarge")];
       region := "us"; tags := []; date := "2024-01-01" |};
    {| resource_id := "disk-1"; cloud_provider := "gcp";
       service_category := "storage"; resource_type := "storage";
       cost_usd := 7.5; usage_metrics := []; region := "us-central1";
       tags := []; date := "2024-01-01" |} ].

Lemma two_providers_nonempty : two_providers <> [].
Proof. discriminate. Qed.

Lemma summary_totals_each_provider_witness :
  exists a s,
    analyze_costs two_providers = inr a
    /\ summary a = Some s
    /\ total_resources s = List.length two_providers
    /\ NoDup (keys (by_provider s))
    /\ forall p,
         get (by_provider s) p
         = match filter (of_provider p) two_providers with
           | [] => None
           | m => Some (sum_costs m)
           end.
Proof.
  exact (summary_totals_each_provider two_providers_nonempty).
Defined.


(** *** The heuristics *)

(** A loop over a dictionary that reports at most one opportunity per key,
    named after the key, reports no name twice. *)
Lemma one_report_per_key (V : Type) (f : string * V -> list Opportunity)
  (d : dict V) :
  (forall kv, In kv d ->
     map opp_resource_id (f kv) = [] \/ map opp_resource_id (f kv) = [fst kv]) ->
  NoDup (keys d) ->
  NoDup (map opp_resource_id (flat_map f d))
  /\ forall x, In x (map opp_resource_id (flat_map f d)) -> In x (keys d).
Proof.
  induction d as [|[k v] t IH]; intros Hf Hn.
  - split; [constructor | intros x []].
  - inversion Hn as [|? ? Hk Ht]; subst.
    destruct IH as [IH1 IH2]; [intros kv Hin; apply Hf; now right | exact Ht |].
    cbn [flat_map]. rewrite map_app.
    destruct (Hf (k, v) (or_introl eq_refl)) as [E | E]; rewrite E; cbn [app fst].
    + split; [exact IH1|]. intros x Hx. right. now apply IH2.
    + split.
      * constructor; [|exact IH1]. intros Hin. apply Hk. now apply IH2.
      * intros x [<- | Hx]; [now left | right; now apply IH2].
Qed.

Definition has_resource_id (rid : string) (r : UnifiedCostRecord) : bool :=
  String.eqb (resource_id r) rid.

Lemma members_of_resource (rid : string) (l : list UnifiedCostRecord) :
  nonempty rid = true ->
  members (fun r => nonempty (resource_id r)) resource_id rid l
  = filter (has_resource_id rid) l.
Proof.
  intros Hne. unfold members. apply filter_ext. intros r.
  unfold has_resource_id.
  destruct (String.eqb (resource_id r) rid) eqn:E.
  - apply String.eqb_eq in E. rewrite E, Hne. reflexivity.
  - apply andb_false_r.
Qed.

Lemma members_nonempty_key (A : Type) (cond : A -> bool) (key : A -> string)
  (k : string) (l : list A) :
  members cond key k l <> [] ->
  exists r, In r l /\ cond r = true /\ key r = k.
Proof.
  unfold members. destruct (filter _ l) as [|r m] eqn:F; [congruence|].
  intros _. assert (Hin : In r (filter (fun r => cond r && String.eqb (key r) k) l))
    by (rewrite F; now left).
  apply filter_In in Hin. destruct Hin as [Hin Hc].
  apply andb_prop in Hc. destruct Hc as [Hc Hk].
  exists r. repeat split; [exact Hin | exact Hc | now apply String.eqb_eq].
Qed.

(** X4: [_find_idle_resources] reports a resource at most once, never the
    records without a resource id, and only a resource whose records
    together cost more than 10: the cost it reports is the sum over all
    records of that resource id, the savings 90% of it. *)
Theorem idle_resources_are_reported_once_with_their_total
  (records : list UnifiedCostRecord) :
  NoDup (map opp_resource_id (_find_idle_resources records))
  /\ Forall
       (fun o =>
          nonempty (opp_resource_id o) = true
          /\ current_cost o
             = sum_costs (filter (has_resource_id (opp_resource_id o)) records)
          /\ Py.gt (current_cost o) 10 = true
          /\ potential_savings o = (current_cost o * 0.9)%float)
       (_find_idle_resources records).
Proof.
  unfold _find_idle_resources.
  change (group_by_resource records)
    with (fold_left
            (group_step (fun r => nonempty (resource_id r)) resource_id)
            records empty).
  split.
  - apply one_report_per_key.
    + intros [rid rs] _. cbn [fst].
      destruct (negb (has_usage rs) && Py.gt (sum_costs rs) 10);
        [right | left]; reflexivity.
    + apply group_NoDup. constructor.
  - apply Forall_flat_map, Forall_forall. intros [rid rs] Hin.
    destruct (negb (has_usage rs) && Py.gt (sum_costs rs) 10) eqn:C;
      [|constructor].
    apply andb_prop in C. destruct C as [_ G].
    constructor; [|constructor].
    cbn [opp_resource_id current_cost potential_savings].
    destruct (group_items _ _ _ _ _ Hin) as [Hrs Hne].
    assert (Hk : nonempty rid = true).
    { rewrite Hrs in Hne.
      destruct (members_nonempty_key _ _ _ _ Hne) as [r [_ [Hc <-]]].
      exact Hc. }
    repeat split; [exact Hk | | exact G].
    now rewrite <- (@members_of_resource rid records Hk), <- Hrs.
Qed.

(** *** Over-provisioned instances *)

Lemma prefix_contains (needle hay : string) :
  String.prefix needle hay = true -> PyStr.contains needle hay = true.
Proof. intros H. destruct hay; cbn [PyStr.contains]; rewrite H; reflexivity. Qed.

Lemma contains_cons (needle : string) (h : ascii) (t : string) :
  PyStr.contains needle t = true -> PyStr.contains needle (String h t) = true.
Proof.
  intros H. cbn [PyStr.contains]. rewrite H.
  destruct (String.prefix needle (String h t)); reflexivity.
Qed.

(** A text that contains a word contains the word without its first
    letter. *)
Lemma contains_tail (c : ascii) (needle hay : string) :
  PyStr.contains (String c needle) hay = true ->
  PyStr.contains needle hay = true.
Proof.
  induction hay as [|h t IH].
  - discriminate.
  - cbn [PyStr.contains].
    destruct (String.prefix (String c needle) (String h t)) eqn:P.
    + intros _. apply contains_cons, prefix_contains.
      cbn [String.prefix] in P. destruct (Ascii.ascii_dec c h); [exact P|discriminate].
    + intros H. apply contains_cons, IH, H.
Qed.


Lemma large_sizes_is_xlarge (s : string) :
  PyStr.contains_any large_sizes s = PyStr.contains "xlarge" s.
Proof.
  unfold PyStr.contains_any, large_sizes. cbn [existsb].
  destruct (PyStr.contains "xlarge" s) eqn:X; [reflexivity|].
  destruct (PyStr.contains "2xlarge" s) eqn:A;
    [apply contains_tail in A; congruence|].
  destruct (PyStr.contains "4xlarge" s) eqn:B;
    [apply contains_tail in B; congruence|].
  destruct (PyStr.contains "8xlarge" s) eqn:C;
    [apply contains_tail in C; congruence|].
  reflexivity.
Qed.

(** What [_find_over_provisioned] tests: a vm costing more than 50 whose
    instance type mentions xlarge, in any case. *)
Definition downsizing_candidate (r : UnifiedCostRecord) : bool :=
  String.eqb (resource_type r) "vm"
  && Py.gt (cost_usd r) 50
  && PyStr.contains "xlarge" (PyStr.lower (instance_type_of r)).

(** X5: [_find_over_provisioned] reports, in input order and once each,
    exactly the vm records costing more than 50 whose instance type
    mentions xlarge (the sizes 2xlarge, 4xlarge and 8xlarge of its list add
    nothing), each with 30% of its cost as savings. *)
Theorem over_provisioned_are_the_costly_xlarge_vms
  (records : list UnifiedCostRecord) :
  map (fun o => (opp_resource_id o, opp_cloud_provider o, current_cost o,
                 potential_savings o, priority o))
    (_find_over_provisioned records)
  = map (fun r => (resource_id r, cloud_provider r, cost_usd r,
                   (cost_usd r * 0.3)%float, "medium"))
      (filter downsizing_candidate records).
Proof.
  unfold _find_over_provisioned.
  induction records as [|r rest IH]; [reflexivity|].
  cbn [flat_map filter]. rewrite map_app, IH. unfold downsizing_candidate at 2.
  rewrite large_sizes_is_xlarge.
  destruct (String.eqb (resource_type r) "vm" && Py.gt (cost_usd r) 50);
    [|reflexivity].
  cbn [andb].
  destruct (PyStr.contains "xlarge" (PyStr.lower (instance_type_of r)));
    reflexivity.
Qed.

(** *** Unattached storage *)

(** X6: [_find_unattached_storage] reports only storage records costing more
    than 5 that carry no tag and whose resource id does not contain
    "attached" in any case -- hence none whose id says "unattached" --
    and counts the whole cost as savings. *)
Theorem unattached_storage_is_untagged_and_not_named_attached
  (records : list UnifiedCostRecord) :
  Forall
    (fun o =>
       exists r,
         In r records
         /\ opp_resource_id o = resource_id r
         /\ resource_type r = "storage"
         /\ tags r = []
         /\ Py.gt (cost_usd r) 5 = true
         /\ potential_savings o = cost_usd r
         /\ PyStr.contains "attached" (PyStr.lower (resource_id r)) = false
         /\ PyStr.contains "unattached" (PyStr.lower (resource_id r)) = false)
    (_find_unattached_storage records).
Proof.
  unfold _find_unattached_storage. apply Forall_flat_map, Forall_forall.
  intros r Hin.
  destruct (String.eqb (resource_type r) "storage" && Py.gt (cost_usd r) 5) eqn:C;
    [|constructor].
  apply andb_prop in C. destruct C as [T G]. apply String.eqb_eq in T.
  destruct (negb (is_attached r)) eqn:A; [|constructor].
  apply negb_true_iff in A. unfold is_attached in A.
  destruct (tags r) eqn:Tg; [|discriminate].
  constructor; [|constructor]. exists r.
  repeat split; try assumption.
  destruct (PyStr.contains "unattached" (PyStr.lower (resource_id r))) eqn:U;
    [|reflexivity].
  do 2 apply contains_tail in U. congruence.
Qed.

(** *** Reserved instances *)

Lemma flat_map_nil (A B : Type) (f : A -> list B) (l : list A) :
  (forall x, In x l -> f x = []) -> flat_map f l = [].
Proof.
  induction l as [|x t IH]; intros H; [reflexivity|].
  cbn [flat_map]. rewrite (H x (or_introl eq_refl)), IH; [reflexivity|].
  intros y Hy. apply H. now right.
Qed.

Lemma members_length (A : Type) (cond : A -> bool) (key : A -> string)
  (k : string) (l : list A) :
  List.length (members cond key k l) <= List.length (filter cond l).
Proof.
  unfold members. induction l as [|r t IH]; [reflexivity|].
  cbn [filter]. destruct (cond r); cbn [andb]; [|exact IH].
  destruct (String.eqb (key r) k); cbn [List.length]; lia.
Qed.

Definition is_vm (r : UnifiedCostRecord) : bool :=
  String.eqb (resource_type r) "vm".

(** X7: [_find_reserved_instance_opportunities] stays silent on a batch with
    at most 20 vm records, whatever they cost. *)
Theorem reserved_instances_need_more_than_20_vm_records
  (records : list UnifiedCostRecord) :
  List.length (filter is_vm records) <= 20 ->
  _find_reserved_instance_opportunities records = [].
Proof.
  intros Hlen. unfold _find_reserved_instance_opportunities.
  apply flat_map_nil. intros [k rs] Hin.
  change (group_by_instance records)
    with (fold_left
            (group_step is_vm
               (fun record =>
                  (cloud_provider record ++ ":" ++ instance_type_of record
                     ++ ":" ++ region record)%string))
            records empty) in Hin.
  destruct (group_items _ _ _ _ _ Hin) as [Hrs _].
  assert (Hle : List.length rs <= 20).
  { rewrite Hrs. etransitivity; [apply members_length | exact Hlen]. }
  assert (Hlt : Nat.ltb 20 (List.length rs) = false) by (apply Nat.ltb_ge; exact Hle).
  rewrite Hlt, andb_false_r. reflexivity.
Qed.

Definition twenty_instances : list UnifiedCostRecord :=
  repeat
    {| resource_id := "i-1"; cloud_provider := "aws";
       service_category := "compute"; resource_type := "vm";
       cost_usd := 900; usage_metrics := [("instance_type", "m5.large")];
       region := "us"; tags := []; date := "2024-01-01" |}
    20.

Lemma reserved_instances_need_more_than_20_vm_records_witness :
  _find_reserved_instance_opportunities twenty_instances = [].
Proof.
  apply (@reserved_instances_need_more_than_20_vm_records twenty_instances).
  vm_compute. lia.
Defined.

(** *** Regions *)

(** The regions filed under one service key all are [g], each once. *)
Definition only_region (g : string) (regions : dict (list UnifiedCostRecord))
  : Prop :=
  NoDup (keys regions) /\ forall k, In k (keys regions) -> k = g.

Lemma set_values (V : Type) (P : V -> Prop) (d : dict V) (k : string) (v : V) :
  Forall (fun kv => P (snd kv)) d -> P v ->
  Forall (fun kv => P (snd kv)) (set d k v).
Proof.
  intros Hd Hv. induction d as [|[k' v'] t IH]; simpl.
  - constructor; [exact Hv | constructor].
  - inversion Hd as [|? ? Hkv Ht]; subst.
    destruct (String.eqb k k'); constructor; auto.
Qed.

Lemma get_default_values (V : Type) (P : V -> Prop) (d : dict V) (k : string)
  (v : V) :
  Forall (fun kv => P (snd kv)) d -> P v -> P (get_default d k v).
Proof.
  intros Hd Hv. unfold get_default. induction d as [|[k' v'] t IH]; simpl.
  - exact Hv.
  - inversion Hd as [|? ? Hkv Ht]; subst.
    destruct (String.eqb k k'); auto.
Qed.

Lemma append_only_region (g : string) (regions : dict (list UnifiedCostRecord))
  (r : UnifiedCostRecord) :
  only_region g regions -> only_region g (append regions g r).
Proof.
  intros [Hn Hk]. unfold append. split.
  - now apply NoDup_keys_set.
  - intros k. rewrite keys_set. destruct (mem regions g); [apply Hk|].
    rewrite in_app_iff. intros [H | [<- | []]]; [now apply Hk | reflexivity].
Qed.

Lemma group_by_service_one_region (g : string) (records : list UnifiedCostRecord) :
  (forall r, In r records -> region r = g) ->
  Forall (fun kv => only_region g (snd kv)) (group_by_service records).
Proof.
  intros Hg. unfold group_by_service.
  assert (H0 : Forall (fun kv => only_region g (snd kv))
                 (@empty (dict (list UnifiedCostRecord)))) by constructor.
  revert H0. generalize (@empty (dict (list UnifiedCostRecord))) as acc.
  induction records as [|r rest IH]; intros acc Hacc; [exact Hacc|].
  cbn [fold_left]. apply IH; [intros r' Hr'; apply Hg; now right|].
  apply set_values; [exact Hacc|].
  rewrite (Hg r (or_introl eq_refl)). apply append_only_region.
  apply get_default_values; [exact Hacc|].
  split; [constructor | intros k []].
Qed.

Lemma only_region_length (g : string) (regions : dict (list UnifiedCostRecord)) :
  only_region g regions -> List.length regions <= 1.
Proof.
  intros [Hn Hk]. destruct regions as [|[a va] [|[b vb] t]]; simpl; try lia.
  exfalso. simpl in Hn, Hk.
  assert (a = g) by (apply Hk; now left).
  assert (b = g) by (apply Hk; right; now left).
  subst. inversion Hn as [|? ? Hnot _]; subst. apply Hnot. now left.
Qed.

(** X8: When every record lies in one region, [_find_region_optimizations]
    reports nothing. *)
Theorem region_optimizations_need_two_regions
  (records : list UnifiedCostRecord) (g : string) :
  (forall r, In r records -> region r = g) ->
  _find_region_optimizations records = [].
Proof.
  intros Hg. unfold _find_region_optimizations.
  apply flat_map_nil. intros [k regions] Hin.
  pose proof (group_by_service_one_region records Hg) as Hall.
  rewrite Forall_forall in Hall. specialize (Hall _ Hin). cbn [snd] in Hall.
  apply only_region_length in Hall.
  assert (Hlt : Nat.ltb (List.length regions) 2 = true) by (apply Nat.ltb_lt; lia).
  rewrite Hlt. reflexivity.
Qed.

Definition two_zones_one_region : list UnifiedCostRecord :=
  [ {| resource_id := "i-1"; cloud_provider := "aws";
       service_category := "compute"; resource_type := "vm";
       cost_usd := 900; usage_metrics := [("instance_type", "m5.large")];
       region := "us"; tags := []; date := "2024-01-01" |};
    {| resource_id := "i-2"; cloud_provider := "aws";
       service_category := "compute"; resource_type := "vm";
       cost_usd := 10; usage_metrics := [("instance_type", "m5.large")];
       region := "us"; tags := []; date := "2024-01-01" |} ].

Lemma two_zones_in_us (r : UnifiedCostRecord) :
  In r two_zones_one_region -> region r = "us".
Proof. intros [<- | [<- | []]]; reflexivity. Qed.

Lemma region_optimizations_need_two_regions_witness :
  _find_region_optimizations two_zones_one_region = [].
Proof.
  exact (@region_optimizations_need_two_regions two_zones_one_region "us"
           two_zones_in_us).
Defined.

End CostAnalyzerProps.

(** ** cost_normalizer.py *)

Module CostNormalizerProps.
Import PyDict CostNormalizer CostRecordDict.

Ltac binds :=
  repeat match goal with
         | H : Py.bind ?m _ = Py.Ok _ |- _ =>
             let E := fresh "E" in
             destruct m eqn:E; simpl in H; try discriminate H
         end.


(** A line of a GCP billing export and the record [normalize_gcp] makes of
    it. *)
Definition gcp_vm_line : Row :=
  [ ("resource.name", VStr "vm-7");
    ("cost", VStr "42.5");
    ("service.description", VStr "Compute Engine");
    ("sku.description", VStr "N1 Predefined Instance Core");
    ("location.region", VStr "us-central1");
    ("project.id", VStr "demo") ].

Definition gcp_vm_record : UnifiedCostRecord :=
  {| resource_id := "vm-7"; cloud_provider := "gcp";
     service_category := "compute"; resource_type := "vm";
     cost_usd := 42.5;
     usage_metrics := [ ("sku", "N1 Predefined Instance Core");
                        ("project", "demo") ];
     region := "us-central1"; tags := [ ("project", "demo") ]; date := "" |}.

(** A line of an AWS report for a bucket in zone eu-west-1b, and one whose
    amount does not parse. *)
Definition s3_line : Row :=
  [ ("lineItem/ResourceId", VStr "bucket-1");
    ("lineItem/UnblendedCost", VFloat 3.5);
    ("lineItem/ProductCode", VStr "AmazonS3");
    ("lineItem/UsageType", VStr "TimedStorage-ByteHrs");
    ("lineItem/AvailabilityZone", VStr "eu-west-1b") ].

Definition s3_record : UnifiedCostRecord :=
  {| resource_id := "bucket-1"; cloud_provider := "aws";
     service_category := "storage"; resource_type := "storage";
     cost_usd := 3.5;
     usage_metrics := [ ("usage_type", "TimedStorage-ByteHrs");
                        ("operation", "");
                        ("instance_type", "") ];
     region := "eu"; tags := []; date := "" |}.

Definition line_with_bad_amount : Row :=
  [ ("lineItem/ResourceId", VStr "i-9");
    ("lineItem/UnblendedCost", VStr "n/a");
    ("lineItem/ProductCode", VStr "AmazonEC2") ].

Definition service_categories : list string :=
  ["compute"; "storage"; "database"; "network"; "other"].

Definition resource_types : list string :=
  ["vm"; "storage"; "database"; "function"; "other"].

Lemma categorize_range (v : PyValue) (c : string) :
  _categorize_service v = Py.Ok c -> In c service_categories.
Proof.
  unfold _categorize_service. intros H. binds. injection H as <-.
  unfold service_categories.
  repeat match goal with
         | |- In (if ?b then _ else _) _ => destruct b
         end; simpl; tauto.
Qed.

Lemma determine_range (v u : PyValue) (t : string) :
  _determine_resource_type v u = Py.Ok t -> In t resource_types.
Proof.
  unfold _determine_resource_type. intros H. binds. injection H as <-.
  unfold resource_types.
  repeat match goal with
         | |- In (if ?b then _ else _) _ => destruct b
         end; simpl; tauto.
Qed.

(** X9: The three provider normalizers file every record under one of five
    service categories and one of five resource types, and stamp it with
    the provider. *)
Theorem provider_records_are_categorized
  (provider : string) (row : Row) (r : UnifiedCostRecord) :
  In provider ["aws"; "gcp"; "azure"] ->
  normalize_record provider row = Py.Ok r ->
  cloud_provider r = provider
  /\ In (service_category r) service_categories
  /\ In (resource_type r) resource_types.
Proof.
  unfold normalize_record.
  intros [<- | [<- | [<- | []]]]; simpl String.eqb; cbv iota;
    unfold normalize_aws, normalize_gcp, normalize_azure;
    intros H; binds; injection H as <-; cbn [cloud_provider service_category resource_type];
    (split; [reflexivity|]); split.
  all: eauto using categorize_range, determine_range.
Qed.

Lemma provider_records_are_categorized_witness :
  cloud_provider gcp_vm_record = "gcp"
  /\ In (service_category gcp_vm_record) service_categories
  /\ In (resource_type gcp_vm_record) resource_types.
Proof.
  apply (@provider_records_are_categorized "gcp" gcp_vm_line).
  - simpl. tauto.
  - vm_compute. reflexivity.
Defined.

(** *** Batches *)

Lemma normalize_record_provider (provider : string) (row : Row)
  (r : UnifiedCostRecord) :
  normalize_record provider row = Py.Ok r -> cloud_provider r = provider.
Proof.
  unfold normalize_record.
  destruct (String.eqb provider "aws") eqn:A;
    [|destruct (String.eqb provider "gcp") eqn:G;
      [|destruct (String.eqb provider "azure") eqn:Z]];
    unfold normalize_aws, normalize_gcp, normalize_azure, normalize_csv;
    intros H; binds; injection H as <-; cbn [cloud_provider];
    try reflexivity; symmetry; now apply String.eqb_eq.
Qed.

(** X10: [normalize_batch] never raises.  It returns at most one record per
    row, in row order, each stamped with the provider it was called with
    (the rows whose normalizer raised are missing); it leaves the typed
    model only where a row's normalizer does. *)
Theorem normalize_batch_skips_and_stamps (records : list Row) (provider : string) :
  match normalize_batch records provider with
  | Py.Ok rs =>
      List.length rs <= List.length records
      /\ Forall (fun r => cloud_provider r = provider) rs
  | Py.Raises _ => False
  | Py.Unmodelled =>
      exists row, In row records /\ normalize_record provider row = Py.Unmodelled
  end.
Proof.
  induction records as [|row rest IH]; cbn [normalize_batch].
  - split; [reflexivity | constructor].
  - destruct (normalize_record provider row) as [r|e|] eqn:E.
    + destruct (normalize_batch rest provider) as [rs|e|]; cbn [Py.bind].
      * destruct IH as [Hlen Hall]. split; [simpl; lia|].
        constructor; [exact (normalize_record_provider _ _ E) | exact Hall].
      * exact IH.
      * destruct IH as [row' [Hin Hrow]]. exists row'. split; [now right | exact Hrow].
    + destruct (normalize_batch rest provider) as [rs|e'|].
      * destruct IH as [Hlen Hall]. split; [simpl; lia | exact Hall].
      * exact IH.
      * destruct IH as [row' [Hin Hrow]]. exists row'. split; [now right | exact Hrow].
    + exists row. split; [now left | exact E].
Qed.

(** X11: Normalizing two batches one after the other gives the records of the
    first followed by those of the second. *)
Theorem normalize_batch_of_concatenation
  (first second : list Row) (provider : string)
  (rs1 rs2 : list UnifiedCostRecord) :
  normalize_batch first provider = Py.Ok rs1 ->
  normalize_batch second provider = Py.Ok rs2 ->
  normalize_batch (first ++ second) provider = Py.Ok (rs1 ++ rs2).
Proof.
  revert rs1. induction first as [|row rest IH]; intros rs1 H1 H2.
  - injection H1 as <-. exact H2.
  - cbn [normalize_batch app] in *.
    destruct (normalize_record provider row) as [r|e|]; [| |discriminate].
    + destruct (normalize_batch rest provider) as [rs|e|] eqn:R;
        cbn [Py.bind] in H1; try discriminate.
      injection H1 as <-. rewrite (IH rs eq_refl H2). reflexivity.
    + now apply IH.
Qed.

Lemma normalize_batch_of_concatenation_witness :
  normalize_batch
    ([s3_line] ++ [line_with_bad_amount]) "aws"
  = Py.Ok ([s3_record] ++ []).
Proof.
  apply (@normalize_batch_of_concatenation
           [s3_line] [line_with_bad_amount] "aws" [s3_record] []);
    vm_compute; reflexivity.
Defined.

(** *** The AWS region *)

Lemma first_segment_has_no_separator (sep : ascii) (s : string) :
  PyStr.contains (String sep "") (hd "" (PyStr.split sep s)) = false.
Proof.
  induction s as [|c t IH]; [reflexivity|].
  cbn [PyStr.split]. destruct (Ascii.eqb c sep) eqn:E; [reflexivity|].
  destruct (PyStr.split sep t) as [|h r]; cbn [hd] in *.
  - cbn. destruct (Ascii.ascii_dec sep c) as [->|]; [|reflexivity].
    rewrite Ascii.eqb_refl in E. discriminate.
  - cbn [PyStr.contains String.prefix].
    destruct (Ascii.ascii_dec sep c) as [->|].
    + rewrite Ascii.eqb_refl in E. discriminate.
    + exact IH.
Qed.

(** X12: The region [normalize_aws] stores never contains a hyphen: it is the
    availability zone cut at its first hyphen, so no record carries a full
    AWS region name such as us-east-1. *)
Theorem aws_region_has_no_hyphen (row : Row) (r : UnifiedCostRecord) :
  normalize_aws row = Py.Ok r ->
  PyStr.contains "-" (region r) = false.
Proof.
  unfold normalize_aws. intros H. binds. injection H as <-. cbn [region].
  match goal with
  | E : region_from_az _ = Py.Ok _ |- _ => unfold region_from_az in E;
      destruct (truthy _) in E;
      [ destruct (cell row "lineItem/AvailabilityZone"); try discriminate E;
        injection E as <-; apply first_segment_has_no_separator
      | injection E as <-; reflexivity ]
  end.
Qed.

Lemma aws_region_has_no_hyphen_witness :
  PyStr.contains "-" (region s3_record) = false.
Proof.
  apply (@aws_region_has_no_hyphen s3_line).
  vm_compute. reflexivity.
Defined.

(** *** Export and re-import *)

(** What [normalize_csv] makes of an exported record: the record, under
    the provider it is given. *)
Definition under_provider (provider : string) (r : UnifiedCostRecord)
  : UnifiedCostRecord :=
  {| resource_id := resource_id r;
     cloud_provider := provider;
     service_category := service_category r;
     resource_type := resource_type r;
     cost_usd := cost_usd r;
     usage_metrics := usage_metrics r;
     region := region r;
     tags := tags r;
     date := date r |}.

(** X13: Records exported with [to_dict] and normalized again as a batch under
    a provider name other than aws, gcp and azure come back unchanged but
    for that name: none is dropped, none raises, the order is kept. *)
Theorem exported_records_read_back
  (records : list UnifiedCostRecord) (provider : string) :
  String.eqb provider "aws" = false ->
  String.eqb provider "gcp" = false ->
  String.eqb provider "azure" = false ->
  normalize_batch (map to_dict records) provider
  = Py.Ok (map (under_provider provider) records).
Proof.
  intros Ha Hg Hz. induction records as [|r rest IH]; [reflexivity|].
  cbn [map normalize_batch]. unfold normalize_record. rewrite Ha, Hg, Hz.
  change (normalize_csv (to_dict r) provider) with (Py.Ok (under_provider provider r)).
  rewrite IH. reflexivity.
Qed.

Lemma exported_records_read_back_witness :
  normalize_batch (map to_dict [gcp_vm_record; s3_record]) "archive"
  = Py.Ok (map (under_provider "archive") [gcp_vm_record; s3_record]).
Proof.
  apply (@exported_records_read_back [gcp_vm_record; s3_record] "archive");
    reflexivity.
Defined.

End CostNormalizerProps.

(** ** data_sources.py *)

Module DataSourcesProps.
Import PyDict DataSources RestResponse.

Section SourcesProps.

Variable Filter : Type.
Variable filter_str : Filter -> string.

(** X14: A REST source whose endpoint mentions delete, drop, remove or admin, in
    any case, answers no query: every query raises the validation error
    and no request is sent. *)
Theorem dangerous_endpoint_is_never_requested
  (endpoint : string) (http : Backend Filter) (q : QueryParams Filter) :
  PyStr.contains_any dangerous_patterns (PyStr.lower endpoint) = true ->
  query filter_str (RESTAPIDataSource endpoint http) q
  = (inl (Py.ValueError "Query validation failed"), []).
Proof.
  intros H. unfold query. cbn [validate_query]. rewrite H. reflexivity.
Qed.

(** X15: The file sources (CSV, AWS, GCP, Azure) check nothing but the upper
    bound of the limit: a query without limit, or with any limit up to
    10000 -- zero and negative ones included -- goes to the frame, once,
    whatever its filter. *)
Theorem file_sources_check_only_the_upper_limit
  (df : Backend Filter) (q : QueryParams Filter) :
  (forall n, limit q = Some n -> (n <= 10000)%Z) ->
  query filter_str (CSVDataSource df) q = (df q, [FrameRead])
  /\ query filter_str (AWSDataSource df) q = (df q, [FrameRead])
  /\ query filter_str (GCPDataSource df) q = (df q, [FrameRead])
  /\ query filter_str (AzureDataSource df) q = (df q, [FrameRead]).
Proof.
  intros H.
  assert (Hl : limit_too_large q = false).
  { unfold limit_too_large. destruct (limit q) as [n|]; [|reflexivity].
    apply Z.ltb_ge. now apply H. }
  unfold query. cbn [validate_query]. rewrite Hl. cbn.
  repeat split.
Qed.

End SourcesProps.


(** *** Instances: filters given by their text *)

Definition answers_nothing : Backend string := fun _ => inr [].

Definition with_limit (n : option Z) : QueryParams string :=
  {| filter := Some "{'region': 'us'}"; limit := n; date_from := None;
     date_to := None; date_column := None; sort := None |}.

Lemma dangerous_endpoint_is_never_requested_witness :
  query (fun t => t) (RESTAPIDataSource "v1/Admin/costs" answers_nothing)
    (with_limit (Some 10%Z))
  = (inl (Py.ValueError "Query validation failed"), []).
Proof.
  apply (@dangerous_endpoint_is_never_requested string (fun t => t)
           "v1/Admin/costs" answers_nothing (with_limit (Some 10%Z))).
  vm_compute. reflexivity.
Defined.

Lemma file_sources_check_only_the_upper_limit_witness :
  query (fun t => t) (CSVDataSource answers_nothing) (with_limit (Some (-5)%Z))
  = (answers_nothing (with_limit (Some (-5)%Z)), [FrameRead]).
Proof.
  apply (@file_sources_check_only_the_upper_limit string (fun t => t)
           answers_nothing (with_limit (Some (-5)%Z))).
  intros n H. injection H as <-. lia.
Defined.

(** *** The HTTP response *)

Lemma slice_to_length (A : Type) (l : list A) (limit : Z) :
  (0 <= limit)%Z -> List.length (slice_to l limit) <= Z.to_nat limit.
Proof.
  intros H. unfold slice_to.
  assert (Hb : (0 <=? limit)%Z = true) by now apply Z.leb_le.
  rewrite Hb. rewrite length_firstn. lia.
Qed.

(** X16: With a limit of at least 0 the REST source returns at most [limit]
    rows of a list response, or of the first list inside an object; an
    object that holds no list is returned as the single row whatever the
    limit, even 0; any other document gives no row. *)
Theorem rest_rows_are_limited_except_a_single_object
  (data : Json) (limit : Z) :
  (0 <= limit)%Z ->
  List.length (rest_results data limit) <= Nat.max 1 (Z.to_nat limit)
  /\ (forall fields,
        data = JObject fields -> first_list fields = None ->
        rest_results data limit = [data])
  /\ (forall elements,
        data = JList elements ->
        rest_results data limit = firstn (Z.to_nat limit) elements)
  /\ (forall fields elements,
        data = JObject fields -> first_list fields = Some elements ->
        rest_results data limit = firstn (Z.to_nat limit) elements).
Proof.
  intros H.
  assert (Hb : (0 <=? limit)%Z = true) by now apply Z.leb_le.
  split; [|split; [|split]].
  - assert (Hs : forall elements : list Json,
               List.length (slice_to elements limit) <= Nat.max 1 (Z.to_nat limit)).
    { intros elements. etransitivity; [now apply slice_to_length|].
      apply Nat.le_max_r. }
    assert (H1 : 1 <= Nat.max 1 (Z.to_nat limit)) by apply Nat.le_max_l.
    assert (H0 : 0 <= Nat.max 1 (Z.to_nat limit)) by apply Nat.le_0_l.
    destruct data as [| | | | |elements|fields]; cbn [rest_results];
      try exact H0; [apply Hs|].
    destruct (first_list fields) as [elements|]; [apply Hs | exact H1].
  - intros fields -> Hn. cbn [rest_results]. now rewrite Hn.
  - intros elements ->. cbn [rest_results]. unfold slice_to. now rewrite Hb.
  - intros fields elements -> Hf. cbn [rest_results]. rewrite Hf.
    unfold slice_to. now rewrite Hb.
Qed.

Definition status_document : Json :=
  JObject [ ("status", JString "ok"); ("count", JInt 0) ].

Lemma rest_rows_are_limited_except_a_single_object_witness :
  List.length (rest_results status_document 0) <= Nat.max 1 (Z.to_nat 0)
  /\ rest_results status_document 0 = [status_document].
Proof.
  destruct (@rest_rows_are_limited_except_a_single_object status_document 0%Z)
    as [H1 [H2 _]]; [lia|].
  split; [exact H1|]. exact (H2 _ eq_refl eq_refl).
Defined.

End DataSourcesProps.

(** ** pricing_scraper.py *)

Module PricingScraperProps.
Import PyDict PricingScraper PricingScraperSpec.

(** *** What is reported *)

(** What [detect_price_changes] may report against [history] for the
    prices [current_prices]: a provider and instance type of the current
    prices, whose price in the history is not zero and lies more than 5%
    (as the code computes it) above the current one. *)
Definition reported_from (history : History) (current_prices : dict (dict float))
  (c : PriceChange) : Prop :=
  exists prices known,
    In (provider c, prices) (items current_prices)
    /\ In (instance_type c, new_price_per_hour c) (items prices)
    /\ get history (provider c ++ "_prices")%string = Some (Prices known)
    /\ get known (instance_type c) = Some (old_price_per_hour c)
    /\ Py.truthy (old_price_per_hour c) = true
    /\ change_reduction_pct c
       = ((old_price_per_hour c - new_price_per_hour c)
          / old_price_per_hour c * 100)%float
    /\ Py.gt (change_reduction_pct c) 5 = true
    /\ savings_per_hour c = (old_price_per_hour c - new_price_per_hour c)%float
    /\ savings_per_month c = (savings_per_hour c * 730)%float.

Lemma detect_instances_reports (history : History)
  (current_prices : dict (dict float)) (name : string) (prices : dict float)
  (l : list (string * float)) :
  In (name, prices) (items current_prices) ->
  (forall kv, In kv l -> In kv (items prices)) ->
  forall acc acc',
    detect_instances name (get history (name ++ "_prices")%string) l acc = inr acc' ->
    Forall (reported_from history current_prices) (fst acc) ->
    Forall (reported_from history current_prices) (fst acc').
Proof.
  intros Hp. induction l as [|[itype price] rest IH]; intros Hl acc acc' H Hacc.
  - injection H as <-. exact Hacc.
  - assert (Hrest : forall kv, In kv rest -> In kv (items prices))
      by (intros kv Hkv; apply Hl; now right).
    cbn [detect_instances] in H.
    destruct (historical_price_of (get history (name ++ "_prices")%string) itype)
      as [e|[h|]] eqn:Hh; cbn [Py.bind_result] in H; try discriminate H.
    + destruct (Py.truthy h) eqn:T; [|exact (IH Hrest _ _ H Hacc)].
      unfold Py.div in H. unfold Py.truthy in T. apply negb_true_iff in T.
      rewrite T in H. cbn [Py.bind_result] in H.
      destruct (Py.gt ((h - price) / h * 100) 5) eqn:G;
        [|exact (IH Hrest _ _ H Hacc)].
      cbn [utcnow] in H. apply (IH Hrest _ _ H). cbn [fst].
      apply Forall_app. split; [exact Hacc|]. constructor; [|constructor].
      unfold historical_price_of in Hh.
      destruct (get history (name ++ "_prices")%string) as [[known|t|r]|] eqn:Hk;
        try discriminate Hh.
      * injection Hh as Hh. exists prices, known. cbn.
        repeat split; try assumption; try reflexivity.
        -- apply Hl. now left.
        -- unfold Py.truthy. now rewrite T.
      * destruct (get r itype); discriminate Hh.
    + exact (IH Hrest _ _ H Hacc).
Qed.

Lemma detect_providers_reports (history : History)
  (current_prices : dict (dict float)) (l : list (string * dict float)) :
  (forall kv, In kv l -> In kv (items current_prices)) ->
  forall acc acc',
    detect_providers history l acc = inr acc' ->
    Forall (reported_from history current_prices) (fst acc) ->
    Forall (reported_from history current_prices) (fst acc').
Proof.
  induction l as [|[name prices] rest IH]; intros Hl acc acc' H Hacc.
  - injection H as <-. exact Hacc.
  - cbn [detect_providers] in H.
    destruct (detect_instances name (get history (name ++ "_prices")%string)
                (items prices) acc) as [e|acc1] eqn:E;
      cbn [Py.bind_result] in H; [discriminate|].
    apply (IH (fun kv Hkv => Hl kv (or_intror Hkv)) _ _ H).
    apply (@detect_instances_reports history current_prices name prices
             (items prices) (Hl _ (or_introl eq_refl)) (fun kv Hkv => Hkv)
             _ _ E Hacc).
Qed.

(** X17: Every change [detect_price_changes] returns is a reduction of more
    than 5% of a non-zero price the history held, for a provider and
    instance type of the current prices; its savings per month are 730
    times its savings per hour. *)
Theorem reported_changes_are_reductions_above_5_percent
  (s s' : Scraper) (current_prices : dict (dict float))
  (changes : list PriceChange) :
  detect_price_changes s current_prices = inr (changes, s') ->
  Forall (reported_from (historical_prices s) current_prices) changes.
Proof.
  unfold detect_price_changes. intros H.
  destruct (detect_providers (historical_prices s) (items current_prices) ([], s))
    as [e|found] eqn:E; cbn [Py.bind_result] in H; [discriminate|].
  injection H as <- _.
  apply (@detect_providers_reports (historical_prices s) current_prices
           (items current_prices) (fun kv Hkv => Hkv) _ _ E).
  constructor.
Qed.


Definition price_at_half : dict (dict float) :=
  [ ("aws", [ ("m5.xlarge", 0.096%float) ]) ].

Lemma reported_changes_are_reductions_above_5_percent_witness :
  Forall (reported_from (historical_prices after_first_detection) price_at_half)
    (match detect_price_changes after_first_detection price_at_half with
     | inr (changes, _) => changes
     | inl _ => []
     end).
Proof.
  apply (@reported_changes_are_reductions_above_5_percent
           after_first_detection
           (match detect_price_changes after_first_detection price_at_half with
            | inr (_, s') => s'
            | inl _ => after_first_detection
            end)
           price_at_half).
  vm_compute. reflexivity.
Defined.

(** *** The first run *)

Lemma detect_instances_unknown (name : string) (l : list (string * float)) :
  forall acc, detect_instances name None l acc = inr acc.
Proof.
  induction l as [|[itype price] rest IH]; intros acc; [reflexivity|].
  cbn [detect_instances historical_price_of Py.bind_result]. apply IH.
Qed.

Lemma detect_providers_unknown (history : History)
  (l : list (string * dict float)) :
  (forall p prices, In (p, prices) l ->
     get history (p ++ "_prices")%string = None) ->
  forall acc, detect_providers history l acc = inr acc.
Proof.
  induction l as [|[p prices] rest IH]; intros H acc; [reflexivity|].
  cbn [detect_providers]. rewrite (H p prices (or_introl eq_refl)).
  rewrite detect_instances_unknown. cbn [Py.bind_result].
  apply IH. intros q qp Hin. apply (H q qp). now right.
Qed.

Lemma detect_on_unknown_history
  (s : Scraper) (current_prices : dict (dict float)) :
  (forall p prices, In (p, prices) (items current_prices) ->
     get (historical_prices s) (p ++ "_prices")%string = None) ->
  exists s', detect_price_changes s current_prices = inr ([], s').
Proof.
  intros H. unfold detect_price_changes.
  rewrite (detect_providers_unknown _ _ H). cbn [Py.bind_result fst snd].
  eexists. reflexivity.
Qed.

(** X18: Where the history knows none of the providers scraped -- the first
    run, on an empty history -- [detect_price_changes] reports nothing,
    whatever the prices. *)
Theorem first_detection_reports_nothing
  (s : Scraper) (current_prices : dict (dict float)) :
  (forall p prices, In (p, prices) (items current_prices) ->
     get (historical_prices s) (p ++ "_prices")%string = None) ->
  exists s', detect_price_changes s current_prices = inr ([], s').
Proof.
  intros H. unfold detect_price_changes.
  rewrite (detect_providers_unknown _ _ H). cbn [Py.bind_result fst snd].
  eexists. reflexivity.
Qed.

Lemma first_detection_reports_nothing_witness :
  exists s', detect_price_changes (fresh_scraper new_year) one_price = inr ([], s').
Proof.
  apply (@first_detection_reports_nothing (fresh_scraper new_year) one_price).
  intros p prices [H | []]. injection H as <- <-. reflexivity.
Defined.

(** X19: [detect_price_changes] does not raise on a history that holds, under
    the price key of each provider scraped, a mapping of prices or
    nothing; where the key of the first provider with a price holds a time
    stamp instead, it raises [AttributeError] (and stores nothing). *)
Theorem detection_raises_only_on_a_malformed_history (s : Scraper) :
  (forall current_prices,
     (forall p prices, In (p, prices) (items current_prices) ->
        price_entry (get (historical_prices s) (p ++ "_prices")%string) = true) ->
     exists changes s', detect_price_changes s current_prices = inr (changes, s'))
  /\ (forall p itype price more rest t,
        get (historical_prices s) (p ++ "_prices")%string = Some (LastUpdated t) ->
        detect_price_changes s ((p, (itype, price) :: more) :: rest)
        = inl Py.AttributeError).
Proof.
  split.
  - intros current_prices H. unfold detect_price_changes.
    destruct (@detect_providers_returns (historical_prices s)
                (items current_prices) H ([], s)) as [found E].
    rewrite E. cbn [Py.bind_result]. do 2 eexists. reflexivity.
  - intros p itype price more rest t H. unfold detect_price_changes.
    cbn [items detect_providers detect_instances]. rewrite H.
    reflexivity.
Qed.

Lemma detection_raises_only_on_a_malformed_history_witness :
  (exists changes s',
     detect_price_changes after_first_detection price_at_half = inr (changes, s'))
  /\ detect_price_changes
       (with_history after_first_detection
          [ ("aws_prices", LastUpdated "2024-01-01T00:00:00") ])
       price_at_half
     = inl Py.AttributeError.
Proof.
  split.
  - apply (proj1 (detection_raises_only_on_a_malformed_history
                    after_first_detection) price_at_half).
    intros p prices [H | []]. injection H as <- <-. reflexivity.
  - exact (proj2 (detection_raises_only_on_a_malformed_history
                    (with_history after_first_detection
                       [ ("aws_prices", LastUpdated "2024-01-01T00:00:00") ]))
             "aws" "m5.xlarge" 0.096%float [] [] "2024-01-01T00:00:00" eq_refl).
Defined.


(** *** Without a history file *)

(** X20: [check_for_changes] first reloads the history from the file: with no
    file there, it reports nothing, whatever history the scraper held in
    memory. *)
Theorem check_without_history_file_reports_nothing (s : Scraper) :
  stored (disk s) = None ->
  exists s', check_for_changes s = inr ([], s').
Proof.
  intros H. unfold check_for_changes, _load_price_history. rewrite H.
  apply detect_on_unknown_history. reflexivity.
Qed.

Lemma check_without_history_file_reports_nothing_witness :
  exists s',
    check_for_changes
      (with_history (new_scraper {| stored := None; writable := false |} new_year)
         [ ("aws_prices", Prices [ ("m5.xlarge", 0.5%float) ]) ])
    = inr ([], s').
Proof.
  apply (@check_without_history_file_reports_nothing
           (with_history (new_scraper {| stored := None; writable := false |} new_year)
              [ ("aws_prices", Prices [ ("m5.xlarge", 0.5%float) ]) ])).
  reflexivity.
Defined.


(** *** Scraping *)

Lemma scrape_table_from (table : dict float) (estimate : float)
  (types : list string) :
  forall (acc : dict float) (t : string),
    get (fold_left
           (fun prices instance_type =>
              set prices instance_type (get_default table instance_type estimate))
           types acc) t
    = if existsb (String.eqb t) types
      then Some (get_default table t estimate)
      else get acc t.
Proof.
  induction types as [|x rest IH]; intros acc t; [reflexivity|].
  cbn [fold_left existsb]. rewrite IH.
  destruct (existsb (String.eqb t) rest); [now rewrite orb_true_r|].
  rewrite orb_false_r. destruct (String.eqb t x) eqn:E.
  - apply String.eqb_eq in E. subst x. apply get_set_same.
  - apply String.eqb_neq in E. now apply get_set_other.
Qed.

(** X21: The GCP and Azure scrapers price exactly the instance types asked
    for: a type of the provider's table at the table price, any other
    type at the provider's default estimate (0.15 and 0.12) instead of
    failing. *)
Theorem scrapers_price_exactly_the_requested_types
  (types : list string) (t : string) :
  get (scrape_gcp_pricing (Some types)) t
  = (if existsb (String.eqb t) types
     then Some (get_default gcp_prices t 0.15%float) else None)
  /\ get (scrape_azure_pricing (Some types)) t
     = (if existsb (String.eqb t) types
        then Some (get_default azure_prices t 0.12%float) else None).
Proof.
  unfold scrape_gcp_pricing, scrape_azure_pricing, scrape_table.
  now rewrite !scrape_table_from.
Qed.

Lemma scrape_aws_loop_from (r : dict Reduction) (types : list string) :
  forall acc : dict float,
    exists prices,
      scrape_aws_loop (Some (Reductions r)) types acc = inr prices
      /\ forall t,
           get prices t
           = if existsb (String.eqb t) types
             then Some (match get r ("aws:" ++ t)%string with
                        | Some reduction => new_price reduction
                        | None => get_default aws_ec2_prices t 0.10%float
                        end)
             else get acc t.
Proof.
  induction types as [|x rest IH]; intros acc.
  - exists acc. split; reflexivity.
  - cbn [scrape_aws_loop simulated_new_price Py.bind_result].
    destruct (IH (set acc x
                    match option_map new_price (get r ("aws:" ++ x)%string) with
                    | Some reduced => reduced
                    | None => get_default aws_ec2_prices x 0.10%float
                    end)) as [prices [Hp Hg]].
    exists prices. split; [exact Hp|]. intros t. rewrite Hg. cbn [existsb].
    destruct (existsb (String.eqb t) rest); [now rewrite orb_true_r|].
    rewrite orb_false_r. destruct (String.eqb t x) eqn:E.
    + apply String.eqb_eq in E. subst x. rewrite get_set_same.
      destruct (get r ("aws:" ++ t)%string); reflexivity.
    + apply String.eqb_neq in E. now apply get_set_other.
Qed.

(** X22: While the history holds simulated reductions, the AWS scraper returns
    for each requested type the simulated new price if there is one under
    [aws:<type>], else the table price, else the estimate 0.10; it does
    not raise. *)
Theorem aws_scrape_prefers_the_simulated_price
  (s : Scraper) (r : dict Reduction) (types : list string) :
  get (historical_prices s) "simulated_reductions" = Some (Reductions r) ->
  exists prices,
    scrape_aws_pricing s (Some types) = inr prices
    /\ forall t,
         get prices t
         = if existsb (String.eqb t) types
           then Some (match get r ("aws:" ++ t)%string with
                      | Some reduction => new_price reduction
                      | None => get_default aws_ec2_prices t 0.10%float
                      end)
           else None.
Proof.
  intros H. unfold scrape_aws_pricing. rewrite H.
  exact (scrape_aws_loop_from r types empty).
Qed.

(** The scraper after a simulated 15% reduction of m5.xlarge. *)
Definition after_simulation : Scraper :=
  match simulate_price_reduction (fresh_scraper new_year) "aws" "m5.xlarge" 15 with
  | Py.Ok (_, s) => s
  | _ => fresh_scraper new_year
  end.

Lemma aws_scrape_prefers_the_simulated_price_witness :
  exists prices,
    scrape_aws_pricing after_simulation (Some ["m5.xlarge"; "m5.large"; "z1d.large"])
    = inr prices
    /\ forall t,
         get prices t
         = if existsb (String.eqb t) ["m5.xlarge"; "m5.large"; "z1d.large"]
           then Some (match get [ ("aws:m5.xlarge",
                                   {| old_price := 0.192;
                                      new_price := 0.192 * (1 - 15 / 100);
                                      reduction_pct := 15 |}) ]
                              ("aws:" ++ t)%string with
                      | Some reduction => new_price reduction
                      | None => get_default aws_ec2_prices t 0.10%float
                      end)
           else None.
Proof.
  apply (@aws_scrape_prefers_the_simulated_price after_simulation).
  vm_compute. reflexivity.
Defined.

(** *** Simulated reductions *)

Lemma prices_key_is_not_the_reductions_key (p : string) :
  (p ++ "_prices")%string <> "simulated_reductions".
Proof.
  intros H.
  repeat (destruct p as [|? p]; [discriminate H | injection H as _ H]).
  destruct p; discriminate H.
Qed.

(** X23: Simulating again for the same instance type starts from the same old
    price: the reductions do not compound, and the second one replaces
    the first. *)
Theorem repeated_simulation_does_not_compound
  (s s1 : Scraper) (p itype : string) (pct1 pct2 : float) (r1 : Reduction) :
  simulate_price_reduction s p itype pct1 = Py.Ok (r1, s1) ->
  exists r2 s2,
    simulate_price_reduction s1 p itype pct2 = Py.Ok (r2, s2)
    /\ old_price r2 = old_price r1
    /\ new_price r2 = (old_price r1 * (1 - pct2 / 100))%float.
Proof.
  unfold simulate_price_reduction at 1. intros H.
  set (key := (p ++ "_prices")%string) in *.
  set (h0 := if mem (historical_prices s) key then historical_prices s
             else set (historical_prices s) key (Prices empty)) in *.
  destruct (get h0 key) as [[known|t|r]|]; try discriminate H;
    [|destruct (get r itype); discriminate H].
  set (cur := match get known itype with
              | Some price => price
              | None => default_price p itype
              end) in *.
  set (h1 := set h0 key (Prices (set known itype cur))) in *.
  set (h2 := if mem h1 "simulated_reductions" then h1
             else set h1 "simulated_reductions" (Reductions empty)) in *.
  destruct (get h2 "simulated_reductions") as [[?|?|r]|] eqn:G2;
    try discriminate H.
  injection H as <- <-.
  match goal with
  | |- context [simulate_price_reduction ?st p itype pct2] => set (s1 := st)
  end.
  set (h3 := set h2 "simulated_reductions"
               (Reductions
                  (set r (p ++ ":" ++ itype)%string
                     {| old_price := cur;
                        new_price := cur * (1 - pct1 / 100);
                        reduction_pct := pct1 |}))).
  assert (Hh : historical_prices s1 = h3)
    by (unfold s1; rewrite saved_history; reflexivity).
  assert (Hne : key <> "simulated_reductions")
    by apply prices_key_is_not_the_reductions_key.
  assert (G1 : get h1 key = Some (Prices (set known itype cur)))
    by apply get_set_same.
  assert (G2k : get h2 key = Some (Prices (set known itype cur))).
  { unfold h2. destruct (mem h1 "simulated_reductions"); [exact G1|].
    now rewrite (get_set_other _ _ Hne). }
  assert (G3k : get h3 key = Some (Prices (set known itype cur))).
  { unfold h3. now rewrite (get_set_other _ _ Hne). }
  assert (G3r : exists r', get h3 "simulated_reductions" = Some (Reductions r')).
  { eexists. unfold h3. apply get_set_same. }
  destruct G3r as [r' G3r].
  assert (Hmem : mem h3 key = true) by (unfold mem; now rewrite G3k).
  assert (Hne' : "simulated_reductions" <> key) by congruence.
  assert (A1 : forall v, get (set h3 key v) "simulated_reductions"
                         = Some (Reductions r'))
    by (intros v; now rewrite (get_set_other _ _ Hne')).
  assert (A2 : forall v, mem (set h3 key v) "simulated_reductions" = true)
    by (intros v; unfold mem; now rewrite A1).
  unfold simulate_price_reduction. rewrite Hh. fold key.
  rewrite Hmem, G3k, get_set_same, A2, A1.
  do 2 eexists. split; [reflexivity|]. split; reflexivity.
Qed.

Lemma repeated_simulation_does_not_compound_witness :
  exists r2 s2,
    simulate_price_reduction after_simulation "aws" "m5.xlarge" 50 = Py.Ok (r2, s2)
    /\ old_price r2 = 0.192%float
    /\ new_price r2 = (0.192 * (1 - 50 / 100))%float.
Proof.
  apply (@repeated_simulation_does_not_compound
           (fresh_scraper new_year) after_simulation "aws" "m5.xlarge" 15 50
           {| old_price := 0.192; new_price := 0.192 * (1 - 15 / 100);
              reduction_pct := 15 |}).
  vm_compute. reflexivity.
Defined.


Lemma detect_instances_other_type (name itype : string) (h : float)
  (l : list (string * float)) :
  (forall kv, In kv l -> String.eqb (fst kv) itype = false) ->
  forall acc,
    detect_instances name (Some (Prices [(itype, h)])) l acc = inr acc.
Proof.
  induction l as [|[t price] rest IH]; intros H acc; [reflexivity|].
  cbn [detect_instances historical_price_of get Py.bind_result].
  pose proof (H (t, price) (or_introl eq_refl)) as Ht. cbn [fst] in Ht.
  rewrite Ht. cbn [get Py.bind_result].
  apply IH. intros kv Hkv. apply H. now right.
Qed.

(** X24: Only the AWS scraper looks at the simulated reductions: a reduction
    simulated for a GCP instance type, whatever the type and the
    percentage, is stored but the next detection pass reports nothing. *)
Theorem simulated_gcp_reduction_is_never_detected
  (clock : nat -> string) (itype : string) (pct : float) :
  exists reduction s1 s2,
    simulate_price_reduction (fresh_scraper clock) "gcp" itype pct
    = Py.Ok (reduction, s1)
    /\ old_price reduction = 0.19%float
    /\ new_price reduction = (0.19 * (1 - pct / 100))%float
    /\ check_for_changes s1 = inr ([], s2).
Proof.
  destruct (String.eqb "n1-standard-4" itype) eqn:E1;
    [apply String.eqb_eq in E1; subst itype; do 3 eexists;
     split; [vm_compute; reflexivity|]; repeat split; vm_compute; reflexivity|].
  destruct (String.eqb "n1-standard-8" itype) eqn:E2;
    [apply String.eqb_eq in E2; subst itype; do 3 eexists;
     split; [vm_compute; reflexivity|]; repeat split; vm_compute; reflexivity|].
  destruct (String.eqb "n1-highmem-4" itype) eqn:E3;
    [apply String.eqb_eq in E3; subst itype; do 3 eexists;
     split; [vm_compute; reflexivity|]; repeat split; vm_compute; reflexivity|].
  do 3 eexists. split; [vm_compute; reflexivity|].
  split; [reflexivity|]. split; [reflexivity|].
  unfold check_for_changes, detect_price_changes.
  match goal with
  | |- context [detect_providers ?h ?c ?a] =>
      assert (Hd : detect_providers h c a = inr a)
  end.
  { match goal with
    | |- detect_providers ?h ?c ?a = _ =>
        let c' := eval vm_compute in c in
        let h' := eval vm_compute in h in
        change (detect_providers h' c' a = inr a)
    end.
    cbn [detect_providers items].
    repeat match goal with
           | |- context [get ?h ?k] =>
               let v := eval vm_compute in (get h k) in change (get h k) with v
           end.
    rewrite detect_instances_unknown. cbn [Py.bind_result].
    rewrite detect_instances_other_type.
    - cbn [Py.bind_result]. rewrite detect_instances_unknown. reflexivity.
    - intros kv [<- | [<- | [<- | []]]]; assumption. }
  rewrite Hd. cbn [Py.bind_result fst snd]. reflexivity.
Qed.

End PricingScraperProps.

(** ** price_monitor.py *)

Module PriceMonitorProps.
Import PyDict CostNormalizer PricingScraper PricingScraperSpec.
Import PriceChangeDetector PriceMonitor.

(** *** The two renderings of the detection loops agree *)

Definition outcome_of (r : option Py.exn * (list PriceChange * Scraper))
  : Py.result (list PriceChange * Scraper) :=
  match r with
  | (Some e, _) => inl e
  | (None, acc) => inr acc
  end.

Lemma detect_instances_st_agrees (name : string) (entry : option Entry)
  (l : list (string * float)) :
  forall acc,
    detect_instances name entry l acc
    = outcome_of (detect_instances_st name entry l acc).
Proof.
  induction l as [|[itype price] rest IH]; intros acc; [reflexivity|].
  cbn [detect_instances detect_instances_st].
  destruct (historical_price_of entry itype) as [e|[h|]];
    cbn [Py.bind_result]; try reflexivity; [|apply IH].
  destruct (Py.truthy h); [|apply IH].
  destruct (Py.div (h - price) h) as [e|ratio]; cbn [Py.bind_result];
    [reflexivity|].
  destruct (Py.gt (ratio * 100) 5); [|apply IH].
  cbn [utcnow]. apply IH.
Qed.

Lemma detect_providers_st_agrees (history : History)
  (l : list (string * dict float)) :
  forall acc,
    detect_providers history l acc
    = outcome_of (detect_providers_st history l acc).
Proof.
  induction l as [|[name prices] rest IH]; intros acc; [reflexivity|].
  cbn [detect_providers detect_providers_st].
  rewrite detect_instances_st_agrees.
  destruct (detect_instances_st name (get history (name ++ "_prices")%string)
              (items prices) acc) as [[e|] acc']; cbn [outcome_of Py.bind_result];
    [reflexivity | apply IH].
Qed.

(** [check_for_changes_st] returns or raises as [check_for_changes] does,
    with the same changes and the same scraper on return. *)
Lemma check_for_changes_st_agrees (s : Scraper) :
  check_for_changes s
  = match check_for_changes_st s with
    | (inr changes, s') => inr (changes, s')
    | (inl e, _) => inl e
    end.
Proof.
  unfold check_for_changes, check_for_changes_st, detect_price_changes,
    detect_price_changes_st.
  rewrite detect_providers_st_agrees.
  destruct (detect_providers_st _ _ _) as [[e|] found];
    cbn [outcome_of Py.bind_result]; reflexivity.
Qed.

Lemma check_for_changes_st_returns (s s' : Scraper) (changes : list PriceChange) :
  check_for_changes s = inr (changes, s') ->
  check_for_changes_st s = (inr changes, s').
Proof.
  rewrite check_for_changes_st_agrees.
  destruct (check_for_changes_st s) as [[e|c] s1]; intros H;
    [discriminate | now injection H as -> ->].
Qed.

Lemma check_for_changes_st_raises (s : Scraper) (e : Py.exn) :
  check_for_changes s = inl e ->
  exists s1, check_for_changes_st s = (inl e, s1).
Proof.
  rewrite check_for_changes_st_agrees.
  destruct (check_for_changes_st s) as [[e'|c] s1]; intros H;
    [injection H as ->; now exists s1 | discriminate].
Qed.

Lemma flat_map_at_most_one (A B : Type) (f : A -> list B) (l : list A) :
  (forall x, List.length (f x) <= 1) ->
  List.length (flat_map f l) <= List.length l.
Proof.
  intros H. induction l as [|x t IH]; [reflexivity|].
  cbn [flat_map List.length]. rewrite length_app. specialize (H x). lia.
Qed.

(** *** Matching *)

(** An upper-case letter [A]..[Z]. *)
Definition is_upper (c : ascii) : bool :=
  Nat.leb 65 (nat_of_ascii c) && Nat.leb (nat_of_ascii c) 90.

(** The same character, or the upper-case and the lower-case form of one
    letter. *)
Definition same_letter (a b : ascii) : bool :=
  Ascii.eqb a b
  || (is_upper a && Nat.eqb (nat_of_ascii b) (nat_of_ascii a + 32))
  || (is_upper b && Nat.eqb (nat_of_ascii a) (nat_of_ascii b + 32)).

(** Two texts of the same length that agree letter by letter, whatever
    the case. *)
Fixpoint same_ignoring_case (a b : string) : bool :=
  match a, b with
  | EmptyString, EmptyString => true
  | String x a', String y b' => same_letter x y && same_ignoring_case a' b'
  | _, _ => false
  end.

(** A resource a price change applies to: it runs at the provider of the
    change, whatever the case the two names are written in, and its
    [instance_type] metric is the changed type. *)
Definition in_use (change : PriceChange) (r : UnifiedCostRecord) : bool :=
  same_ignoring_case (cloud_provider r) (provider change)
  && match get (usage_metrics r) "instance_type" with
     | Some t => String.eqb t (instance_type change)
     | None => false
     end.

Lemma ascii_eqb_nat (a b : ascii) :
  Ascii.eqb a b = Nat.eqb (nat_of_ascii a) (nat_of_ascii b).
Proof.
  destruct (Ascii.eqb_spec a b) as [->|N].
  - now rewrite Nat.eqb_refl.
  - symmetry. apply Nat.eqb_neq. intros E. apply N.
    rewrite <- (ascii_nat_embedding a), <- (ascii_nat_embedding b). now rewrite E.
Qed.

Lemma lower_char_nat (c : ascii) :
  nat_of_ascii (PyStr.lower_char c)
  = if is_upper c then nat_of_ascii c + 32 else nat_of_ascii c.
Proof.
  unfold PyStr.lower_char, is_upper.
  destruct (Nat.leb 65 (nat_of_ascii c) && Nat.leb (nat_of_ascii c) 90) eqn:U;
    [|reflexivity].
  apply andb_true_iff in U. destruct U as [_ U]. apply Nat.leb_le in U.
  apply nat_ascii_embedding. lia.
Qed.

Lemma lower_char_same_letter (a b : ascii) :
  Ascii.eqb (PyStr.lower_char a) (PyStr.lower_char b) = same_letter a b.
Proof.
  unfold same_letter. rewrite !ascii_eqb_nat, !lower_char_nat. unfold is_upper.
  destruct (Nat.leb_spec 65 (nat_of_ascii a)), (Nat.leb_spec (nat_of_ascii a) 90),
    (Nat.leb_spec 65 (nat_of_ascii b)), (Nat.leb_spec (nat_of_ascii b) 90);
    cbn [andb orb];
    repeat match goal with
      | |- context [Nat.eqb ?x ?y] => destruct (Nat.eqb_spec x y)
      end; cbn [orb]; try reflexivity; lia.
Qed.

(** Comparing the lower-cased texts is comparing letter by letter without
    case. *)
Lemma lower_same_ignoring_case (a b : string) :
  String.eqb (PyStr.lower a) (PyStr.lower b) = same_ignoring_case a b.
Proof.
  revert b. induction a as [|x a IH]; intros [|y b]; try reflexivity.
  cbn [PyStr.lower String.eqb same_ignoring_case].
  rewrite <- lower_char_same_letter, <- IH.
  destruct (Ascii.eqb (PyStr.lower_char x) (PyStr.lower_char y)); reflexivity.
Qed.

Lemma uses_in_use (change : PriceChange) (resources : list UnifiedCostRecord) :
  filter (uses change) resources = filter (in_use change) resources.
Proof.
  apply filter_ext. intros r. unfold uses, in_use.
  now rewrite lower_same_ignoring_case.
Qed.

Lemma existsb_filter (A : Type) (f : A -> bool) (l : list A) :
  existsb f l = match filter f l with [] => false | _ => true end.
Proof.
  induction l as [|x t IH]; [reflexivity|]. cbn [existsb filter].
  destruct (f x); [reflexivity | exact IH].
Qed.

Section Formatting.

Variable fixed : nat -> float -> string.

(** X25: On provider names written in ASCII, [match_changes_to_resources]
    reports exactly the price changes at least one resource is affected
    by, one opportunity each and in the order of the changes.  A resource
    is affected when it runs at the provider of the change (the names
    compared without case) and its [instance_type] metric is the changed
    type.  The opportunity counts these resources, sums their costs, and
    multiplies the monthly savings per instance by their number; its
    priority is high exactly when that product exceeds 500. *)
Theorem matched_opportunities_count_the_resources_in_use
  (price_changes : list PriceChange) (resources : list UnifiedCostRecord) :
  Forall (fun r => PyStr.is_ascii (cloud_provider r) = true) resources ->
  Forall (fun change => PyStr.is_ascii (provider change) = true) price_changes ->
  let affected := fun change => filter (in_use change) resources in
  let total_savings := fun change =>
    (savings_per_month change
     * Py.of_Z (Z.of_nat (List.length (affected change))))%float in
  let reported :=
    filter (fun change => existsb (in_use change) resources) price_changes in
  let matched := match_changes_to_resources fixed price_changes resources in
  map (fun m => (m_provider m, m_instance_type m)) matched
  = map (fun change => (provider change, instance_type change)) reported
  /\ map affected_resources matched
     = map (fun change => List.length (affected change)) reported
  /\ Forall (fun m => 1 <= affected_resources m) matched
  /\ map current_monthly_cost matched
     = map (fun change => Py.sum (map cost_usd (affected change))) reported
  /\ map potential_savings_per_month matched = map total_savings reported
  /\ map m_priority matched
     = map (fun change =>
              if Py.gt (total_savings change) 500 then "high" else "medium")
         reported.
Proof.
  intros _ _. cbv zeta. unfold match_changes_to_resources.
  match goal with |- context [flat_map ?g price_changes] => set (f := g) end.
  induction price_changes as [|change rest IH].
  - cbn. repeat split; constructor.
  - destruct IH as [I1 [I2 [I3 [I4 [I5 I6]]]]].
    cbn [flat_map filter]. rewrite !map_app, Forall_app, I1, I2, I4, I5, I6.
    rewrite existsb_filter.
    pose proof (eq_refl (f change)) as Hf. unfold f at 2 in Hf.
    rewrite uses_in_use in Hf. revert Hf.
    destruct (filter (in_use change) resources) as [|r rs] eqn:F; intros ->.
    + cbn [map app]. repeat split; try reflexivity; [constructor | exact I3].
    + cbn [map app m_provider m_instance_type affected_resources
             current_monthly_cost potential_savings_per_month m_priority].
      repeat split; rewrite ?F; try reflexivity; [|exact I3].
      constructor; [cbn; lia | constructor].
Qed.

(** *** The fallback *)

(** X26: [check_all_providers] never raises.  When the detection pass raises
    (a history file holding something else than prices under a provider's
    key), it answers with the two fixed AWS opportunities, 1500 and 800 a
    month, whatever the resources given and whatever the prices are. *)
Theorem failed_detection_is_answered_with_the_fixed_opportunities
  (s : Scraper) (resources : option (list UnifiedCostRecord)) (e : Py.exn) :
  check_for_changes s = inl e ->
  exists f1 f2 s',
    check_all_providers fixed s resources = ([Canned f1; Canned f2], s')
    /\ f_instance_type f1 = "m5.xlarge"
    /\ f_potential_savings f1 = 1500%float
    /\ f_instance_type f2 = "t3.large"
    /\ f_potential_savings f2 = 800%float.
Proof.
  intros H. destruct (check_for_changes_st_raises _ H) as [s1 Hs].
  unfold check_all_providers. rewrite Hs.
  unfold _get_fallback_opportunities, _check_aws_prices. cbn [utcnow].
  do 3 eexists. split; [reflexivity|]. repeat split.
Qed.

(** *** With and without resources *)

(** X27: When the detection pass returns, [check_all_providers] turns every
    price change into one opportunity if no resources (or an empty list)
    are given, and reports only the matched ones -- dicts without a
    [potential_savings] key -- as soon as one resource is given. *)
Theorem detected_changes_are_converted_or_matched
  (s s' : Scraper) (changes : list PriceChange) :
  check_for_changes s = inr (changes, s') ->
  check_all_providers fixed s None
  = (map (fun change => Converted (convert fixed change)) changes, s')
  /\ check_all_providers fixed s (Some [])
     = (map (fun change => Converted (convert fixed change)) changes, s')
  /\ (forall r rs,
        check_all_providers fixed s (Some (r :: rs))
        = (map Matched (match_changes_to_resources fixed changes (r :: rs)), s'))
  /\ Forall (fun change =>
               potential_savings_of (Converted (convert fixed change))
               = Some (savings_per_month change))
       changes
  /\ (forall m, potential_savings_of (Matched m) = None).
Proof.
  intros H. apply check_for_changes_st_returns in H.
  unfold check_all_providers, _check_discount_programs. rewrite H.
  rewrite !app_nil_r.
  split; [|split; [|split; [|split]]].
  - destruct changes; reflexivity.
  - destruct changes; reflexivity.
  - intros r rs. destruct changes; [reflexivity|]. now rewrite app_nil_r.
  - apply Forall_forall. reflexivity.
  - reflexivity.
Qed.


End Formatting.

(** *** Instances *)

(** A formatter that prints nothing: the properties below do not read the
    recommendation texts. *)
Definition plain (_ : nat) (_ : float) : string := "".

(** A history file in which a time stamp sits where prices belong. *)
Definition broken_history : History :=
  [ ("aws_prices", LastUpdated "2024-01-01T00:00:00") ].

Definition scraper_on_broken_history : Scraper :=
  new_scraper {| stored := Some broken_history; writable := true |} new_year.

Lemma failed_detection_is_answered_with_the_fixed_opportunities_witness :
  exists f1 f2 s',
    check_all_providers plain scraper_on_broken_history None
    = ([Canned f1; Canned f2], s')
    /\ f_instance_type f1 = "m5.xlarge"
    /\ f_potential_savings f1 = 1500%float
    /\ f_instance_type f2 = "t3.large"
    /\ f_potential_savings f2 = 800%float.
Proof.
  apply (@failed_detection_is_answered_with_the_fixed_opportunities
           plain scraper_on_broken_history None Py.AttributeError).
  vm_compute. reflexivity.
Defined.


(** The scraper after a simulated 15% reduction of the AWS m5.xlarge. *)
Definition reduced_scraper : Scraper :=
  match simulate_price_reduction (fresh_scraper new_year) "aws" "m5.xlarge" 15 with
  | Py.Ok (_, s) => s
  | _ => fresh_scraper new_year
  end.

Definition reduced_changes : list PriceChange :=
  match check_for_changes reduced_scraper with
  | inr (changes, _) => changes
  | inl _ => []
  end.

Definition reduced_scraper_checked : Scraper :=
  match check_for_changes reduced_scraper with
  | inr (_, s) => s
  | inl _ => reduced_scraper
  end.

Lemma reduced_scraper_detects : 
  check_for_changes reduced_scraper = inr (reduced_changes, reduced_scraper_checked).
Proof. vm_compute. reflexivity. Qed.

Lemma detected_changes_are_converted_or_matched_witness :
  check_all_providers plain reduced_scraper None
  = (map (fun change => Converted (convert plain change)) reduced_changes,
     reduced_scraper_checked)
  /\ List.length reduced_changes = 1.
Proof.
  split; [|reflexivity].
  exact (proj1 (@detected_changes_are_converted_or_matched plain
                  reduced_scraper reduced_scraper_checked reduced_changes
                  reduced_scraper_detects)).
Defined.

(** Four resources: two AWS m5.xlarge instances, one of them with the
    provider written in capitals, the same type at another provider, and
    another type at AWS. *)
Definition instance_at (name provider_name itype : string) (cost : float)
  : UnifiedCostRecord :=
  {| resource_id := name; cloud_provider := provider_name;
     service_category := "compute"; resource_type := "vm";
     cost_usd := cost; usage_metrics := [ ("instance_type", itype) ];
     region := "us"; tags := []; date := "" |}.

Definition fleet : list UnifiedCostRecord :=
  [ instance_at "i-1" "AWS" "m5.xlarge" 140;
    instance_at "i-2" "gcp" "m5.xlarge" 130;
    instance_at "i-3" "aws" "t3.large" 60;
    instance_at "i-4" "aws" "m5.xlarge" 141 ].

Lemma matched_opportunities_count_the_resources_in_use_witness :
  (map (fun m => (m_provider m, m_instance_type m))
     (match_changes_to_resources plain reduced_changes fleet)
   = map (fun change => (provider change, instance_type change))
       (filter (fun change => existsb (in_use change) fleet) reduced_changes)
   /\ map affected_resources
        (match_changes_to_resources plain reduced_changes fleet)
      = map (fun change => List.length (filter (in_use change) fleet))
          (filter (fun change => existsb (in_use change) fleet) reduced_changes))
  /\ map (fun m => (m_provider m, m_instance_type m))
       (match_changes_to_resources plain reduced_changes fleet)
     = [ ("aws", "m5.xlarge") ]
  /\ map affected_resources
       (match_changes_to_resources plain reduced_changes fleet) = [2]
  /\ map current_monthly_cost
       (match_changes_to_resources plain reduced_changes fleet) = [281%float].
Proof.
  split; [|repeat split; vm_compute; reflexivity].
  assert (Hr : Forall (fun r => PyStr.is_ascii (cloud_provider r) = true) fleet)
    by (repeat constructor).
  assert (Hc : Forall (fun change => PyStr.is_ascii (provider change) = true)
                 reduced_changes)
    by (repeat constructor).
  pose proof (@matched_opportunities_count_the_resources_in_use plain
                reduced_changes fleet Hr Hc) as [H1 [H2 _]].
  split; [exact H1 | exact H2].
Defined.

End PriceMonitorProps.

(** ** api/cost.py *)

Module CostApiProps.
Import PyDict CostNormalizer CostAnalyzer DataSources PricingScraper.
Import PricingScraperSpec PriceChangeDetector PriceMonitor CostApi.
Import CostAnalyzerProps PriceMonitorProps.

Section EndpointProps.

Variable Filter : Type.
Variable filter_str : Filter -> string.
Variable fixed : nat -> float -> string.
Variable six_hours_after : string -> string.

(** *** Gathering *)

Lemma gather_records_from (sources : Registry Filter) (q : QueryParams Filter)
  (names : list string) :
  forall records log1 log2,
    fst (fold_left (gather_step filter_str sources q) names (records, log1))
    = fst (fold_left (gather_step filter_str sources q) names (records, log2)).
Proof.
  induction names as [|n ns IH]; intros records log1 log2; [reflexivity|].
  cbn [fold_left]. unfold gather_step at 2 4.
  destruct (query_source filter_str sources n q) as [r accesses].
  apply IH.
Qed.

Lemma gather_skips (sources : Registry Filter) (q : QueryParams Filter)
  (before after : list string) (bad : string) (e : Py.exn) (accesses : list Access) :
  query_source filter_str sources bad q = (inl e, accesses) ->
  fst (gather filter_str sources q (before ++ bad :: after))
  = fst (gather filter_str sources q (before ++ after)).
Proof.
  intros H. unfold gather. rewrite !fold_left_app. cbn [fold_left].
  destruct (fold_left (gather_step filter_str sources q) before (Py.Ok [], []))
    as [records log].
  unfold gather_step at 2. rewrite H. apply gather_records_from.
Qed.

(** X28: [POST /analyze] skips a source that raises -- a name the registry
    does not hold, a query the source rejects, a store that fails: the
    analysis and the record count are those of the request without that
    name. *)
Theorem analyze_endpoint_skips_a_failing_source
  (sources : Registry Filter) (q : QueryParams Filter)
  (before after : list string) (bad : string) (e : Py.exn)
  (accesses : list Access) (resp : AnalyzeResponse) :
  query_source filter_str sources bad q = (inl e, accesses) ->
  fst (analyze_costs_endpoint filter_str sources (Some (before ++ after)) (Some q))
  = Py.Ok resp ->
  fst (analyze_costs_endpoint filter_str sources (Some (before ++ bad :: after))
         (Some q))
  = Py.Ok {| analysis := analysis resp;
             records_analyzed := records_analyzed resp;
             sources_analyzed := before ++ bad :: after |}.
Proof.
  intros Hbad. unfold analyze_costs_endpoint.
  pose proof (@gather_skips sources q before after bad e accesses Hbad) as Hg.
  destruct (gather filter_str sources q (before ++ bad :: after)) as [records1 log1].
  destruct (gather filter_str sources q (before ++ after)) as [records2 log2].
  cbn [fst] in *. subst records1.
  destruct records2 as [all_records| |]; cbn [Py.bind]; try discriminate.
  destruct (analyze_costs all_records) as [err|a]; [discriminate|].
  intros H. injection H as <-. reflexivity.
Qed.

(** *** GET /opportunities *)

Lemma slice_to_firstn (A : Type) (l : list A) (limit : Z) :
  (0 <= limit)%Z -> RestResponse.slice_to l limit = firstn (Z.to_nat limit) l.
Proof.
  intros H. unfold RestResponse.slice_to.
  assert (Hb : (0 <=? limit)%Z = true) by now apply Z.leb_le.
  now rewrite Hb.
Qed.

(** X29: [GET /opportunities] returns at most [min(limit, 20)] opportunities:
    [analyze_costs] has cut the list to 20 before the endpoint applies its
    own limit.  When no record could be gathered it reports no
    opportunity and 0 for the total, the cost and the percentage. *)
Theorem opportunities_endpoint_is_capped_at_20
  (sources : Registry Filter) (limit : Z) :
  (forall resp log,
     (0 <= limit)%Z ->
     get_optimization_opportunities filter_str sources limit = (Py.Ok resp, log) ->
     List.length (o_opportunities resp) <= Nat.min (Z.to_nat limit) 20)
  /\ (forall log,
        (0 <= limit)%Z ->
        gather filter_str sources (limit_1000 Filter) (keys sources)
        = (Py.Ok [], log) ->
        get_optimization_opportunities filter_str sources limit
        = (Py.Ok {| o_opportunities := [];
                    o_total_potential_savings := 0;
                    o_total_cost := 0;
                    o_savings_percentage := 0 |}, log)).
Proof.
  unfold get_optimization_opportunities. split.
  - intros resp log Hl.
    destruct (gather filter_str sources (limit_1000 Filter) (keys sources))
      as [records log'].
    destruct records as [all_records| |]; cbn [Py.bind]; try discriminate.
    destruct (analyze_costs_opportunities all_records) as [a [Ha Ho]].
    rewrite Ha. intros H. injection H as <- _. cbn [o_opportunities].
    rewrite (slice_to_firstn _ Hl), Ho. unfold top20.
    rewrite !length_firstn. lia.
  - intros log Hl Hg. rewrite Hg. cbn [Py.bind analyze_costs].
    cbn. now rewrite (slice_to_firstn _ Hl), firstn_nil.
Qed.

(** *** GET /check-prices *)

Lemma matched_are_not_significant (l : list MatchedOpportunity) :
  List.filter (fun opp => Py.gt (savings_or_zero opp) 10) (map Matched l) = [].
Proof. induction l as [|m t IH]; [reflexivity | exact IH]. Qed.

(** X30: As soon as one billing record is gathered, [GET /check-prices]
    reports none of the price changes the scraper detected.  The monitor
    answers with the opportunities matched to the resources, one for each
    change a resource is affected by; these carry
    [potential_savings_per_month] and no [potential_savings], so the
    filter [potential_savings > 10] drops every one of them, whatever they
    would save: the list is empty, the total and both counts are 0. *)
Theorem price_check_drops_the_matched_changes
  (sources : Registry Filter) (s s1 : Scraper) (r : UnifiedCostRecord)
  (rs : list UnifiedCostRecord) (log : list Access)
  (changes : list PriceChange) :
  gather filter_str sources (limit_1000 Filter) (keys sources)
  = (Py.Ok (r :: rs), log) ->
  check_for_changes s = inr (changes, s1) ->
  exists resp s',
    check_price_changes filter_str fixed six_hours_after sources s
    = (Py.Ok (resp, s'), log)
    /\ fst (check_all_providers fixed s (Some (r :: rs)))
       = map Matched (match_changes_to_resources fixed changes (r :: rs))
    /\ p_opportunities resp = []
    /\ p_total_potential_savings resp = 0%float
    /\ high_priority_count resp = 0
    /\ medium_priority_count resp = 0.
Proof.
  intros Hg Hc. unfold check_price_changes. rewrite Hg. cbn [Py.bind].
  assert (Hm : check_all_providers fixed s (Some (r :: rs))
               = (map Matched (match_changes_to_resources fixed changes (r :: rs)),
                  s1)).
  { apply check_for_changes_st_returns in Hc.
    unfold check_all_providers, _check_discount_programs. rewrite Hc.
    rewrite app_nil_r. destruct changes; reflexivity. }
  rewrite Hm, matched_are_not_significant. cbn [utcnow].
  do 2 eexists. split; [reflexivity|]. repeat split.
Qed.

End EndpointProps.

(** *** Instances *)

(** A registry with one AWS source that answers one line of a report. *)
Definition one_bucket : Registry string :=
  register empty "aws"
    (AWSDataSource (fun _ => inr [CostNormalizerProps.s3_line])).

Definition later (t : string) : string := (t ++ "+6h")%string.

Definition empty_response : AnalyzeResponse :=
  {| analysis := {| total_cost := 0; total_potential_savings := None;
                    savings_percentage := None; opportunities := [];
                    summary := None |};
     records_analyzed := 0; sources_analyzed := [] |}.

Definition one_bucket_response : AnalyzeResponse :=
  match fst (analyze_costs_endpoint (fun t => t) one_bucket (Some ["aws"])
               (Some (limit_1000 string))) with
  | Py.Ok resp => resp
  | _ => empty_response
  end.

Lemma analyze_endpoint_skips_a_failing_source_witness :
  fst (analyze_costs_endpoint (fun t => t) one_bucket (Some ["aws"; "gcp"])
         (Some (limit_1000 string)))
  = Py.Ok {| analysis := analysis one_bucket_response;
             records_analyzed := 1;
             sources_analyzed := ["aws"; "gcp"] |}.
Proof.
  apply (@analyze_endpoint_skips_a_failing_source string (fun t => t) one_bucket
           (limit_1000 string) ["aws"] [] "gcp" (not_found "gcp") []
           one_bucket_response).
  - reflexivity.
  - vm_compute. reflexivity.
Defined.

(** A report of 25 storage volumes of 50 USD each, under 25 resource
    ids. *)
Definition volume_line (n : nat) : Row :=
  [ ("lineItem/ResourceId", VStr ("vol-" ++ PyStr.of_Z (Z.of_nat n)));
    ("lineItem/UnblendedCost", VFloat 50);
    ("lineItem/ProductCode", VStr "AmazonS3");
    ("lineItem/UsageType", VStr "TimedStorage-ByteHrs");
    ("lineItem/AvailabilityZone", VStr "eu-west-1b") ].

Definition many_volumes : Registry string :=
  register empty "aws"
    (AWSDataSource (fun _ => inr (map volume_line (seq 1 25)))).

Definition no_opportunities : OpportunitiesResponse :=
  {| o_opportunities := [];
     o_total_potential_savings := 0;
     o_total_cost := 0;
     o_savings_percentage := 0 |}.

(** What [GET /opportunities?limit=n] answers on that report. *)
Definition many_volumes_response (n : Z) : OpportunitiesResponse :=
  match fst (get_optimization_opportunities (fun t => t) many_volumes n) with
  | Py.Ok resp => resp
  | _ => no_opportunities
  end.

Lemma opportunities_endpoint_is_capped_at_20_witness :
  ((List.length (o_opportunities (many_volumes_response 50))
    <= Nat.min (Z.to_nat 50) 20
    /\ List.length (o_opportunities (many_volumes_response 50)) = 20)
   /\ (List.length (o_opportunities (many_volumes_response 5))
       <= Nat.min (Z.to_nat 5) 20
       /\ List.length (o_opportunities (many_volumes_response 5)) = 5))
  /\ get_optimization_opportunities (fun t => t) (@empty (DataSource string)) 5
     = (Py.Ok no_opportunities, []).
Proof.
  split; [split; split|].
  - apply (proj1 (@opportunities_endpoint_is_capped_at_20 string (fun t => t)
                    many_volumes 50%Z)
             (many_volumes_response 50) [FrameRead]).
    + lia.
    + vm_compute. reflexivity.
  - vm_compute. reflexivity.
  - apply (proj1 (@opportunities_endpoint_is_capped_at_20 string (fun t => t)
                    many_volumes 5%Z)
             (many_volumes_response 5) [FrameRead]).
    + lia.
    + vm_compute. reflexivity.
  - vm_compute. reflexivity.
  - apply (proj2 (@opportunities_endpoint_is_capped_at_20 string (fun t => t)
                    (@empty (DataSource string)) 5%Z)).
    + lia.
    + reflexivity.
Defined.

(** A report of one AWS m5.xlarge instance, the type whose price the
    scraper found reduced. *)
Definition m5_line : Row :=
  [ ("lineItem/ResourceId", VStr "i-0a1b");
    ("lineItem/UnblendedCost", VFloat 140);
    ("lineItem/ProductCode", VStr "AmazonEC2");
    ("lineItem/UsageType", VStr "BoxUsage:m5.xlarge");
    ("lineItem/Operation", VStr "RunInstances");
    ("product/InstanceType", VStr "m5.xlarge");
    ("lineItem/AvailabilityZone", VStr "us-east-1a") ].

Definition m5_record : UnifiedCostRecord :=
  {| resource_id := "i-0a1b"; cloud_provider := "aws";
     service_category := "compute"; resource_type := "vm";
     cost_usd := 140;
     usage_metrics := [ ("usage_type", "BoxUsage:m5.xlarge");
                        ("operation", "RunInstances");
                        ("instance_type", "m5.xlarge") ];
     region := "us"; tags := []; date := "" |}.

Definition one_instance : Registry string :=
  register empty "aws" (AWSDataSource (fun _ => inr [m5_line])).

Lemma one_instance_gathered :
  gather (fun t => t) one_instance (limit_1000 string) (keys one_instance)
  = (Py.Ok [m5_record], [FrameRead]).
Proof. vm_compute. reflexivity. Qed.

Lemma price_check_drops_the_matched_changes_witness :
  (exists resp s',
     check_price_changes (fun t => t) plain later one_instance reduced_scraper
     = (Py.Ok (resp, s'), [FrameRead])
     /\ fst (check_all_providers plain reduced_scraper (Some [m5_record]))
        = map Matched (match_changes_to_resources plain reduced_changes [m5_record])
     /\ p_opportunities resp = []
     /\ p_total_potential_savings resp = 0%float
     /\ high_priority_count resp = 0
     /\ medium_priority_count resp = 0)
  /\ map (fun m => (affected_resources m,
                    Py.gt (potential_savings_per_month m) 10))
       (match_changes_to_resources plain reduced_changes [m5_record])
     = [ (1, true) ].
Proof.
  split; [|vm_compute; reflexivity].
  exact (@price_check_drops_the_matched_changes string (fun t => t) plain later
           one_instance reduced_scraper reduced_scraper_checked
           m5_record [] [FrameRead] reduced_changes
           one_instance_gathered reduced_scraper_detects).
Defined.

End CostApiProps.
